(** * AceButtonIdf: the button classifier of [src/src/AceButton.cpp]

    A shallow embedding of [AceButton::checkState] and of the checks it
    calls, followed by the properties of the classifier.  The button object
    is a record, the event sink is an output trace, and every [checkXxx()]
    member function is a computation in a small state-and-output monad, so
    that each definition can be read next to the C++ function it embeds. *)

From Stdlib Require Import ZArith List Bool String Lia.
Import ListNotations.
Open Scope Z_scope.

(** ** Machine integers *)

(** [int64_t]: the type of [now] and of every [elapsedTime] in the source.
    A difference that leaves the range is undefined in C++; it is given
    its value in two's complement on 64 bits, with the wrap-around written
    out. *)
Module Int64.

Definition half : Z := 2 ^ 63.
Definition modulus : Z := 2 ^ 64.
Definition min_signed : Z := - half.
Definition max_signed : Z := half - 1.

Definition in_range (z : Z) : Prop := min_signed <= z <= max_signed.

(** The representative of [z] in the signed range. *)
Definition wrap (z : Z) : Z := (z + half) mod modulus - half.

(** [a - b] on two [int64_t] operands. *)
Definition sub (a b : Z) : Z := wrap (a - b).

(** The same 64 bits read as [uint64_t]. *)
Definition unsigned (z : Z) : Z := z mod modulus.

End Int64.

(** The conversion of an [int] argument to a [uint16_t] parameter. *)
Definition to_uint16 (z : Z) : Z := z mod 65536.

(** Conversion to [uint8_t], the type of the parameters of [init] and
    [setDefaultReleasedState]. *)
Definition to_uint8 (z : Z) : Z := z mod 256.

(** [HIGH] and [LOW]; the source asserts these values at compile time. *)
Definition HIGH : Z := 1.
Definition LOW : Z := 0.

(** ** Events *)

(** The event kinds.  The constants [kEventXxx] are declared in the
    header; they are listed in the order of the table [sEventNames], which
    the lookup described in [eventName] indexes with the code. *)
Inductive EventType : Type :=
| kEventPressed
| kEventReleased
| kEventClicked
| kEventDoubleClicked
| kEventLongPressed
| kEventRepeatPressed
| kEventLongReleased
| kEventHeartBeat.

Definition EventType_eqb (a b : EventType) : bool :=
  match a, b with
  | kEventPressed, kEventPressed
  | kEventReleased, kEventReleased
  | kEventClicked, kEventClicked
  | kEventDoubleClicked, kEventDoubleClicked
  | kEventLongPressed, kEventLongPressed
  | kEventRepeatPressed, kEventRepeatPressed
  | kEventLongReleased, kEventLongReleased
  | kEventHeartBeat, kEventHeartBeat => true
  | _, _ => false
  end.

(** The [uint8_t] code of an event kind: its index in [sEventNames]. *)
Definition eventCode (e : EventType) : Z :=
  match e with
  | kEventPressed => 0
  | kEventReleased => 1
  | kEventClicked => 2
  | kEventDoubleClicked => 3
  | kEventLongPressed => 4
  | kEventRepeatPressed => 5
  | kEventLongReleased => 6
  | kEventHeartBeat => 7
  end.

Definition sEventPressed : string := "Pressed".
Definition sEventReleased : string := "Released".
Definition sEventClicked : string := "Clicked".
Definition sEventDoubleClicked : string := "DoubleClicked".
Definition sEventLongPressed : string := "LongPressed".
Definition sEventRepeatPressed : string := "RepeatPressed".
Definition sEventLongReleased : string := "LongReleased".
Definition sEventHeartBeat : string := "HeartBeat".
Definition sEventUnknown : string := "(unknown)".

Definition sEventNames : list string :=
  [ sEventPressed; sEventReleased; sEventClicked; sEventDoubleClicked;
    sEventLongPressed; sEventRepeatPressed; sEventLongReleased;
    sEventHeartBeat ].

(** [AceButton::eventName].  The table lookup is commented out in the
    source; the body that is compiled returns [sEventUnknown]. *)
Definition eventName (event : Z) : string := sEventUnknown.

(** The lookup that the comment inside [AceButton::eventName] describes:
    the table entry for a code below the table size, [sEventUnknown]
    otherwise. *)
Definition eventName_table (event : Z) : string :=
  if (0 <=? event) && (event <? Z.of_nat (List.length sEventNames))
  then nth (Z.to_nat event) sEventNames sEventUnknown
  else sEventUnknown.

(** What [ButtonConfig::dispatchEvent] receives from [handleEvent]: the
    event kind and the button state read at the time of the call.  The
    first argument, [this], is the one button whose state is threaded
    through the computation. *)
Record Event : Type := mkEvent {
  eventType : EventType;
  buttonState : Z
}.

(** ** Configuration *)

(** The features that the source tests with [ButtonConfig::isFeature]. *)
Inductive Feature : Type :=
| kFeatureClick
| kFeatureDoubleClick
| kFeatureLongPress
| kFeatureRepeatPress
| kFeatureSuppressAfterClick
| kFeatureSuppressAfterDoubleClick
| kFeatureSuppressAfterLongPress
| kFeatureSuppressAfterRepeatPress
| kFeatureSuppressClickBeforeDoubleClick
| kFeatureHeartBeat.

(** Modelled from the spec: [ButtonConfig] is declared in a header that is
    not under src/.  It is read-only for the classifier and provides the
    enabled-feature set and the numeric delays of section 3; each delay is
    the value that the comparison in the source sees after the usual
    conversion to [int64_t]. *)
Record ButtonConfig : Type := mkButtonConfig {
  isFeature : Feature -> bool;
  getDebounceDelay : Z;
  getClickDelay : Z;
  getDoubleClickDelay : Z;
  getLongPressDelay : Z;
  getRepeatPressDelay : Z;
  getRepeatPressInterval : Z;
  getHeartBeatInterval : Z
}.

(** ** The button object *)

(** Modelled from the spec: the class is declared in include/AceButton.h,
    which is not under src/.  The fields are those that the member
    functions of AceButton.cpp read and write: the state record of section
    3, with the pin and the identifier that [init] stores.  The time
    stamps hold values of [now], an [int64_t]; [checkClicked] prints
    [mLastPressTime] with the format of a 64-bit integer. *)
Record AceButton : Type := mkAceButton {
  mPin : Z;
  mId : Z;
  mFlags : Z;
  mLastButtonState : Z;
  mLastDebounceTime : Z;
  mLastPressTime : Z;
  mLastClickTime : Z;
  mLastRepeatPressTime : Z;
  mLastHeartBeatTime : Z
}.

(** Modelled from the spec: the flag masks and [kButtonStateUnknown] are
    constants of include/AceButton.h, which is not under src/.  Section 3
    lists the flags as independent conditions of one bit set; each gets a
    bit of its own, next to the bit that [setDefaultReleasedState] writes.
    The proofs use only that the masks are non-zero and pairwise disjoint,
    and that the sentinel is neither [LOW] nor [HIGH]. *)
Definition kFlagDefaultReleasedState : Z := 1.
Definition kFlagDebouncing : Z := 2.
Definition kFlagPressed : Z := 4.
Definition kFlagClicked : Z := 8.
Definition kFlagDoubleClicked : Z := 16.
Definition kFlagLongPressed : Z := 32.
Definition kFlagRepeatPressed : Z := 64.
Definition kFlagClickPostponed : Z := 128.
Definition kFlagHeartRunning : Z := 256.

Definition kButtonStateUnknown : Z := 127.

Definition with_mFlags (v : Z) (s : AceButton) : AceButton :=
  mkAceButton (mPin s) (mId s) v (mLastButtonState s) (mLastDebounceTime s)
    (mLastPressTime s) (mLastClickTime s) (mLastRepeatPressTime s)
    (mLastHeartBeatTime s).

Definition with_mLastButtonState (v : Z) (s : AceButton) : AceButton :=
  mkAceButton (mPin s) (mId s) (mFlags s) v (mLastDebounceTime s)
    (mLastPressTime s) (mLastClickTime s) (mLastRepeatPressTime s)
    (mLastHeartBeatTime s).

Definition with_mLastDebounceTime (v : Z) (s : AceButton) : AceButton :=
  mkAceButton (mPin s) (mId s) (mFlags s) (mLastButtonState s) v
    (mLastPressTime s) (mLastClickTime s) (mLastRepeatPressTime s)
    (mLastHeartBeatTime s).

Definition with_mLastPressTime (v : Z) (s : AceButton) : AceButton :=
  mkAceButton (mPin s) (mId s) (mFlags s) (mLastButtonState s)
    (mLastDebounceTime s) v (mLastClickTime s) (mLastRepeatPressTime s)
    (mLastHeartBeatTime s).

Definition with_mLastClickTime (v : Z) (s : AceButton) : AceButton :=
  mkAceButton (mPin s) (mId s) (mFlags s) (mLastButtonState s)
    (mLastDebounceTime s) (mLastPressTime s) v (mLastRepeatPressTime s)
    (mLastHeartBeatTime s).

Definition with_mLastRepeatPressTime (v : Z) (s : AceButton) : AceButton :=
  mkAceButton (mPin s) (mId s) (mFlags s) (mLastButtonState s)
    (mLastDebounceTime s) (mLastPressTime s) (mLastClickTime s) v
    (mLastHeartBeatTime s).

Definition with_mLastHeartBeatTime (v : Z) (s : AceButton) : AceButton :=
  mkAceButton (mPin s) (mId s) (mFlags s) (mLastButtonState s)
    (mLastDebounceTime s) (mLastPressTime s) (mLastClickTime s)
    (mLastRepeatPressTime s) v.

(** Modelled from the spec: [isFlag], [setFlag], [clearFlag] and
    [getLastButtonState] are inline members of the header.  A flag is a
    bit of [mFlags], tested with [mFlags & flag], set with
    [mFlags |= flag] and cleared with [mFlags &= ~flag], as
    [setDefaultReleasedState] and the comment in [checkReleased] do. *)
Definition isFlag (flag : Z) (s : AceButton) : bool :=
  negb (Z.land (mFlags s) flag =? 0).

Definition setFlag (flag : Z) (s : AceButton) : AceButton :=
  with_mFlags (Z.lor (mFlags s) flag) s.

Definition clearFlag (flag : Z) (s : AceButton) : AceButton :=
  with_mFlags (Z.land (mFlags s) (Z.lnot flag)) s.

Definition getLastButtonState (s : AceButton) : Z := mLastButtonState s.

(** [AceButton::setDefaultReleasedState]; its parameter is a
    [uint8_t]. *)
Definition setDefaultReleasedState (state : Z) (s : AceButton) : AceButton :=
  let state := to_uint8 state in
  if state =? HIGH
  then with_mFlags (Z.lor (mFlags s) kFlagDefaultReleasedState) s
  else with_mFlags (Z.land (mFlags s) (Z.lnot kFlagDefaultReleasedState)) s.

(** [AceButton::getDefaultReleasedState]. *)
Definition getDefaultReleasedState (s : AceButton) : Z :=
  if negb (Z.land (mFlags s) kFlagDefaultReleasedState =? 0)
  then HIGH else LOW.

(** [AceButton::init(pin, defaultReleasedState, id)]; the three
    parameters are [uint8_t].  The five time stamps are not assigned by
    [init]; they keep what the object held. *)
Definition init (pin defaultReleasedState id : Z) (s : AceButton)
  : AceButton :=
  let pin := to_uint8 pin in
  let defaultReleasedState := to_uint8 defaultReleasedState in
  let id := to_uint8 id in
  setDefaultReleasedState defaultReleasedState
    (mkAceButton pin id 0 kButtonStateUnknown (mLastDebounceTime s)
       (mLastPressTime s) (mLastClickTime s) (mLastRepeatPressTime s)
       (mLastHeartBeatTime s)).

(** ** The monad of the member functions

    A member function reads and writes the button object and may call
    [handleEvent]; it is a function from the object to a result, the new
    object and the events dispatched, oldest first. *)

Record Res (A : Type) : Type := mkRes {
  val : A;
  st : AceButton;
  out : list Event
}.
Arguments mkRes {A} _ _ _.
Arguments val {A} _.
Arguments st {A} _.
Arguments out {A} _.

Definition M (A : Type) : Type := AceButton -> Res A.

Definition ret {A : Type} (a : A) : M A := fun s => mkRes a s [].

Definition bind {A B : Type} (m : M A) (f : A -> M B) : M B :=
  fun s =>
    let r := m s in
    let r' := f (val r) (st r) in
    mkRes (val r') (st r') (out r ++ out r').

Definition gets {A : Type} (f : AceButton -> A) : M A :=
  fun s => mkRes (f s) s [].

Definition modify (f : AceButton -> AceButton) : M unit :=
  fun s => mkRes tt (f s) [].

Definition when (c : bool) (m : M unit) : M unit :=
  if c then m else ret tt.

Declare Scope button_scope.
Delimit Scope button_scope with button.
Notation "x <- c1 ;; c2" := (bind c1 (fun x => c2))
  (at level 61, c1 at next level, right associativity) : button_scope.
Notation "c1 ;; c2" := (bind c1 (fun _ => c2))
  (at level 61, right associativity) : button_scope.
Open Scope button_scope.

(** [AceButton::handleEvent]: the sink receives the event kind together
    with [getLastButtonState()] as it is at the time of the call. *)
Definition handleEvent (e : EventType) : M unit :=
  fun s => mkRes tt s [mkEvent e (getLastButtonState s)].

(** ** The checks of [AceButton.cpp]

    [now] is the value that [checkState] reads once from
    [mButtonConfig->getClock()]; [buttonState] is the sampled level.  The
    two [printf] calls of [checkClicked] and [checkDoubleClicked] write to
    the console, not to the event sink, and have no counterpart here. *)

Section Checks.

Variable mButtonConfig : ButtonConfig.

(** [AceButton::checkDebounced]. *)
Definition checkDebounced (now buttonState : Z) : M bool :=
  debouncing <- gets (isFlag kFlagDebouncing) ;;
  if debouncing then
    lastDebounceTime <- gets mLastDebounceTime ;;
    let elapsedTime := Int64.sub now lastDebounceTime in
    let isDebouncingTimeOver :=
      elapsedTime >=? getDebounceDelay mButtonConfig in
    if isDebouncingTimeOver then
      modify (clearFlag kFlagDebouncing) ;;
      ret true
    else
      ret false
  else
    lastButtonState <- gets getLastButtonState ;;
    if buttonState =? lastButtonState then
      ret true
    else
      modify (setFlag kFlagDebouncing) ;;
      modify (with_mLastDebounceTime now) ;;
      ret false.

(** [AceButton::checkInitialized]; its parameter is a [uint16_t]. *)
Definition checkInitialized (buttonState : Z) : M bool :=
  let buttonState := to_uint16 buttonState in
  lastButtonState <- gets mLastButtonState ;;
  if negb (lastButtonState =? kButtonStateUnknown) then
    ret true
  else
    modify (with_mLastButtonState buttonState) ;;
    ret false.

(** [AceButton::checkLongPress]. *)
Definition checkLongPress (now buttonState : Z) : M unit :=
  released <- gets getDefaultReleasedState ;;
  if buttonState =? released then ret tt else
  pressed <- gets (isFlag kFlagPressed) ;;
  longPressed <- gets (isFlag kFlagLongPressed) ;;
  when (pressed && negb longPressed) (
    lastPressTime <- gets mLastPressTime ;;
    let elapsedTime := Int64.sub now lastPressTime in
    when (elapsedTime >=? getLongPressDelay mButtonConfig) (
      modify (setFlag kFlagLongPressed) ;;
      handleEvent kEventLongPressed)).

(** [AceButton::checkRepeatPress]. *)
Definition checkRepeatPress (now buttonState : Z) : M unit :=
  released <- gets getDefaultReleasedState ;;
  if buttonState =? released then ret tt else
  pressed <- gets (isFlag kFlagPressed) ;;
  when pressed (
    repeatPressed <- gets (isFlag kFlagRepeatPressed) ;;
    if repeatPressed then
      lastRepeatPressTime <- gets mLastRepeatPressTime ;;
      let elapsedTime := Int64.sub now lastRepeatPressTime in
      when (elapsedTime >=? getRepeatPressInterval mButtonConfig) (
        handleEvent kEventRepeatPressed ;;
        modify (with_mLastRepeatPressTime now))
    else
      lastPressTime <- gets mLastPressTime ;;
      let elapsedTime := Int64.sub now lastPressTime in
      when (elapsedTime >=? getRepeatPressDelay mButtonConfig) (
        modify (setFlag kFlagRepeatPressed) ;;
        handleEvent kEventRepeatPressed ;;
        modify (with_mLastRepeatPressTime now))).

(** [AceButton::checkPressed]. *)
Definition checkPressed (now buttonState : Z) : M unit :=
  released <- gets getDefaultReleasedState ;;
  if buttonState =? released then ret tt else
  modify (with_mLastPressTime now) ;;
  modify (setFlag kFlagPressed) ;;
  handleEvent kEventPressed.

(** [AceButton::checkDoubleClicked]. *)
Definition checkDoubleClicked (now : Z) : M unit :=
  clicked <- gets (isFlag kFlagClicked) ;;
  if negb clicked then
    modify (clearFlag kFlagDoubleClicked)
  else
    lastClickTime <- gets mLastClickTime ;;
    let elapsedTime := Int64.sub now lastClickTime in
    if elapsedTime >=? getDoubleClickDelay mButtonConfig then
      modify (clearFlag kFlagDoubleClicked)
    else
      postponed <- gets (isFlag kFlagClickPostponed) ;;
      when postponed (modify (clearFlag kFlagClickPostponed)) ;;
      modify (setFlag kFlagDoubleClicked) ;;
      handleEvent kEventDoubleClicked.

(** [AceButton::checkClicked]. *)
Definition checkClicked (now : Z) : M unit :=
  lastPressTime <- gets mLastPressTime ;;
  let elapsedTime := Int64.sub now lastPressTime in
  if elapsedTime >=? getClickDelay mButtonConfig then
    modify (clearFlag kFlagClicked)
  else
    when (isFeature mButtonConfig kFeatureDoubleClick)
      (checkDoubleClicked now) ;;
    doubleClicked <- gets (isFlag kFlagDoubleClicked) ;;
    if doubleClicked then
      modify (clearFlag kFlagClicked)
    else
      modify (with_mLastClickTime now) ;;
      modify (setFlag kFlagClicked) ;;
      if isFeature mButtonConfig kFeatureSuppressClickBeforeDoubleClick then
        modify (setFlag kFlagClickPostponed)
      else
        handleEvent kEventClicked.

(** [AceButton::checkReleased]. *)
Definition checkReleased (now buttonState : Z) : M unit :=
  released <- gets getDefaultReleasedState ;;
  if negb (buttonState =? released) then ret tt else
  when (isFeature mButtonConfig kFeatureClick
        || isFeature mButtonConfig kFeatureDoubleClick)
    (checkClicked now) ;;
  wasLongPressed <- gets (isFlag kFlagLongPressed) ;;
  suppress <- gets (fun s =>
    (isFlag kFlagLongPressed s
       && isFeature mButtonConfig kFeatureSuppressAfterLongPress)
    || (isFlag kFlagRepeatPressed s
       && isFeature mButtonConfig kFeatureSuppressAfterRepeatPress)
    || (isFlag kFlagClicked s
       && isFeature mButtonConfig kFeatureSuppressAfterClick)
    || (isFlag kFlagDoubleClicked s
       && isFeature mButtonConfig kFeatureSuppressAfterDoubleClick)) ;;
  modify (clearFlag kFlagPressed) ;;
  modify (clearFlag kFlagDoubleClicked) ;;
  modify (clearFlag kFlagLongPressed) ;;
  modify (clearFlag kFlagRepeatPressed) ;;
  if suppress then
    when wasLongPressed (handleEvent kEventLongReleased)
  else
    handleEvent kEventReleased.

(** [AceButton::checkChanged]. *)
Definition checkChanged (now buttonState : Z) : M unit :=
  modify (with_mLastButtonState buttonState) ;;
  checkPressed now buttonState ;;
  checkReleased now buttonState.

(** [AceButton::checkOrphanedClick]. *)
Definition checkOrphanedClick (now : Z) : M unit :=
  let orphanedClickDelay := getDoubleClickDelay mButtonConfig in
  lastClickTime <- gets mLastClickTime ;;
  let elapsedTime := Int64.sub now lastClickTime in
  clicked <- gets (isFlag kFlagClicked) ;;
  when (clicked && (elapsedTime >=? orphanedClickDelay))
    (modify (clearFlag kFlagClicked)).

(** [AceButton::checkPostponedClick]. *)
Definition checkPostponedClick (now : Z) : M unit :=
  let postponedClickDelay := getDoubleClickDelay mButtonConfig in
  lastClickTime <- gets mLastClickTime ;;
  let elapsedTime := Int64.sub now lastClickTime in
  postponed <- gets (isFlag kFlagClickPostponed) ;;
  when (postponed && (elapsedTime >=? postponedClickDelay)) (
    handleEvent kEventClicked ;;
    modify (clearFlag kFlagClickPostponed)).

(** [AceButton::checkHeartBeat]. *)
Definition checkHeartBeat (now : Z) : M unit :=
  if negb (isFeature mButtonConfig kFeatureHeartBeat) then ret tt else
  running <- gets (isFlag kFlagHeartRunning) ;;
  if negb running then
    modify (setFlag kFlagHeartRunning) ;;
    modify (with_mLastHeartBeatTime now)
  else
    lastHeartBeatTime <- gets mLastHeartBeatTime ;;
    let elapsedTime := Int64.sub now lastHeartBeatTime in
    when (elapsedTime >=? getHeartBeatInterval mButtonConfig) (
      handleEvent kEventHeartBeat ;;
      modify (with_mLastHeartBeatTime now)).

(** [AceButton::checkEvent]. *)
Definition checkEvent (now buttonState : Z) : M unit :=
  when (isFeature mButtonConfig kFeatureClick
        || isFeature mButtonConfig kFeatureDoubleClick) (
    checkPostponedClick now ;;
    checkOrphanedClick now) ;;
  when (isFeature mButtonConfig kFeatureLongPress)
    (checkLongPress now buttonState) ;;
  when (isFeature mButtonConfig kFeatureRepeatPress)
    (checkRepeatPress now buttonState) ;;
  lastButtonState <- gets getLastButtonState ;;
  when (negb (buttonState =? lastButtonState))
    (checkChanged now buttonState).

(** [AceButton::checkState], with the clock reading as an argument. *)
Definition checkState (now buttonState : Z) : M unit :=
  checkHeartBeat now ;;
  debounced <- checkDebounced now buttonState ;;
  when debounced (
    initialized <- checkInitialized buttonState ;;
    when initialized (checkEvent now buttonState)).

(** The polling loop: [check()] reads the clock and the pin and calls
    [checkState]; a sample is the pair of the two readings. *)
Fixpoint checkSamples (samples : list (Z * Z)) : M unit :=
  match samples with
  | [] => ret tt
  | (now, buttonState) :: rest =>
      checkState now buttonState ;; checkSamples rest
  end.

End Checks.

(** ** Notions used to state the properties *)

(** The number of events of kind [k] in a trace. *)
Definition countEvent (k : EventType) (evs : list Event) : nat :=
  List.length (filter (fun e => EventType_eqb (eventType e) k) evs).

(** The weakest precondition of a member function: [Q] holds of its
    result, of the object it leaves and of the events it dispatched. *)
Definition wp {A : Type} (m : M A)
  (Q : A -> AceButton -> list Event -> Prop) (s : AceButton) : Prop :=
  Q (val (m s)) (st (m s)) (out (m s)).

(** A frame is a relation between the object before a call, the object
    after it and the events dispatched, that holds of a call doing nothing
    and composes along sequencing. *)
Class Frame (R : AceButton -> AceButton -> list Event -> Prop) : Prop := {
  frame_refl : forall s, R s s [];
  frame_trans : forall s s1 s2 e1 e2,
    R s s1 e1 -> R s1 s2 e2 -> R s s2 (e1 ++ e2)
}.

(** [m] stays within the frame [R] from every object. *)
Definition sound {A : Type}
  (R : AceButton -> AceButton -> list Event -> Prop) (m : M A) : Prop :=
  forall s, R s (st (m s)) (out (m s)).

(** The call leaves [rho] as it was. *)
Definition keep {B : Type} (rho : AceButton -> B)
  : AceButton -> AceButton -> list Event -> Prop :=
  fun s s' _ => rho s' = rho s.

(** The call dispatches events of the kinds in [K] only. *)
Definition emit (K : EventType -> bool)
  : AceButton -> AceButton -> list Event -> Prop :=
  fun _ _ evs => Forall (fun ev => K (eventType ev) = true) evs.

(** The call leaves [mLastButtonState] as it was, and every event it
    dispatches carries that value. *)
Definition level : AceButton -> AceButton -> list Event -> Prop :=
  fun s s' evs =>
    mLastButtonState s' = mLastButtonState s /\
    Forall (fun ev => buttonState ev = mLastButtonState s) evs.

Definition both (R1 R2 : AceButton -> AceButton -> list Event -> Prop)
  : AceButton -> AceButton -> list Event -> Prop :=
  fun s s' evs => R1 s s' evs /\ R2 s s' evs.

(** Kinds of events. *)
Definition isHeartBeat (k : EventType) : bool :=
  EventType_eqb k kEventHeartBeat.

(** The kinds that [checkChanged] alone reports for a change of level. *)
Definition isLevelChange (k : EventType) : bool :=
  match k with
  | kEventPressed | kEventReleased | kEventLongReleased => true
  | _ => false
  end.

Definition notLevelChange (k : EventType) : bool := negb (isLevelChange k).

Definition notHeartBeat (k : EventType) : bool := negb (isHeartBeat k).

Definition isClickKind (k : EventType) : bool :=
  match k with
  | kEventClicked | kEventDoubleClicked => true
  | _ => false
  end.

Definition notClickKind (k : EventType) : bool := negb (isClickKind k).

(** Everything of the object that neither the heartbeat check nor the
    debounce gate writes. *)
Definition holdView (s : AceButton) :=
  (mLastButtonState s, getDefaultReleasedState s,
   (isFlag kFlagPressed s, mLastPressTime s),
   (isFlag kFlagClicked s, isFlag kFlagClickPostponed s,
    isFlag kFlagDoubleClicked s, mLastClickTime s),
   (isFlag kFlagLongPressed s, isFlag kFlagRepeatPressed s,
    mLastRepeatPressTime s)).

(** What the click logic reads of the object, next to the confirmed
    level and the released level. *)
Definition clickView (s : AceButton) :=
  (mLastButtonState s, getDefaultReleasedState s, mLastPressTime s,
   (isFlag kFlagClicked s, isFlag kFlagClickPostponed s, mLastClickTime s)).

(** Everything of the object that the heartbeat check leaves alone. *)
Definition buttonView (s : AceButton) :=
  (isFlag kFlagDebouncing s, mLastDebounceTime s, holdView s).

(** The stages of [checkEvent], each with the guard that the source puts
    around it. *)
Definition stageClickCleanup (cfg : ButtonConfig) (now : Z) : M unit :=
  when (isFeature cfg kFeatureClick || isFeature cfg kFeatureDoubleClick) (
    checkPostponedClick cfg now ;;
    checkOrphanedClick cfg now).

Definition stageLongPress (cfg : ButtonConfig) (now b : Z) : M unit :=
  when (isFeature cfg kFeatureLongPress) (checkLongPress cfg now b).

Definition stageRepeatPress (cfg : ButtonConfig) (now b : Z) : M unit :=
  when (isFeature cfg kFeatureRepeatPress) (checkRepeatPress cfg now b).

Definition stageChange (cfg : ButtonConfig) (now b : Z) : M unit :=
  lastButtonState <- gets getLastButtonState ;;
  when (negb (b =? lastButtonState)) (checkChanged cfg now b).

(** The click evaluation at the head of [checkReleased], with its
    guard. *)
Definition clickEvaluation (cfg : ButtonConfig) (now : Z) : M unit :=
  when (isFeature cfg kFeatureClick || isFeature cfg kFeatureDoubleClick)
    (checkClicked cfg now).

(** One of the four flags is set and the suppress-after feature that
    corresponds to it is enabled. *)
Definition releasedSuppressed (cfg : ButtonConfig) (s : AceButton)
  : bool :=
  (isFlag kFlagLongPressed s
     && isFeature cfg kFeatureSuppressAfterLongPress)
  || (isFlag kFlagRepeatPressed s
     && isFeature cfg kFeatureSuppressAfterRepeatPress)
  || (isFlag kFlagClicked s
     && isFeature cfg kFeatureSuppressAfterClick)
  || (isFlag kFlagDoubleClicked s
     && isFeature cfg kFeatureSuppressAfterDoubleClick).

(** What a release reports from the object [s]: LongReleased or nothing
    when Released is suppressed, Released otherwise. *)
Definition releaseReport (cfg : ButtonConfig) (s : AceButton)
  : list Event :=
  if releasedSuppressed cfg s then
    if isFlag kFlagLongPressed s
    then [mkEvent kEventLongReleased (mLastButtonState s)]
    else []
  else [mkEvent kEventReleased (mLastButtonState s)].

(** None of the four suppress-after features is enabled. *)
Definition noSuppression (cfg : ButtonConfig) : bool :=
  negb (isFeature cfg kFeatureSuppressAfterLongPress
        || isFeature cfg kFeatureSuppressAfterRepeatPress
        || isFeature cfg kFeatureSuppressAfterClick
        || isFeature cfg kFeatureSuppressAfterDoubleClick).

(** One classification pass written stage by stage: the heartbeat check,
    the debounce gate, the initialization and then four stages in the
    order given; the result is the object left and the events of the
    stages, concatenated in the order of execution. *)
Definition passInOrder (cfg : ButtonConfig)
  (stage1 stage2 stage3 stage4 : M unit) (now b : Z) (s : AceButton)
  : AceButton * list Event :=
  let r1 := checkHeartBeat cfg now s in
  let r2 := checkDebounced cfg now b (st r1) in
  if val r2 then
    let r3 := checkInitialized b (st r2) in
    if val r3 then
      let r4 := stage1 (st r3) in
      let r5 := stage2 (st r4) in
      let r6 := stage3 (st r5) in
      let r7 := stage4 (st r6) in
      (st r7, out r1 ++ out r4 ++ out r5 ++ out r6 ++ out r7)
    else (st r3, out r1)
  else (st r2, out r1).

(** The order of the claim: long press, repeat press, click cleanup,
    change detection. *)
Definition passClaimedOrder (cfg : ButtonConfig) (now b : Z) (s : AceButton)
  : AceButton * list Event :=
  passInOrder cfg (stageLongPress cfg now b) (stageRepeatPress cfg now b)
    (stageClickCleanup cfg now) (stageChange cfg now b) now b s.

(** The order of [checkEvent]: click cleanup, long press, repeat press,
    change detection. *)
Definition passCodeOrder (cfg : ButtonConfig) (now b : Z) (s : AceButton)
  : AceButton * list Event :=
  passInOrder cfg (stageClickCleanup cfg now) (stageLongPress cfg now b)
    (stageRepeatPress cfg now b) (stageChange cfg now b) now b s.

(** Whether the debounce gate accepts the sample in a pass from [s]: the
    value [checkDebounced] returns after the heartbeat check. *)
Definition gateAccepts (cfg : ButtonConfig) (now b : Z) (s : AceButton)
  : bool :=
  val (checkDebounced cfg now b (st (checkHeartBeat cfg now s))).

(** Samples that all read the level [lvl]. *)
Definition samplesAt (lvl : Z) (samples : list (Z * Z)) : Prop :=
  Forall (fun smp => snd smp = lvl) samples.

(** Samples taken less than [delay] after [t0], as the source measures
    it. *)
Definition samplesWithin (delay t0 : Z) (samples : list (Z * Z)) : Prop :=
  Forall (fun smp => Int64.sub (fst smp) t0 < delay) samples.

(** At time [now] the click cleanup has nothing to do: no click is
    pending, or the last click is less than the double-click delay ago. *)
Definition clickQuiet (cfg : ButtonConfig) (now : Z) (s : AceButton)
  : Prop :=
  (isFlag kFlagClicked s = false /\ isFlag kFlagClickPostponed s = false) \/
  Int64.sub now (mLastClickTime s) < getDoubleClickDelay cfg.

(** The samples of a debounced change to the level [b]: the sample at
    [t0] that opens the window, the samples [bounces] inside it, and the
    sample at [t1] that is accepted. *)
Definition debouncedChange (t0 : Z) (bounces : list (Z * Z)) (t1 b : Z)
  : list (Z * Z) :=
  (t0, b) :: bounces ++ [(t1, b)].

(** The change is debounced as intended: the bounces fall inside the
    window and the last sample after it. *)
Definition changeSettles (cfg : ButtonConfig) (t0 : Z)
  (bounces : list (Z * Z)) (t1 : Z) : Prop :=
  samplesWithin (getDebounceDelay cfg) t0 bounces /\
  getDebounceDelay cfg <= Int64.sub t1 t0.

Definition Feature_eqb (f g : Feature) : bool :=
  match f, g with
  | kFeatureClick, kFeatureClick
  | kFeatureDoubleClick, kFeatureDoubleClick
  | kFeatureLongPress, kFeatureLongPress
  | kFeatureRepeatPress, kFeatureRepeatPress
  | kFeatureSuppressAfterClick, kFeatureSuppressAfterClick
  | kFeatureSuppressAfterDoubleClick, kFeatureSuppressAfterDoubleClick
  | kFeatureSuppressAfterLongPress, kFeatureSuppressAfterLongPress
  | kFeatureSuppressAfterRepeatPress, kFeatureSuppressAfterRepeatPress
  | kFeatureSuppressClickBeforeDoubleClick,
    kFeatureSuppressClickBeforeDoubleClick
  | kFeatureHeartBeat, kFeatureHeartBeat => true
  | _, _ => false
  end.

(** A configuration with the features of a list enabled and the seven
    delays given, in the order of the fields. *)
Definition withFeatures (features : list Feature)
  (debounce click doubleClick longPress repeatDelay repeatInterval
   heartBeat : Z) : ButtonConfig :=
  mkButtonConfig (fun f => existsb (Feature_eqb f) features)
    debounce click doubleClick longPress repeatDelay repeatInterval heartBeat.

(** A button constructed on pin 2 with [HIGH] as the released level; the
    time stamps hold zero, as in an object with static storage. *)
Definition freshButton : AceButton :=
  init 2 HIGH 0 (mkAceButton 0 0 0 0 0 0 0 0 0).

(** The button of the examples: released level [HIGH], held down
    ([LOW]) since time 110, with a single click recorded at time 80 whose
    Clicked event is postponed. *)
Definition heldAfterClick : AceButton :=
  mkAceButton 2 0
    (Z.lor kFlagDefaultReleasedState
       (Z.lor kFlagPressed (Z.lor kFlagClicked kFlagClickPostponed)))
    LOW 90 110 80 0 0.

(** The button of the examples held down since time 50, while the
    debounce of its release, begun at time 60, is running. *)
Definition heldButton : AceButton :=
  mkAceButton 2 0
    (Z.lor kFlagDefaultReleasedState (Z.lor kFlagDebouncing kFlagPressed))
    LOW 60 50 0 0 0.

(** The button of the examples after its first sample, taken at time 0:
    nothing is confirmed yet and the first debounce is running. *)
Definition bootingButton : AceButton :=
  mkAceButton 2 0 (Z.lor kFlagDefaultReleasedState kFlagDebouncing)
    kButtonStateUnknown 0 0 0 0 0.

(** The button of the examples at rest, released, while the debounce of a
    press, begun at time 30, is running. *)
Definition restingButton : AceButton :=
  mkAceButton 2 0 (Z.lor kFlagDefaultReleasedState kFlagDebouncing)
    HIGH 30 0 0 0 0.

(** The button of the examples at rest, released, with nothing pending. *)
Definition idleButton : AceButton :=
  mkAceButton 2 0 kFlagDefaultReleasedState HIGH 0 0 0 0 0.

(** The button of the examples held down since time 50, repeating since
    time 1050, with the heartbeat running since time 0. *)
Definition repeatingButton : AceButton :=
  mkAceButton 2 0
    (Z.lor kFlagDefaultReleasedState
       (Z.lor kFlagPressed (Z.lor kFlagRepeatPressed kFlagHeartRunning)))
    LOW 30 50 0 1050 0.

(** The button of the examples with a debounce running since time 0. *)
Definition debouncingButton : AceButton :=
  mkAceButton 2 0 (Z.lor kFlagDefaultReleasedState kFlagDebouncing)
    HIGH 0 0 0 0 0.

(** ** Notions used for the further properties *)

(** What the heartbeat check reads and writes of the object. *)
Definition heartView (s : AceButton) :=
  (isFlag kFlagHeartRunning s, mLastHeartBeatTime s).

(** What identifies the button and its wiring. *)
Definition wiringView (s : AceButton) :=
  (mPin s, mId s, getDefaultReleasedState s).

(** The eight condition flags, without the bit of the released level. *)
Definition conditionFlags (s : AceButton) :=
  (isFlag kFlagDebouncing s, isFlag kFlagPressed s, isFlag kFlagClicked s,
   isFlag kFlagDoubleClicked s, isFlag kFlagLongPressed s,
   isFlag kFlagRepeatPressed s, isFlag kFlagClickPostponed s,
   isFlag kFlagHeartRunning s).

(** The confirmed level and the five time stamps. *)
Definition timeView (s : AceButton) :=
  (mLastButtonState s, mLastDebounceTime s, mLastPressTime s,
   mLastClickTime s, mLastRepeatPressTime s, mLastHeartBeatTime s).

(** The call leaves [rho] set when it finds it set. *)
Definition rise (rho : AceButton -> bool)
  : AceButton -> AceButton -> list Event -> Prop :=
  fun s s' _ => rho s = true -> rho s' = true.

Definition notLongPressed (k : EventType) : bool :=
  negb (EventType_eqb k kEventLongPressed).

Definition notRepeatPressed (k : EventType) : bool :=
  negb (EventType_eqb k kEventRepeatPressed).

Definition notDoubleClicked (k : EventType) : bool :=
  negb (EventType_eqb k kEventDoubleClicked).

(** The times of a list of samples. *)
Definition sampleTimes (samples : list (Z * Z)) : list Z := map fst samples.

(** A button of which only the heartbeat is running, since time 0. *)
Definition heartOnlyButton : AceButton :=
  mkAceButton 7 1 kFlagHeartRunning kButtonStateUnknown 0 0 0 0 0.

(** The flags and time stamps that the stages after the gate work on,
    without the confirmed level. *)
Definition flagView (s : AceButton) :=
  (getDefaultReleasedState s,
   (isFlag kFlagPressed s, mLastPressTime s),
   (isFlag kFlagClicked s, isFlag kFlagClickPostponed s,
    isFlag kFlagDoubleClicked s, mLastClickTime s),
   (isFlag kFlagLongPressed s, isFlag kFlagRepeatPressed s,
    mLastRepeatPressTime s)).

(** What the repeat-press check reads, next to the two levels. *)
Definition pressView (s : AceButton) :=
  (mLastButtonState s, getDefaultReleasedState s,
   (isFlag kFlagPressed s, mLastPressTime s),
   (isFlag kFlagRepeatPressed s, mLastRepeatPressTime s)).

(** The debounce gate, read off the object before the pass: while
    debouncing it opens once the debounce delay has elapsed, otherwise it
    opens for a sample at the confirmed level. *)
Definition gateOpen (cfg : ButtonConfig) (now b : Z) (s : AceButton)
  : bool :=
  if isFlag kFlagDebouncing s
  then Int64.sub now (mLastDebounceTime s) >=? getDebounceDelay cfg
  else b =? mLastButtonState s.

(** The pass reaches [checkEvent]: the gate opens and a baseline level
    is known. *)
Definition classifies (cfg : ButtonConfig) (now b : Z) (s : AceButton)
  : bool :=
  gateOpen cfg now b s && negb (mLastButtonState s =? kButtonStateUnknown).

(** The test of [checkLongPress], with the guard of its call. *)
Definition longPressDue (cfg : ButtonConfig) (now b : Z) (s : AceButton)
  : bool :=
  isFeature cfg kFeatureLongPress
  && negb (b =? getDefaultReleasedState s)
  && isFlag kFlagPressed s
  && negb (isFlag kFlagLongPressed s)
  && (Int64.sub now (mLastPressTime s) >=? getLongPressDelay cfg).

(** The test of [checkRepeatPress], with the guard of its call. *)
Definition repeatPressDue (cfg : ButtonConfig) (now b : Z) (s : AceButton)
  : bool :=
  isFeature cfg kFeatureRepeatPress
  && negb (b =? getDefaultReleasedState s)
  && isFlag kFlagPressed s
  && (if isFlag kFlagRepeatPressed s
      then Int64.sub now (mLastRepeatPressTime s)
           >=? getRepeatPressInterval cfg
      else Int64.sub now (mLastPressTime s) >=? getRepeatPressDelay cfg).

(** The level changed to one that is not the released level. *)
Definition pressDue (b : Z) (s : AceButton) : bool :=
  negb (b =? mLastButtonState s) && negb (b =? getDefaultReleasedState s).

Definition notPressed (k : EventType) : bool :=
  negb (EventType_eqb k kEventPressed).

Definition one_if (c : bool) : nat := if c then 1%nat else 0%nat.

(** The reports of a release, suppressed ones apart. *)
Definition releaseCount (evs : list Event) : nat :=
  (countEvent kEventReleased evs + countEvent kEventLongReleased evs)%nat.

(** Whether the confirmed level differs from the released level. *)
Definition isDown (s : AceButton) : nat :=
  if mLastButtonState s =? getDefaultReleasedState s then 0%nat else 1%nat.

(** The releases reported by a call are covered by the presses it
    reports, up to one release of a button that is down before the call
    and one press of a button that is down after it. *)
Definition tally : AceButton -> AceButton -> list Event -> Prop :=
  fun s s' evs =>
    getDefaultReleasedState s' = getDefaultReleasedState s /\
    (releaseCount evs + isDown s' <= countEvent kEventPressed evs + isDown s)%nat.

(** The level changed to the released level. *)
Definition releaseDue (b : Z) (s : AceButton) : bool :=
  negb (b =? mLastButtonState s) && (b =? getDefaultReleasedState s).

(** The guard of the click evaluation. *)
Definition clickFeatures (cfg : ButtonConfig) : bool :=
  isFeature cfg kFeatureClick || isFeature cfg kFeatureDoubleClick.

(** The click evaluation runs and the release falls within the click
    delay of the press. *)
Definition clickWindow (cfg : ButtonConfig) (now : Z) (s : AceButton)
  : bool :=
  clickFeatures cfg
  && negb (Int64.sub now (mLastPressTime s) >=? getClickDelay cfg).

(** The release ends a click that follows a pending click within the
    double-click delay. *)
Definition secondClick (cfg : ButtonConfig) (now : Z) (s : AceButton)
  : bool :=
  clickWindow cfg now s
  && isFeature cfg kFeatureDoubleClick
  && isFlag kFlagClicked s
  && negb (Int64.sub now (mLastClickTime s) >=? getDoubleClickDelay cfg).

(** The DoubleClicked flag as [checkClicked] reads it: fresh from
    [checkDoubleClicked] when the DoubleClick feature is enabled, as it
    was left otherwise. *)
Definition doubleClickSeen (cfg : ButtonConfig) (now : Z) (s : AceButton)
  : bool :=
  if isFeature cfg kFeatureDoubleClick
  then isFlag kFlagClicked s
       && negb (Int64.sub now (mLastClickTime s) >=? getDoubleClickDelay cfg)
  else isFlag kFlagDoubleClicked s.

(** The release ends a click that is reported at once. *)
Definition firstClick (cfg : ButtonConfig) (now : Z) (s : AceButton)
  : bool :=
  clickWindow cfg now s
  && negb (doubleClickSeen cfg now s)
  && negb (isFeature cfg kFeatureSuppressClickBeforeDoubleClick).

Definition doubleClickDue (cfg : ButtonConfig) (now b : Z) (s : AceButton)
  : bool :=
  releaseDue b s && secondClick cfg now s.

Definition clickDue (cfg : ButtonConfig) (now b : Z) (s : AceButton)
  : bool :=
  releaseDue b s && firstClick cfg now s.

(** A postponed click whose double-click delay has run out. *)
Definition flushDue (cfg : ButtonConfig) (now : Z) (s : AceButton) : bool :=
  clickFeatures cfg
  && isFlag kFlagClickPostponed s
  && (Int64.sub now (mLastClickTime s) >=? getDoubleClickDelay cfg).

(** What the click evaluation reads besides the Clicked and
    ClickPostponed flags. *)
Definition tapView (s : AceButton) :=
  (mLastButtonState s, getDefaultReleasedState s, mLastPressTime s,
   mLastClickTime s, isFlag kFlagDoubleClicked s).

(** A button held down since time 110, with a click recorded at time 80
    and postponed, while the debounce of its release, begun at time 150,
    is running. *)
Definition releasingAfterClick : AceButton :=
  mkAceButton 2 0
    (Z.lor kFlagDefaultReleasedState
       (Z.lor kFlagDebouncing
          (Z.lor kFlagPressed (Z.lor kFlagClicked kFlagClickPostponed))))
    LOW 150 110 80 0 0.

(** The Clicked flag once the click evaluation of a release has run. *)
Definition clickedAtRelease (cfg : ButtonConfig) (now : Z) (s : AceButton)
  : bool :=
  if clickFeatures cfg
  then clickWindow cfg now s && negb (doubleClickSeen cfg now s)
  else isFlag kFlagClicked s.

(** The DoubleClicked flag once the click evaluation of a release has
    run. *)
Definition doubleClickedAtRelease (cfg : ButtonConfig) (now : Z)
  (s : AceButton) : bool :=
  if clickWindow cfg now s
  then doubleClickSeen cfg now s
  else isFlag kFlagDoubleClicked s.

(** The test that suppresses Released, on the flags as the click
    evaluation leaves them. *)
Definition suppressDue (cfg : ButtonConfig) (now : Z) (s : AceButton)
  : bool :=
  (isFlag kFlagLongPressed s
     && isFeature cfg kFeatureSuppressAfterLongPress)
  || (isFlag kFlagRepeatPressed s
     && isFeature cfg kFeatureSuppressAfterRepeatPress)
  || (clickedAtRelease cfg now s
     && isFeature cfg kFeatureSuppressAfterClick)
  || (doubleClickedAtRelease cfg now s
     && isFeature cfg kFeatureSuppressAfterDoubleClick).

(** The flags of a hold agree with each other and with the confirmed
    level: Pressed is set only while a known level other than the
    released one is confirmed, LongPressed and RepeatPressed are set only
    together with Pressed, and DoubleClicked is not left set. *)
Definition holdConsistent (s : AceButton) : Prop :=
  (isFlag kFlagPressed s = true ->
   mLastButtonState s <> getDefaultReleasedState s /\
   mLastButtonState s <> kButtonStateUnknown) /\
  (isFlag kFlagLongPressed s = true -> isFlag kFlagPressed s = true) /\
  (isFlag kFlagRepeatPressed s = true -> isFlag kFlagPressed s = true) /\
  isFlag kFlagDoubleClicked s = false.

(** The levels and flags that [holdConsistent] reads. *)
Definition holdFlags (s : AceButton) :=
  (mLastButtonState s, getDefaultReleasedState s, isFlag kFlagPressed s,
   isFlag kFlagLongPressed s, isFlag kFlagRepeatPressed s,
   isFlag kFlagDoubleClicked s).

(** What a release at the level [b] reports, on the object before the
    pass: Released, or LongReleased when the release is suppressed after
    a long press, or nothing when it is suppressed otherwise. *)
Definition releaseTrace (cfg : ButtonConfig) (now b : Z) (s : AceButton)
  : list Event :=
  if suppressDue cfg now s then
    if isFlag kFlagLongPressed s
    then [mkEvent kEventLongReleased b]
    else []
  else [mkEvent kEventReleased b].

(** A button on a clock of 16 bits, as the comment in [checkDebounced]
    has it: the debounce of a press began at time 65530, shortly before
    the clock rolls over. *)
Definition rollingButton : AceButton :=
  mkAceButton 2 0 (Z.lor kFlagDefaultReleasedState kFlagDebouncing)
    HIGH 65530 0 0 0 0.

(** * Properties *)

(** ** Bit sets *)

Section Bits.

Local Ltac bitwise :=
  apply Z.bits_inj'; intros n Hn;
  repeat first [ rewrite Z.land_spec | rewrite Z.lor_spec
               | rewrite Z.lnot_spec by exact Hn | rewrite Z.bits_0 ].

Lemma land_lor_disjoint (f m k : Z) :
  Z.land m k = 0 -> Z.land (Z.lor f m) k = Z.land f k.
Proof.
  intros H. rewrite Z.land_lor_distr_l, H. apply Z.lor_0_r.
Qed.

Lemma land_lor_same (f m : Z) : Z.land (Z.lor f m) m = m.
Proof.
  bitwise. destruct (Z.testbit f n), (Z.testbit m n); reflexivity.
Qed.

Lemma land_lnot_same (f m : Z) : Z.land (Z.land f (Z.lnot m)) m = 0.
Proof.
  bitwise. destruct (Z.testbit f n), (Z.testbit m n); reflexivity.
Qed.

Lemma land_lnot_disjoint (f m k : Z) :
  Z.land m k = 0 -> Z.land (Z.land f (Z.lnot m)) k = Z.land f k.
Proof.
  intros H. bitwise.
  assert (Hb : Z.testbit (Z.land m k) n = false) by (rewrite H; apply Z.bits_0).
  rewrite Z.land_spec in Hb.
  destruct (Z.testbit f n), (Z.testbit m n), (Z.testbit k n);
    simpl in *; congruence.
Qed.

End Bits.

(** ** Flags and fields under the updates *)

Lemma isFlag_setFlag_same (k : Z) (s : AceButton) :
  k <> 0 -> isFlag k (setFlag k s) = true.
Proof.
  intros Hk. unfold isFlag, setFlag. simpl. rewrite land_lor_same.
  destruct (Z.eqb_spec k 0); [contradiction | reflexivity].
Qed.

Lemma isFlag_setFlag_other (k m : Z) (s : AceButton) :
  Z.land m k = 0 -> isFlag k (setFlag m s) = isFlag k s.
Proof.
  intros H. unfold isFlag, setFlag. simpl. now rewrite land_lor_disjoint.
Qed.

Lemma isFlag_clearFlag_same (k : Z) (s : AceButton) :
  isFlag k (clearFlag k s) = false.
Proof.
  unfold isFlag, clearFlag. simpl. now rewrite land_lnot_same.
Qed.

Lemma isFlag_clearFlag_other (k m : Z) (s : AceButton) :
  Z.land m k = 0 -> isFlag k (clearFlag m s) = isFlag k s.
Proof.
  intros H. unfold isFlag, clearFlag. simpl. now rewrite land_lnot_disjoint.
Qed.

Lemma getDefaultReleasedState_isFlag (s : AceButton) :
  getDefaultReleasedState s =
  if isFlag kFlagDefaultReleasedState s then HIGH else LOW.
Proof. reflexivity. Qed.

Lemma getDefaultReleasedState_cases (s : AceButton) :
  getDefaultReleasedState s = LOW \/ getDefaultReleasedState s = HIGH.
Proof.
  rewrite getDefaultReleasedState_isFlag.
  destruct (isFlag kFlagDefaultReleasedState s); auto.
Qed.

Lemma getDefaultReleasedState_not_unknown (s : AceButton) :
  getDefaultReleasedState s <> kButtonStateUnknown.
Proof.
  destruct (getDefaultReleasedState_cases s) as [H | H]; rewrite H;
    discriminate.
Qed.

Lemma getDefaultReleasedState_setFlag (m : Z) (s : AceButton) :
  Z.land m kFlagDefaultReleasedState = 0 ->
  getDefaultReleasedState (setFlag m s) = getDefaultReleasedState s.
Proof.
  intros H. rewrite !getDefaultReleasedState_isFlag.
  now rewrite isFlag_setFlag_other.
Qed.

Lemma getDefaultReleasedState_clearFlag (m : Z) (s : AceButton) :
  Z.land m kFlagDefaultReleasedState = 0 ->
  getDefaultReleasedState (clearFlag m s) = getDefaultReleasedState s.
Proof.
  intros H. rewrite !getDefaultReleasedState_isFlag.
  now rewrite isFlag_clearFlag_other.
Qed.

(** Normalisation of a reader applied to an updated object. *)
Ltac flag_step :=
  match goal with
  | |- context [isFlag ?k (setFlag ?k ?s)] =>
      rewrite (isFlag_setFlag_same k s) by (vm_compute; discriminate)
  | |- context [isFlag ?k (setFlag ?m ?s)] =>
      rewrite (isFlag_setFlag_other k m s) by reflexivity
  | |- context [isFlag ?k (clearFlag ?k ?s)] =>
      rewrite (isFlag_clearFlag_same k s)
  | |- context [isFlag ?k (clearFlag ?m ?s)] =>
      rewrite (isFlag_clearFlag_other k m s) by reflexivity
  | |- context [isFlag ?k (with_mLastButtonState ?v ?s)] =>
      change (isFlag k (with_mLastButtonState v s)) with (isFlag k s)
  | |- context [isFlag ?k (with_mLastDebounceTime ?v ?s)] =>
      change (isFlag k (with_mLastDebounceTime v s)) with (isFlag k s)
  | |- context [isFlag ?k (with_mLastPressTime ?v ?s)] =>
      change (isFlag k (with_mLastPressTime v s)) with (isFlag k s)
  | |- context [isFlag ?k (with_mLastClickTime ?v ?s)] =>
      change (isFlag k (with_mLastClickTime v s)) with (isFlag k s)
  | |- context [isFlag ?k (with_mLastRepeatPressTime ?v ?s)] =>
      change (isFlag k (with_mLastRepeatPressTime v s)) with (isFlag k s)
  | |- context [isFlag ?k (with_mLastHeartBeatTime ?v ?s)] =>
      change (isFlag k (with_mLastHeartBeatTime v s)) with (isFlag k s)
  | |- context [getDefaultReleasedState (setFlag ?m ?s)] =>
      rewrite (getDefaultReleasedState_setFlag m s) by reflexivity
  | |- context [getDefaultReleasedState (clearFlag ?m ?s)] =>
      rewrite (getDefaultReleasedState_clearFlag m s) by reflexivity
  | |- context [getDefaultReleasedState (with_mLastButtonState ?v ?s)] =>
      change (getDefaultReleasedState (with_mLastButtonState v s))
        with (getDefaultReleasedState s)
  | |- context [getDefaultReleasedState (with_mLastDebounceTime ?v ?s)] =>
      change (getDefaultReleasedState (with_mLastDebounceTime v s))
        with (getDefaultReleasedState s)
  | |- context [getDefaultReleasedState (with_mLastPressTime ?v ?s)] =>
      change (getDefaultReleasedState (with_mLastPressTime v s))
        with (getDefaultReleasedState s)
  | |- context [getDefaultReleasedState (with_mLastClickTime ?v ?s)] =>
      change (getDefaultReleasedState (with_mLastClickTime v s))
        with (getDefaultReleasedState s)
  | |- context [getDefaultReleasedState (with_mLastRepeatPressTime ?v ?s)] =>
      change (getDefaultReleasedState (with_mLastRepeatPressTime v s))
        with (getDefaultReleasedState s)
  | |- context [getDefaultReleasedState (with_mLastHeartBeatTime ?v ?s)] =>
      change (getDefaultReleasedState (with_mLastHeartBeatTime v s))
        with (getDefaultReleasedState s)
  end.

Ltac field_simpl_st :=
  cbn [mPin mId mLastButtonState mLastDebounceTime mLastPressTime
       mLastClickTime mLastRepeatPressTime mLastHeartBeatTime
       getLastButtonState setFlag clearFlag with_mFlags
       with_mLastButtonState with_mLastDebounceTime with_mLastPressTime
       with_mLastClickTime with_mLastRepeatPressTime
       with_mLastHeartBeatTime].

Ltac rw_facts :=
  repeat match goal with
         | H : ?c = true |- context [?c] => rewrite H
         | H : ?c = false |- context [?c] => rewrite H
         | H : isFlag ?k ?s = _ |- context [isFlag ?k ?s] =>
             is_var s; progress rewrite H
         | H : getDefaultReleasedState ?s = _
           |- context [getDefaultReleasedState ?s] =>
             is_var s; progress rewrite H
         | H : mLastButtonState ?s = _ |- context [mLastButtonState ?s] =>
             is_var s; progress rewrite H
         | H : mLastDebounceTime ?s = _ |- context [mLastDebounceTime ?s] =>
             is_var s; progress rewrite H
         | H : mLastPressTime ?s = _ |- context [mLastPressTime ?s] =>
             is_var s; progress rewrite H
         | H : mLastClickTime ?s = _ |- context [mLastClickTime ?s] =>
             is_var s; progress rewrite H
         | H : mLastRepeatPressTime ?s = _
           |- context [mLastRepeatPressTime ?s] =>
             is_var s; progress rewrite H
         | H : mLastHeartBeatTime ?s = _
           |- context [mLastHeartBeatTime ?s] =>
             is_var s; progress rewrite H
         end.

Ltac norm_st :=
  unfold getLastButtonState;
  repeat flag_step; field_simpl_st; rw_facts;
  cbn [orb andb negb app val st out];
  rewrite ?andb_true_r, ?andb_false_r, ?orb_true_r, ?orb_false_r.

(** ** Rules of the weakest precondition *)

Lemma wp_ret {A} (a : A) Q s : Q a s [] -> wp (ret a) Q s.
Proof. exact (fun H => H). Qed.

Lemma wp_bind {A B} (m : M A) (f : A -> M B) Q s :
  wp m (fun a s1 e1 => wp (f a) (fun b s2 e2 => Q b s2 (e1 ++ e2)) s1) s ->
  wp (bind m f) Q s.
Proof. exact (fun H => H). Qed.

Lemma wp_gets {A} (f : AceButton -> A) Q s : Q (f s) s [] -> wp (gets f) Q s.
Proof. exact (fun H => H). Qed.

Lemma wp_modify (f : AceButton -> AceButton) Q s :
  Q tt (f s) [] -> wp (modify f) Q s.
Proof. exact (fun H => H). Qed.

Lemma wp_handleEvent (e : EventType) Q s :
  Q tt s [mkEvent e (mLastButtonState s)] -> wp (handleEvent e) Q s.
Proof. exact (fun H => H). Qed.

Lemma wp_conseq {A} (m : M A) (Q Q' : A -> AceButton -> list Event -> Prop) s :
  wp m Q s -> (forall a s' e, Q a s' e -> Q' a s' e) -> wp m Q' s.
Proof. unfold wp. auto. Qed.

Lemma wp_run {A} (m : M A) (Q : A -> AceButton -> list Event -> Prop) s :
  wp m Q s -> Q (val (m s)) (st (m s)) (out (m s)).
Proof. exact (fun H => H). Qed.

(** Boolean tests on integers, turned into propositions. *)
Ltac zbool :=
  repeat match goal with
         | H : (_ =? _) = true |- _ => apply Z.eqb_eq in H
         | H : (_ =? _) = false |- _ => apply Z.eqb_neq in H
         | H : (_ >=? _) = true |- _ =>
             rewrite Z.geb_leb in H; apply Z.leb_le in H
         | H : (_ >=? _) = false |- _ =>
             rewrite Z.geb_leb in H; apply Z.leb_gt in H
         | H : negb _ = true |- _ => apply negb_true_iff in H
         | H : negb _ = false |- _ => apply negb_false_iff in H
         end.

(** One step of symbolic execution of a member function. *)
Ltac wp_step :=
  lazymatch goal with
  | |- wp (bind _ _) _ _ => apply wp_bind
  | |- wp (ret _) _ _ => apply wp_ret
  | |- wp (gets _) _ _ => apply wp_gets
  | |- wp (modify _) _ _ => apply wp_modify
  | |- wp (handleEvent _) _ _ => apply wp_handleEvent
  | |- wp (when _ _) _ _ => unfold when at 1
  | |- wp (if true then _ else _) _ _ => cbv iota
  | |- wp (if false then _ else _) _ _ => cbv iota
  | |- wp (if ?c then _ else _) _ _ =>
      let H := fresh "Hc" in destruct c eqn:H
  | |- wp (let _ := _ in _) _ _ => cbv zeta
  end; cbv beta; norm_st.

Ltac absurd_branch :=
  try solve [ exfalso; zbool; first [ congruence | lia ] ].

Ltac wp_go := repeat (wp_step; absurd_branch).

(** ** Frames *)

#[global] Instance keep_Frame {B} (rho : AceButton -> B) : Frame (keep rho).
Proof.
  split; unfold keep; intros; congruence.
Qed.

#[global] Instance emit_Frame K : Frame (emit K).
Proof.
  split; unfold emit; intros.
  - constructor.
  - apply Forall_app; auto.
Qed.

#[global] Instance level_Frame : Frame level.
Proof.
  split; unfold level.
  - intros s. split; [reflexivity | constructor].
  - intros s s1 s2 e1 e2 [H1 F1] [H2 F2]. split; [congruence |].
    apply Forall_app. split; [assumption |].
    rewrite <- H1. assumption.
Qed.

#[global] Instance both_Frame R1 R2 `{Frame R1} `{Frame R2} :
  Frame (both R1 R2).
Proof.
  split; unfold both.
  - intros s. split; apply frame_refl.
  - intros s s1 s2 e1 e2 [A1 A2] [B1 B2].
    split; eapply frame_trans; eassumption.
Qed.

Section FrameTest.
Context (R : AceButton -> AceButton -> list Event -> Prop) `{Frame R}.

Lemma sound_ret {A} (a : A) : sound R (ret a).
Proof. intros s. apply frame_refl. Qed.

Lemma sound_gets {A} (f : AceButton -> A) : sound R (gets f).
Proof. intros s. apply frame_refl. Qed.

Lemma sound_bind {A B} (m : M A) (f : A -> M B) :
  sound R m -> (forall a, sound R (f a)) -> sound R (bind m f).
Proof.
  intros Hm Hf s. unfold bind; cbn [st out].
  eapply frame_trans; [apply Hm | apply Hf].
Qed.

Lemma sound_when (c : bool) (m : M unit) :
  sound R m -> sound R (when c m).
Proof.
  intros Hm. destruct c; [exact Hm | apply sound_ret].
Qed.

Lemma sound_if {A} (c : bool) (m1 m2 : M A) :
  sound R m1 -> sound R m2 -> sound R (if c then m1 else m2).
Proof. destruct c; auto. Qed.

Lemma sound_modify (f : AceButton -> AceButton) :
  (forall s, R s (f s) []) -> sound R (modify f).
Proof. intros Hf s. apply Hf. Qed.

Lemma sound_handleEvent (e : EventType) :
  (forall s, R s s [mkEvent e (mLastButtonState s)]) ->
  sound R (handleEvent e).
Proof. intros He s. apply He. Qed.

End FrameTest.

Ltac frame_base :=
  intros ?;
  unfold both, keep, emit, level, rise, buttonView, holdView, clickView,
    wiringView, heartView, conditionFlags, timeView, flagView, pressView,
    tapView, holdFlags;
  norm_st;
  repeat split; auto.

Ltac frame_step :=
  lazymatch goal with
  | |- Frame _ => typeclasses eauto
  | |- sound _ (bind _ _) => apply sound_bind; [ | | intros ? ]
  | |- sound _ (ret _) => apply sound_ret
  | |- sound _ (gets _) => apply sound_gets
  | |- sound _ (when _ _) => apply sound_when
  | |- sound _ (if _ then _ else _) => apply sound_if
  | |- sound _ (modify _) => apply sound_modify; frame_base
  | |- sound _ (handleEvent _) => apply sound_handleEvent; frame_base
  | |- sound _ (let _ := _ in _) => cbv zeta
  | |- sound _ (stageClickCleanup _ _) => unfold stageClickCleanup
  | |- sound _ (clickEvaluation _ _) => unfold clickEvaluation
  | |- sound _ (stageLongPress _ _ _) => unfold stageLongPress
  | |- sound _ (stageRepeatPress _ _ _) => unfold stageRepeatPress
  | |- sound _ (checkDoubleClicked _ _) => unfold checkDoubleClicked
  | |- sound _ (checkClicked _ _) => unfold checkClicked
  | |- sound _ (checkPressed _ _) => unfold checkPressed
  | |- sound _ (checkReleased _ _ _) => unfold checkReleased
  | |- sound _ (checkLongPress _ _ _) => unfold checkLongPress
  | |- sound _ (checkRepeatPress _ _ _) => unfold checkRepeatPress
  | |- sound _ (checkOrphanedClick _ _) => unfold checkOrphanedClick
  | |- sound _ (checkPostponedClick _ _) => unfold checkPostponedClick
  | |- sound _ (checkHeartBeat _ _) => unfold checkHeartBeat
  | |- sound _ (checkDebounced _ _ _) => unfold checkDebounced
  end.

Ltac frame_tac := repeat frame_step.


(** A call that stays within a frame may be replaced, in a symbolic
    execution, by an unknown object and trace related by the frame. *)
Lemma wp_sound {A} (m : M A) (R : AceButton -> AceButton -> list Event -> Prop)
  (Q : A -> AceButton -> list Event -> Prop) (s : AceButton) :
  sound R m -> (forall a s' e, R s s' e -> Q a s' e) -> wp m Q s.
Proof.
  intros Hm HQ. unfold wp. apply HQ, Hm.
Qed.

(** The facts of a frame hypothesis, normalised one by one. *)
Ltac frame_facts H :=
  unfold both, keep, emit, level, rise, buttonView, holdView, clickView,
    wiringView, heartView, conditionFlags, timeView, flagView, pressView,
    tapView, holdFlags in H;
  cbv beta in H;
  lazymatch type of H with
  | _ /\ _ =>
      let H1 := fresh "Hf" in
      let H2 := fresh "Hf" in
      destruct H as [H1 H2]; frame_facts H1; frame_facts H2
  | (_, _) = (_, _) =>
      apply pair_equal_spec in H; frame_facts H
  | _ => revert H; norm_st; intros H
  end.

Ltac wp_frame R :=
  let s' := fresh "s" in
  let e := fresh "e" in
  let H := fresh "HR" in
  apply (wp_sound _ R); [ frame_tac | intros ? s' e H; frame_facts H ];
  cbv beta; norm_st.

Ltac trace_tac :=
  repeat first [ assumption | apply Forall_nil
               | apply Forall_app; split
               | apply Forall_cons; [ reflexivity | ] ].

(** Use of a fact already proved about the call at hand. *)
Ltac wp_use L :=
  eapply wp_conseq; [ eapply L | cbv beta; intros ? ? ? ].

Ltac pair_facts :=
  repeat match goal with
         | H : (_, _) = (_, _) |- _ =>
             apply pair_equal_spec in H; destruct H
         end.

(** ** Traces *)

Lemma countEvent_app (k : EventType) (e1 e2 : list Event) :
  countEvent k (e1 ++ e2) = (countEvent k e1 + countEvent k e2)%nat.
Proof.
  unfold countEvent. now rewrite filter_app, length_app.
Qed.

Lemma countEvent_none (k : EventType) (K : EventType -> bool)
  (evs : list Event) :
  K k = false ->
  Forall (fun ev => K (eventType ev) = true) evs ->
  countEvent k evs = 0%nat.
Proof.
  intros Hk HF. unfold countEvent.
  induction HF as [| ev evs Hev _ IH]; [reflexivity |].
  cbn [filter]. destruct (EventType_eqb (eventType ev) k) eqn:E; [| exact IH].
  destruct (eventType ev), k; cbn in E; congruence.
Qed.

Lemma emit_weaken (K K' : EventType -> bool) (evs : list Event) :
  (forall k, K k = true -> K' k = true) ->
  Forall (fun ev => K (eventType ev) = true) evs ->
  Forall (fun ev => K' (eventType ev) = true) evs.
Proof.
  intros HK HF. eapply Forall_impl; [| exact HF]. cbv beta. auto.
Qed.

(** ** The loop over the samples *)

Lemma checkSamples_cons cfg now b rest s :
  let r := checkState cfg now b s in
  let r' := checkSamples cfg rest (st r) in
  st (checkSamples cfg ((now, b) :: rest) s) = st r' /\
  out (checkSamples cfg ((now, b) :: rest) s) = out r ++ out r'.
Proof. split; reflexivity. Qed.

Lemma checkSamples_app cfg l1 l2 s :
  let r := checkSamples cfg l1 s in
  let r' := checkSamples cfg l2 (st r) in
  st (checkSamples cfg (l1 ++ l2) s) = st r' /\
  out (checkSamples cfg (l1 ++ l2) s) = out r ++ out r'.
Proof.
  revert s. induction l1 as [| [now b] l1 IH]; intros s.
  - split; reflexivity.
  - cbn zeta. cbn [app].
    destruct (checkSamples_cons cfg now b (l1 ++ l2) s) as [E1 E2].
    destruct (checkSamples_cons cfg now b l1 s) as [E3 E4].
    cbn zeta in *. rewrite E1, E2, E3, E4.
    destruct (IH (st (checkState cfg now b s))) as [I1 I2].
    cbn zeta in *. rewrite I1, I2. split; [reflexivity |].
    now rewrite app_assoc.
Qed.

(** ** The stages of a pass *)

Lemma checkInitialized_silent b s : out (checkInitialized b s) = [].
Proof.
  apply (wp_run (checkInitialized b) (fun _ _ e => e = [])).
  unfold checkInitialized. wp_go; reflexivity.
Qed.

Lemma checkDebounced_quiet cfg now b s : out (checkDebounced cfg now b s) = [].
Proof.
  apply (wp_run (checkDebounced cfg now b) (fun _ _ e => e = [])).
  unfold checkDebounced. wp_go; reflexivity.
Qed.

Lemma st_bind {A B} (m : M A) (f : A -> M B) s :
  st (bind m f s) = st (f (val (m s)) (st (m s))).
Proof. reflexivity. Qed.

Lemma out_bind {A B} (m : M A) (f : A -> M B) s :
  out (bind m f s) = out (m s) ++ out (f (val (m s)) (st (m s))).
Proof. reflexivity. Qed.

(** [checkState] is the pass in the order of [checkEvent]. *)
Lemma checkState_stages cfg now b s :
  (st (checkState cfg now b s), out (checkState cfg now b s)) =
  passCodeOrder cfg now b s.
Proof.
  unfold passCodeOrder, passInOrder, checkState, checkEvent.
  unfold stageClickCleanup, stageLongPress, stageRepeatPress, stageChange.
  rewrite !st_bind, !out_bind.
  rewrite (checkDebounced_quiet cfg now b (st (checkHeartBeat cfg now s))).
  destruct (val (checkDebounced cfg now b (st (checkHeartBeat cfg now s))));
    cbn [when]; [| cbn [ret val st out app]; now rewrite ?app_nil_r ].
  rewrite !st_bind, !out_bind.
  rewrite checkInitialized_silent.
  destruct (val (checkInitialized b _));
    cbn [when]; [| cbn [ret val st out app]; now rewrite ?app_nil_r ].
  rewrite !st_bind, !out_bind. cbn [app]. reflexivity.
Qed.

(** ** A pass whose sample the gate accepts *)

Lemma checkHeartBeat_frame cfg now :
  sound (both (keep buttonView) (both level (emit isHeartBeat)))
    (checkHeartBeat cfg now).
Proof. frame_tac. Qed.

Lemma checkDebounced_frame cfg now b :
  sound (both (keep holdView) (both level (emit (fun _ => false))))
    (checkDebounced cfg now b).
Proof. frame_tac. Qed.

Lemma checkDebounced_accepts cfg now b s :
  val (checkDebounced cfg now b s) = true ->
  isFlag kFlagDebouncing (st (checkDebounced cfg now b s)) = false.
Proof.
  apply (wp_run (checkDebounced cfg now b)
           (fun a s' _ => a = true -> isFlag kFlagDebouncing s' = false)).
  unfold checkDebounced. wp_go; congruence.
Qed.

Lemma checkInitialized_unknown b s :
  mLastButtonState s = kButtonStateUnknown ->
  checkInitialized b s =
  mkRes false (with_mLastButtonState (to_uint16 b) s) [].
Proof.
  intros H. unfold checkInitialized, bind, gets, modify, ret.
  cbn [val st out app]. rewrite H, Z.eqb_refl. reflexivity.
Qed.

Lemma checkInitialized_known b s :
  mLastButtonState s <> kButtonStateUnknown ->
  checkInitialized b s = mkRes true s [].
Proof.
  intros H. apply Z.eqb_neq in H.
  unfold checkInitialized, bind, gets, modify, ret.
  cbn [val st out app]. rewrite H. reflexivity.
Qed.

(** The object on which the stages after the gate run. *)
Lemma accepted_pass cfg now b s :
  gateAccepts cfg now b s = true ->
  let s2 := st (checkDebounced cfg now b (st (checkHeartBeat cfg now s))) in
  isFlag kFlagDebouncing s2 = false /\
  holdView s2 = holdView s /\
  (mLastButtonState s = kButtonStateUnknown ->
     st (checkState cfg now b s) = with_mLastButtonState (to_uint16 b) s2 /\
     out (checkState cfg now b s) = out (checkHeartBeat cfg now s)) /\
  (mLastButtonState s <> kButtonStateUnknown ->
     st (checkState cfg now b s) = st (checkEvent cfg now b s2) /\
     out (checkState cfg now b s) =
       out (checkHeartBeat cfg now s) ++ out (checkEvent cfg now b s2)).
Proof.
  intros Hacc s2. unfold gateAccepts in Hacc.
  pose proof (checkDebounced_accepts cfg now b _ Hacc) as Hd. fold s2 in Hd.
  destruct (checkHeartBeat_frame cfg now s) as (Hv1 & _).
  destruct (checkDebounced_frame cfg now b (st (checkHeartBeat cfg now s)))
    as (Hv2 & _).
  unfold keep in Hv1, Hv2. fold s2 in Hv2.
  assert (Hv : holdView s2 = holdView s)
    by (unfold buttonView in Hv1; congruence).
  assert (HL : mLastButtonState s2 = mLastButtonState s)
    by (unfold holdView in Hv; congruence).
  split; [exact Hd |]. split; [exact Hv |].
  unfold checkState. rewrite !st_bind, !out_bind, Hacc.
  rewrite checkDebounced_quiet. fold s2. cbn [when app].
  rewrite !st_bind, !out_bind.
  split; intros HU.
  - rewrite checkInitialized_unknown by congruence.
    cbn. now rewrite app_nil_r.
  - rewrite checkInitialized_known by congruence.
    cbn [val st out when app]. split; reflexivity.
Qed.

(** ** The order of the stages *)

(** C2, as amended.  A pass runs the heartbeat check first and always,
    then the debounce gate; when the gate accepts the sample it runs the
    initialization, and when the button is initialized it runs, in this
    order, the click cleanup (postponed flush, then orphan reclaim), the
    long-press detection, the repeat-press detection and the change
    detection.  The events of the pass are those of the stages in that
    order; the gate and the initialization dispatch none. *)
Theorem stages_in_code_order :
  forall cfg now b s,
    (st (checkState cfg now b s), out (checkState cfg now b s)) =
    passCodeOrder cfg now b s /\
    out (checkDebounced cfg now b (st (checkHeartBeat cfg now s))) = [] /\
    (forall s', out (checkInitialized b s') = []).
Proof.
  intros cfg now b s. split; [apply checkState_stages |].
  split; [apply checkDebounced_quiet |].
  intros s'. apply checkInitialized_silent.
Qed.

(** C2, as stated, fails.  The button is held, the postponed Clicked of
    an earlier click is due and so is the long press; the state is the one
    reached from a fresh button by the samples listed.  [checkState]
    dispatches Clicked and then LongPressed; the order of the claim would
    dispatch LongPressed and then Clicked. *)
Lemma stages_not_in_claimed_order :
  let cfg :=
    withFeatures
      [kFeatureClick; kFeatureLongPress;
       kFeatureSuppressClickBeforeDoubleClick]
      20 200 400 1000 1000 200 5000 in
  st (checkSamples cfg
        [(0, HIGH); (20, HIGH); (30, LOW); (50, LOW); (60, HIGH);
         (80, HIGH); (90, LOW); (110, LOW)] freshButton)
  = heldAfterClick /\
  out (checkState cfg 1200 LOW heldAfterClick)
  = [mkEvent kEventClicked LOW; mkEvent kEventLongPressed LOW] /\
  snd (passClaimedOrder cfg 1200 LOW heldAfterClick)
  = [mkEvent kEventLongPressed LOW; mkEvent kEventClicked LOW] /\
  (st (checkState cfg 1200 LOW heldAfterClick),
   out (checkState cfg 1200 LOW heldAfterClick))
  <> passClaimedOrder cfg 1200 LOW heldAfterClick.
Proof.
  cbv zeta. repeat split; try (vm_compute; reflexivity).
  vm_compute. discriminate.
Qed.

(** ** The release detector *)

Lemma checkReleased_report cfg now b s :
  b = getDefaultReleasedState s ->
  out (checkReleased cfg now b s) =
  out (clickEvaluation cfg now s)
  ++ releaseReport cfg (st (clickEvaluation cfg now s)).
Proof.
  intros ->. unfold checkReleased.
  rewrite out_bind. cbn [gets val st out app].
  rewrite Z.eqb_refl. cbn [negb].
  rewrite out_bind. fold (clickEvaluation cfg now).
  f_equal.
  set (s1 := st (clickEvaluation cfg now s)).
  change (wp (wasLongPressed <- gets (isFlag kFlagLongPressed) ;;
              suppress <- gets (releasedSuppressed cfg) ;;
              modify (clearFlag kFlagPressed) ;;
              modify (clearFlag kFlagDoubleClicked) ;;
              modify (clearFlag kFlagLongPressed) ;;
              modify (clearFlag kFlagRepeatPressed) ;;
              if suppress
              then when wasLongPressed (handleEvent kEventLongReleased)
              else handleEvent kEventReleased)
            (fun _ _ e => e = releaseReport cfg s1) s1).
  unfold releaseReport. wp_go; reflexivity.
Qed.

Lemma clickEvaluation_frame cfg now :
  sound (both level
          (both (keep (fun s => (isFlag kFlagLongPressed s,
                                 isFlag kFlagRepeatPressed s,
                                 isFlag kFlagPressed s,
                                 isFlag kFlagDebouncing s,
                                 getDefaultReleasedState s)))
                (emit isClickKind)))
    (clickEvaluation cfg now).
Proof. frame_tac. Qed.

(** C5. On a release, [checkReleased] first runs the click evaluation,
    which dispatches Clicked or DoubleClicked events only and leaves the
    LongPressed and RepeatPressed flags of the hold as they are.  With the
    flags as they then stand, Released is suppressed exactly when one of
    LongPressed, RepeatPressed, Clicked, DoubleClicked is set and its
    suppress-after feature is enabled.  When suppressed after a long press
    the release reports LongReleased in place of Released, when suppressed
    otherwise it reports nothing, and when not suppressed it reports
    Released; so one release never reports both, and never either of them
    twice. *)
Theorem released_event_suppression :
  forall cfg s now b,
    b = getDefaultReleasedState s ->
    let s1 := st (clickEvaluation cfg now s) in
    let r := checkReleased cfg now b s in
    out r = out (clickEvaluation cfg now s) ++ releaseReport cfg s1 /\
    Forall (fun ev => isClickKind (eventType ev) = true)
      (out (clickEvaluation cfg now s)) /\
    isFlag kFlagLongPressed s1 = isFlag kFlagLongPressed s /\
    isFlag kFlagRepeatPressed s1 = isFlag kFlagRepeatPressed s /\
    countEvent kEventReleased (out r) =
      (if releasedSuppressed cfg s1 then 0 else 1)%nat /\
    countEvent kEventLongReleased (out r) =
      (if releasedSuppressed cfg s1 && isFlag kFlagLongPressed s
       then 1 else 0)%nat.
Proof.
  intros cfg s now b Hb s1 r. subst r.
  pose proof (checkReleased_report cfg now b s Hb) as E.
  fold s1 in E.
  destruct (clickEvaluation_frame cfg now s) as ([_ _] & Hk & He).
  unfold keep in Hk. fold s1 in Hk. injection Hk as HL HR _ _ _.
  unfold emit in He.
  split; [exact E |]. split; [exact He |].
  split; [exact HL |]. split; [exact HR |].
  rewrite E, !countEvent_app.
  rewrite (countEvent_none kEventReleased isClickKind _ eq_refl He).
  rewrite (countEvent_none kEventLongReleased isClickKind _ eq_refl He).
  rewrite <- HL. unfold releaseReport.
  destruct (releasedSuppressed cfg s1), (isFlag kFlagLongPressed s1);
    split; reflexivity.
Qed.

Lemma released_event_suppression_witness :
  let cfg :=
    withFeatures [kFeatureLongPress; kFeatureSuppressAfterLongPress]
      20 200 400 1000 1000 200 5000 in
  let s :=
    mkAceButton 2 0
      (Z.lor kFlagDefaultReleasedState
         (Z.lor kFlagPressed kFlagLongPressed)) HIGH 1100 50 0 0 0 in
  countEvent kEventReleased (out (checkReleased cfg 1125 HIGH s)) = 0%nat /\
  countEvent kEventLongReleased (out (checkReleased cfg 1125 HIGH s)) = 1%nat.
Proof.
  intros cfg s.
  destruct (released_event_suppression cfg s 1125 HIGH eq_refl)
    as (_ & _ & _ & _ & H1 & H2).
  split; [exact H1 | exact H2].
Defined.

(** ** The debounce gate *)

(** A sample that the gate rejects changes nothing but what the heartbeat
    check changes, and dispatches nothing but a heartbeat. *)
Lemma checkState_rejected cfg now b s :
  isFlag kFlagDebouncing s = true ->
  Int64.sub now (mLastDebounceTime s) < getDebounceDelay cfg ->
  wp (checkState cfg now b) (fun _ s' e =>
    buttonView s' = buttonView s /\
    Forall (fun ev => isHeartBeat (eventType ev) = true) e) s.
Proof.
  intros Hd Hw. unfold checkState. wp_step.
  wp_frame (both (keep buttonView) (emit isHeartBeat)).
  unfold checkDebounced. wp_go.
  split; [| now rewrite app_nil_r].
  unfold buttonView, holdView; norm_st. reflexivity.
Qed.

(** Samples inside the window of a running debounce are all rejected. *)
Lemma checkSamples_in_window cfg t0 bounces :
  samplesWithin (getDebounceDelay cfg) t0 bounces ->
  forall s,
    isFlag kFlagDebouncing s = true ->
    mLastDebounceTime s = t0 ->
    let r := checkSamples cfg bounces s in
    buttonView (st r) = buttonView s /\
    Forall (fun ev => isHeartBeat (eventType ev) = true) (out r).
Proof.
  induction 1 as [| [now b] bounces Hnow _ IH]; intros s Hd Ht.
  - split; [reflexivity | constructor].
  - cbn [fst] in Hnow. cbn zeta.
    destruct (checkSamples_cons cfg now b bounces s) as [E1 E2].
    cbn zeta in E1, E2. rewrite E1, E2.
    assert (Hw : Int64.sub now (mLastDebounceTime s) < getDebounceDelay cfg)
      by (rewrite Ht; exact Hnow).
    destruct (checkState_rejected cfg now b s Hd Hw) as [Hv He].
    set (s1 := st (checkState cfg now b s)) in *.
    assert (Hd1 : isFlag kFlagDebouncing s1 = true)
      by (unfold buttonView, holdView in Hv; congruence).
    assert (Ht1 : mLastDebounceTime s1 = t0)
      by (unfold buttonView, holdView in Hv; congruence).
    destruct (IH s1 Hd1 Ht1) as [Hv' He']. cbn zeta in Hv', He'.
    split; [congruence | apply Forall_app; auto].
Qed.

(** The sample that opens a debounce window leaves everything else as it
    is. *)
Lemma opening_pass cfg now b s :
  isFlag kFlagDebouncing s = false ->
  b <> mLastButtonState s ->
  wp (checkState cfg now b) (fun _ s' e =>
    holdView s' = holdView s /\
    isFlag kFlagDebouncing s' = true /\
    mLastDebounceTime s' = now /\
    Forall (fun ev => isHeartBeat (eventType ev) = true) e) s.
Proof.
  intros Hd Hb. unfold checkState. wp_step.
  wp_frame (both (keep buttonView) (emit isHeartBeat)).
  unfold checkDebounced. wp_go.
  repeat split; try reflexivity; [| now rewrite app_nil_r ].
  unfold holdView. norm_st. congruence.
Qed.

(** A sample at the level that is already confirmed reports no change of
    level, whatever the gate decides. *)
Lemma checkEvent_same_level cfg now b s :
  mLastButtonState s = b ->
  wp (checkEvent cfg now b) (fun _ s' e =>
    Forall (fun ev => notLevelChange (eventType ev) = true) e) s.
Proof.
  intros Hb. unfold checkEvent.
  wp_step. wp_frame (both level (emit notLevelChange)).
  wp_step. wp_frame (both level (emit notLevelChange)).
  wp_step. wp_frame (both level (emit notLevelChange)).
  wp_go. trace_tac.
Qed.

Lemma checkState_same_level cfg now b s :
  mLastButtonState s = b ->
  wp (checkState cfg now b) (fun _ s' e =>
    Forall (fun ev => notLevelChange (eventType ev) = true) e) s.
Proof.
  intros Hb. unfold checkState. wp_step.
  wp_frame (both level (emit notLevelChange)).
  wp_step. wp_frame (both level (emit notLevelChange)).
  wp_go; [| trace_tac ].
  unfold checkInitialized. wp_go; [| trace_tac ].
  wp_use checkEvent_same_level; [ assumption | intros ?; trace_tac ].
Qed.

(** The gate itself, case by case. *)
Lemma checkDebounced_steady cfg now b s :
  isFlag kFlagDebouncing s = false ->
  b = mLastButtonState s ->
  wp (checkDebounced cfg now b) (fun a s' e =>
    a = true /\ s' = s /\ e = []) s.
Proof.
  intros Hd Hb. unfold checkDebounced. wp_go. auto.
Qed.

Lemma checkDebounced_start cfg now b s :
  isFlag kFlagDebouncing s = false ->
  b <> mLastButtonState s ->
  wp (checkDebounced cfg now b) (fun a s' e =>
    a = false /\
    s' = with_mLastDebounceTime now (setFlag kFlagDebouncing s) /\
    e = []) s.
Proof.
  intros Hd Hb. unfold checkDebounced. wp_go. auto.
Qed.

Lemma checkDebounced_waiting cfg now b s :
  isFlag kFlagDebouncing s = true ->
  Int64.sub now (mLastDebounceTime s) < getDebounceDelay cfg ->
  wp (checkDebounced cfg now b) (fun a s' e =>
    a = false /\ s' = s /\ e = []) s.
Proof.
  intros Hd Hw. unfold checkDebounced. wp_go. auto.
Qed.

Lemma checkDebounced_settled cfg now b s :
  isFlag kFlagDebouncing s = true ->
  getDebounceDelay cfg <= Int64.sub now (mLastDebounceTime s) ->
  wp (checkDebounced cfg now b) (fun a s' e =>
    a = true /\ s' = clearFlag kFlagDebouncing s /\ e = []) s.
Proof.
  intros Hd Hw. unfold checkDebounced. wp_go. auto.
Qed.

Lemma checkDebounced_ignores_level cfg now b b' s :
  isFlag kFlagDebouncing s = true ->
  checkDebounced cfg now b' s = checkDebounced cfg now b s.
Proof.
  intros Hd. unfold checkDebounced, bind, gets. cbn [val st out].
  rewrite Hd. reflexivity.
Qed.

Lemma isHeartBeat_notLevelChange (evs : list Event) :
  Forall (fun ev => isHeartBeat (eventType ev) = true) evs ->
  Forall (fun ev => notLevelChange (eventType ev) = true) evs.
Proof.
  apply emit_weaken. intros []; cbn; congruence.
Qed.

(** A change of level, any samples inside the window it opens, and a
    sample back at the confirmed level: no change of level is reported. *)
Lemma bounces_report_nothing cfg now b bounces t s :
  isFlag kFlagDebouncing s = false ->
  b <> mLastButtonState s ->
  samplesWithin (getDebounceDelay cfg) now bounces ->
  Forall (fun ev => notLevelChange (eventType ev) = true)
    (out (checkSamples cfg
            ((now, b) :: bounces ++ [(t, mLastButtonState s)]) s)).
Proof.
  intros Hd Hb Hw.
  destruct (checkSamples_cons cfg now b
              (bounces ++ [(t, mLastButtonState s)]) s) as [_ E].
  cbn zeta in E. rewrite E. clear E.
  destruct (opening_pass cfg now b s Hd Hb) as (Hv1 & Hd1 & Ht1 & He1).
  set (s1 := st (checkState cfg now b s)) in *.
  destruct (checkSamples_app cfg bounces [(t, mLastButtonState s)] s1)
    as [_ E].
  cbn zeta in E. rewrite E. clear E.
  destruct (checkSamples_in_window cfg now bounces Hw s1 Hd1 Ht1)
    as [Hv2 He2].
  cbn zeta in Hv2, He2.
  set (s2 := st (checkSamples cfg bounces s1)) in *.
  assert (HL2 : mLastButtonState s2 = mLastButtonState s)
    by (unfold buttonView, holdView in Hv1, Hv2; congruence).
  pose proof (checkState_same_level cfg t (mLastButtonState s) s2 HL2)
    as He3.
  unfold wp in He3.
  apply Forall_app; split; [ now apply isHeartBeat_notLevelChange |].
  apply Forall_app; split; [ now apply isHeartBeat_notLevelChange |].
  cbn [checkSamples bind ret out]. rewrite app_nil_r. exact He3.
Qed.

(** C6. The debounce gate.  Outside a debounce the gate accepts a sample
    at the confirmed level at once and leaves the object alone; a sample
    at another level is refused, the time is recorded and the Debouncing
    flag is set.  During a debounce the level of the sample plays no part:
    the sample is refused until the elapsed time reaches the debounce
    delay, and then the flag is cleared and the sample accepted.  The gate
    dispatches nothing.  As a consequence a change of level, followed by
    any samples inside the window it opens and by a sample back at the
    confirmed level, yields neither Pressed nor Released. *)
Theorem debounce_gate :
  forall cfg s now b,
    let r := checkDebounced cfg now b s in
    out r = [] /\
    (isFlag kFlagDebouncing s = false -> b = mLastButtonState s ->
       val r = true /\ st r = s) /\
    (isFlag kFlagDebouncing s = false -> b <> mLastButtonState s ->
       val r = false /\
       st r = with_mLastDebounceTime now (setFlag kFlagDebouncing s)) /\
    (isFlag kFlagDebouncing s = true ->
       forall b', checkDebounced cfg now b' s = r) /\
    (isFlag kFlagDebouncing s = true ->
     Int64.sub now (mLastDebounceTime s) < getDebounceDelay cfg ->
       val r = false /\ st r = s) /\
    (isFlag kFlagDebouncing s = true ->
     getDebounceDelay cfg <= Int64.sub now (mLastDebounceTime s) ->
       val r = true /\ st r = clearFlag kFlagDebouncing s) /\
    (isFlag kFlagDebouncing s = false -> b <> mLastButtonState s ->
       forall bounces t,
         samplesWithin (getDebounceDelay cfg) now bounces ->
         let evs :=
           out (checkSamples cfg
                  ((now, b) :: bounces ++ [(t, mLastButtonState s)]) s) in
         countEvent kEventPressed evs = 0%nat /\
         countEvent kEventReleased evs = 0%nat).
Proof.
  intros cfg s now b r. subst r.
  split; [apply checkDebounced_quiet |].
  split; [intros Hd Hb;
          destruct (checkDebounced_steady cfg now b s Hd Hb) as (? & ? & _);
          auto |].
  split; [intros Hd Hb;
          destruct (checkDebounced_start cfg now b s Hd Hb) as (? & ? & _);
          auto |].
  split; [intros Hd b'; now apply checkDebounced_ignores_level |].
  split; [intros Hd Hw;
          destruct (checkDebounced_waiting cfg now b s Hd Hw) as (? & ? & _);
          auto |].
  split; [intros Hd Hw;
          destruct (checkDebounced_settled cfg now b s Hd Hw) as (? & ? & _);
          auto |].
  intros Hd Hb bounces t Hw evs. subst evs.
  pose proof (bounces_report_nothing cfg now b bounces t s Hd Hb Hw) as HF.
  split; eapply countEvent_none; try exact HF; reflexivity.
Qed.

Lemma debounce_gate_witness :
  let cfg := withFeatures [] 20 200 400 1000 1000 200 5000 in
  val (checkDebounced cfg 30 HIGH idleButton) = true /\
  val (checkDebounced cfg 30 LOW idleButton) = false /\
  mLastDebounceTime (st (checkDebounced cfg 30 LOW idleButton)) = 30 /\
  checkDebounced cfg 10 HIGH debouncingButton
  = checkDebounced cfg 10 LOW debouncingButton /\
  val (checkDebounced cfg 10 LOW debouncingButton) = false /\
  val (checkDebounced cfg 25 LOW debouncingButton) = true /\
  countEvent kEventPressed
    (out (checkSamples cfg [(30, LOW); (35, HIGH); (40, LOW); (60, HIGH)]
            idleButton)) = 0%nat /\
  countEvent kEventReleased
    (out (checkSamples cfg [(30, LOW); (35, HIGH); (40, LOW); (60, HIGH)]
            idleButton)) = 0%nat.
Proof.
  intros cfg.
  destruct (debounce_gate cfg idleButton 30 HIGH) as (_ & A & _).
  destruct (debounce_gate cfg idleButton 30 LOW)
    as (_ & _ & B & _ & _ & _ & G).
  destruct (debounce_gate cfg debouncingButton 10 LOW)
    as (_ & _ & _ & C & D & _).
  destruct (debounce_gate cfg debouncingButton 25 LOW)
    as (_ & _ & _ & _ & _ & E & _).
  assert (Hne : LOW <> mLastButtonState idleButton) by discriminate.
  assert (Hin : samplesWithin (getDebounceDelay cfg) 30
                  [(35, HIGH); (40, LOW)])
    by (repeat constructor).
  destruct (A eq_refl eq_refl) as [A1 _].
  destruct (B eq_refl Hne) as [B1 B2].
  destruct (D eq_refl eq_refl) as [D1 _].
  assert (Hsettled : getDebounceDelay cfg
                     <= Int64.sub 25 (mLastDebounceTime debouncingButton))
    by (vm_compute; discriminate).
  destruct (E eq_refl Hsettled) as [E1 _].
  destruct (G eq_refl Hne [(35, HIGH); (40, LOW)] 60 Hin) as [G1 G2].
  split; [exact A1 |]. split; [exact B1 |].
  split; [rewrite B2; reflexivity |].
  split; [exact (C eq_refl HIGH) |].
  split; [exact D1 |]. split; [exact E1 |].
  split; [exact G1 | exact G2].
Defined.

(** ** Event names *)

(** C9. [eventName] at the code of Pressed: the function returns the
    string for unknown events, although the entry of [sEventNames] for
    that code, which the lookup described in the function would return,
    is the name Pressed.  The same happens at every code. *)
Theorem eventName_of_pressed_is_unknown :
  eventName (eventCode kEventPressed) = "(unknown)"%string /\
  eventName_table (eventCode kEventPressed) = "Pressed"%string /\
  (forall e : EventType, eventName (eventCode e) = sEventUnknown).
Proof.
  repeat split.
Qed.

(** ** The level carried by the events *)


Lemma checkChanged_level cfg now b s :
  wp (checkChanged cfg now b) (fun _ s' e =>
    mLastButtonState s' = b /\
    Forall (fun ev => buttonState ev = b) e /\
    Forall (fun ev => notHeartBeat (eventType ev) = true) e) s.
Proof.
  unfold checkChanged. wp_step. wp_step.
  wp_frame (both level (emit notHeartBeat)).
  repeat split; trace_tac.
Qed.

Lemma checkState_levels cfg now b s :
  wp (checkState cfg now b) (fun _ s' e =>
    exists before after,
      e = before ++ after /\
      Forall (fun ev => buttonState ev = mLastButtonState s) before /\
      Forall (fun ev => notLevelChange (eventType ev) = true) before /\
      Forall (fun ev => buttonState ev = b) after /\
      Forall (fun ev => notHeartBeat (eventType ev) = true) after /\
      (after <> [] -> mLastButtonState s' = b)) s.
Proof.
  unfold checkState. wp_step.
  wp_frame (both level (emit notLevelChange)).
  wp_step. wp_frame (both level (emit notLevelChange)).
  wp_go.
  2: { exists (e ++ e0 ++ []), []. rewrite !app_nil_r.
       repeat split; trace_tac. congruence. }
  unfold checkInitialized. wp_go.
  2: { exists (e ++ e0 ++ [] ++ []), []. rewrite !app_nil_r.
       repeat split; trace_tac. congruence. }
  unfold checkEvent.
  wp_step. wp_frame (both level (emit notLevelChange)).
  wp_step. wp_frame (both level (emit notLevelChange)).
  wp_step. wp_frame (both level (emit notLevelChange)).
  wp_go.
  2: { exists (e ++ e0 ++ [] ++ e1 ++ e2 ++ e3 ++ []), [].
       rewrite !app_nil_r.
       repeat split; trace_tac. congruence. }
  wp_use checkChanged_level. intros (HL & Hb & Hk).
  exists (e ++ e0 ++ e1 ++ e2 ++ e3), e4.
  rewrite <- !app_assoc.
  repeat split; trace_tac. intros _. assumption.
Qed.

(** C10. [handleEvent] hands to the sink the value of [mLastButtonState]
    at the time of the call.  The events of a pass are therefore those
    dispatched before [checkChanged] stores the sample, which carry the
    level confirmed before the pass and include every HeartBeat, followed
    by those dispatched after it, which carry the level of the sample,
    by then the value of [mLastButtonState]; Pressed, Released and
    LongReleased are among the latter only. *)
Theorem events_carry_last_button_state :
  forall cfg s now b,
    (forall e s0,
       out (handleEvent e s0) = [mkEvent e (getLastButtonState s0)]) /\
    exists before after,
      out (checkState cfg now b s) = before ++ after /\
      Forall (fun ev => buttonState ev = mLastButtonState s /\
                        isLevelChange (eventType ev) = false) before /\
      Forall (fun ev => buttonState ev = b /\
                        mLastButtonState (st (checkState cfg now b s)) = b /\
                        eventType ev <> kEventHeartBeat) after.
Proof.
  intros cfg s now b. split; [reflexivity |].
  destruct (checkState_levels cfg now b s)
    as (before & after & E & B1 & B2 & A1 & A2 & A3).
  exists before, after. split; [exact E |]. split.
  - rewrite Forall_forall in *. intros ev Hin. split; [auto |].
    specialize (B2 ev Hin). unfold notLevelChange in B2.
    now apply negb_true_iff in B2.
  - assert (HL : after <> [] ->
                 mLastButtonState (st (checkState cfg now b s)) = b)
      by exact A3.
    rewrite Forall_forall in *. intros ev Hin.
    split; [auto |]. split.
    + apply HL. intros ->. contradiction.
    + specialize (A2 ev Hin). unfold notHeartBeat in A2.
      apply negb_true_iff in A2. intros Heq. rewrite Heq in A2.
      discriminate.
Qed.

(** ** The flags after a release *)

Lemma checkReleased_clears cfg now b s :
  b = getDefaultReleasedState s ->
  wp (checkReleased cfg now b) (fun _ s' _ =>
    isFlag kFlagPressed s' = false /\
    isFlag kFlagLongPressed s' = false /\
    isFlag kFlagRepeatPressed s' = false /\
    isFlag kFlagDoubleClicked s' = false /\
    isFlag kFlagDebouncing s' = isFlag kFlagDebouncing s /\
    mLastButtonState s' = mLastButtonState s) s.
Proof.
  intros Hb. unfold checkReleased. wp_go.
  1: wp_frame (both level (keep (isFlag kFlagDebouncing))); wp_go.
  all: repeat split; reflexivity.
Qed.

Lemma checkEvent_release cfg now b s :
  b <> mLastButtonState s ->
  b = getDefaultReleasedState s ->
  wp (checkEvent cfg now b) (fun _ s' _ =>
    isFlag kFlagPressed s' = false /\
    isFlag kFlagLongPressed s' = false /\
    isFlag kFlagRepeatPressed s' = false /\
    isFlag kFlagDoubleClicked s' = false /\
    isFlag kFlagDebouncing s' = isFlag kFlagDebouncing s /\
    mLastButtonState s' = b) s.
Proof.
  intros Hne Hb. unfold checkEvent.
  wp_step.
  wp_frame (both level (keep (fun s => (isFlag kFlagDebouncing s,
                                         getDefaultReleasedState s)))).
  wp_step.
  wp_frame (both level (keep (fun s => (isFlag kFlagDebouncing s,
                                         getDefaultReleasedState s)))).
  wp_step.
  wp_frame (both level (keep (fun s => (isFlag kFlagDebouncing s,
                                         getDefaultReleasedState s)))).
  wp_go.
  unfold checkChanged. wp_go. unfold checkPressed. wp_go.
  wp_use checkReleased_clears.
  - norm_st. congruence.
  - norm_st. intros (? & ? & ? & ? & ? & ?).
    repeat split; congruence.
Qed.

(** C1, as amended.  When a pass processes a release, that is, the gate
    accepts the sample, the button is initialized and the level of the
    sample differs from the confirmed level and is the released level,
    then the Debouncing, Pressed, LongPressed, RepeatPressed and
    DoubleClicked flags are all clear when the pass ends, and the
    released level is the confirmed level.  Clicked and ClickPostponed are
    left to the click logic and may be set at that point. *)
Theorem release_clears_hold_flags :
  forall cfg s now b,
    gateAccepts cfg now b s = true ->
    mLastButtonState s <> kButtonStateUnknown ->
    b <> mLastButtonState s ->
    b = getDefaultReleasedState s ->
    let s' := st (checkState cfg now b s) in
    isFlag kFlagDebouncing s' = false /\
    isFlag kFlagPressed s' = false /\
    isFlag kFlagLongPressed s' = false /\
    isFlag kFlagRepeatPressed s' = false /\
    isFlag kFlagDoubleClicked s' = false /\
    mLastButtonState s' = b.
Proof.
  intros cfg s now b Hacc Hinit Hne Hrel s'. subst s'.
  destruct (accepted_pass cfg now b s Hacc) as (Hd & Hv & _ & Hk).
  destruct (Hk Hinit) as [Est _]. rewrite Est. clear Hk Est.
  set (s2 := st (checkDebounced cfg now b (st (checkHeartBeat cfg now s))))
    in *.
  unfold holdView in Hv.
  assert (HL : mLastButtonState s2 = mLastButtonState s) by congruence.
  assert (HR : getDefaultReleasedState s2 = getDefaultReleasedState s)
    by congruence.
  destruct (checkEvent_release cfg now b s2) as (H1 & H2 & H3 & H4 & H5 & H6);
    [congruence | congruence |].
  repeat split; congruence.
Qed.

Lemma release_clears_hold_flags_witness :
  let cfg :=
    withFeatures [kFeatureClick; kFeatureSuppressClickBeforeDoubleClick]
      20 200 400 1000 1000 200 5000 in
  let s' := st (checkState cfg 80 HIGH heldButton) in
  isFlag kFlagDebouncing s' = false /\
  isFlag kFlagPressed s' = false /\
  isFlag kFlagLongPressed s' = false /\
  isFlag kFlagRepeatPressed s' = false /\
  isFlag kFlagDoubleClicked s' = false /\
  mLastButtonState s' = HIGH.
Proof.
  intros cfg.
  apply (release_clears_hold_flags cfg heldButton 80 HIGH).
  - reflexivity.
  - discriminate.
  - discriminate.
  - reflexivity.
Defined.

(** C1, as stated, fails.  The button of the examples is pressed at time
    50 and released 30 ms later; the state before the release is the one
    reached from a fresh button by the samples listed.  The sample at time
    80 is accepted and processed as a release, Released is dispatched, and
    when the pass ends the Clicked and the ClickPostponed flags are
    set. *)
Lemma release_leaves_click_flags :
  let cfg :=
    withFeatures [kFeatureClick; kFeatureSuppressClickBeforeDoubleClick]
      20 200 400 1000 1000 200 5000 in
  st (checkSamples cfg
        [(0, HIGH); (20, HIGH); (30, LOW); (50, LOW); (60, HIGH)]
        freshButton) = heldButton /\
  gateAccepts cfg 80 HIGH heldButton = true /\
  mLastButtonState heldButton = LOW /\
  getDefaultReleasedState heldButton = HIGH /\
  out (checkState cfg 80 HIGH heldButton) = [mkEvent kEventReleased HIGH] /\
  isFlag kFlagClicked (st (checkState cfg 80 HIGH heldButton)) = true /\
  isFlag kFlagClickPostponed (st (checkState cfg 80 HIGH heldButton)) = true.
Proof.
  cbv zeta. repeat split; vm_compute; reflexivity.
Qed.

(** ** The click housekeeping *)

(** With a feature of the guard enabled and the double-click delay
    elapsed, the cleanup flushes a postponed click and leaves neither flag
    set. *)
Lemma stageClickCleanup_elapsed cfg now s :
  isFeature cfg kFeatureClick || isFeature cfg kFeatureDoubleClick = true ->
  getDoubleClickDelay cfg <= Int64.sub now (mLastClickTime s) ->
  wp (stageClickCleanup cfg now) (fun _ s' e =>
    e = (if isFlag kFlagClickPostponed s
         then [mkEvent kEventClicked (mLastButtonState s)] else []) /\
    isFlag kFlagClicked s' = false /\
    isFlag kFlagClickPostponed s' = false /\
    mLastButtonState s' = mLastButtonState s /\
    getDefaultReleasedState s' = getDefaultReleasedState s) s.
Proof.
  intros Hf Hel. apply Z.geb_le in Hel.
  unfold stageClickCleanup, checkPostponedClick, checkOrphanedClick.
  wp_go; repeat split; reflexivity.
Qed.

(** A click evaluation that starts without a pending click leaves a flag
    set only for a click that it records itself, at the time of the
    sample. *)
Lemma checkClicked_fresh cfg now s :
  isFlag kFlagClicked s = false ->
  isFlag kFlagClickPostponed s = false ->
  wp (checkClicked cfg now) (fun _ s' _ =>
    (isFlag kFlagClicked s' = true -> mLastClickTime s' = now) /\
    (isFlag kFlagClickPostponed s' = true -> mLastClickTime s' = now)) s.
Proof.
  intros Hc Hp. unfold checkClicked, checkDoubleClicked.
  wp_go; split; intros; first [ reflexivity | congruence ].
Qed.

Lemma checkChanged_fresh cfg now b s :
  isFlag kFlagClicked s = false ->
  isFlag kFlagClickPostponed s = false ->
  wp (checkChanged cfg now b) (fun _ s' _ =>
    (isFlag kFlagClicked s' = true -> mLastClickTime s' = now) /\
    (isFlag kFlagClickPostponed s' = true -> mLastClickTime s' = now)) s.
Proof.
  intros Hc Hp. unfold checkChanged, checkPressed, checkReleased.
  wp_go.
  all: try lazymatch goal with
           | |- wp (checkClicked _ _) _ _ =>
               wp_use checkClicked_fresh;
               [ norm_st; reflexivity | norm_st; reflexivity | ];
               intros [? ?]; wp_go
           end.
  all: norm_st; split; intros; first [ assumption | congruence | auto ].
Qed.

Lemma checkEvent_head cfg now b s :
  out (checkEvent cfg now b s) =
  out (stageClickCleanup cfg now s)
  ++ skipn (List.length (out (stageClickCleanup cfg now s)))
       (out (checkEvent cfg now b s)).
Proof.
  unfold checkEvent at 2. rewrite out_bind.
  fold (stageClickCleanup cfg now).
  rewrite skipn_app, Nat.sub_diag, skipn_all. cbn [skipn app].
  unfold checkEvent. rewrite out_bind. reflexivity.
Qed.

Lemma checkEvent_fresh cfg now b s :
  isFeature cfg kFeatureClick || isFeature cfg kFeatureDoubleClick = true ->
  getDoubleClickDelay cfg <= Int64.sub now (mLastClickTime s) ->
  wp (checkEvent cfg now b) (fun _ s' _ =>
    (isFlag kFlagClicked s' = true -> mLastClickTime s' = now) /\
    (isFlag kFlagClickPostponed s' = true -> mLastClickTime s' = now)) s.
Proof.
  intros Hf Hel. unfold checkEvent. apply wp_bind.
  fold (stageClickCleanup cfg now).
  wp_use stageClickCleanup_elapsed; [ assumption | assumption |].
  intros (_ & Hc & Hp & _ & _). wp_step.
  wp_frame (keep (fun s => (isFlag kFlagClicked s,
                            isFlag kFlagClickPostponed s))).
  wp_step.
  wp_frame (keep (fun s => (isFlag kFlagClicked s,
                            isFlag kFlagClickPostponed s))).
  wp_go.
  - wp_use checkChanged_fresh; [ congruence | congruence | auto ].
  - split; congruence.
Qed.


(** ** The first confirmed samples *)

Lemma isClickKind_notLevelChange (evs : list Event) :
  Forall (fun ev => isClickKind (eventType ev) = true) evs ->
  Forall (fun ev => notLevelChange (eventType ev) = true) evs.
Proof.
  apply emit_weaken. intros []; cbn; congruence.
Qed.

Lemma releasedSuppressed_off cfg s :
  noSuppression cfg = true -> releasedSuppressed cfg s = false.
Proof.
  unfold noSuppression, releasedSuppressed. intros H.
  apply negb_true_iff in H.
  destruct (isFeature cfg kFeatureSuppressAfterLongPress),
    (isFeature cfg kFeatureSuppressAfterRepeatPress),
    (isFeature cfg kFeatureSuppressAfterClick),
    (isFeature cfg kFeatureSuppressAfterDoubleClick);
    cbn in H; try discriminate.
  now rewrite !andb_false_r.
Qed.

Lemma checkEvent_press cfg now b s :
  b <> mLastButtonState s ->
  b <> getDefaultReleasedState s ->
  wp (checkEvent cfg now b) (fun _ s' e =>
    exists before,
      e = before ++ [mkEvent kEventPressed b] /\
      Forall (fun ev => notLevelChange (eventType ev) = true) before) s.
Proof.
  intros Hne Hrel. unfold checkEvent.
  wp_step.
  wp_frame (both level (both (keep getDefaultReleasedState)
                             (emit notLevelChange))).
  wp_step.
  wp_frame (both level (both (keep getDefaultReleasedState)
                             (emit notLevelChange))).
  wp_step.
  wp_frame (both level (both (keep getDefaultReleasedState)
                             (emit notLevelChange))).
  wp_go.
  unfold checkChanged, checkPressed, checkReleased. wp_go.
  exists (e ++ e0 ++ e1). rewrite <- !app_assoc. cbn [app].
  split; [reflexivity | trace_tac].
Qed.

Lemma checkEvent_released cfg now b s :
  b <> mLastButtonState s ->
  b = getDefaultReleasedState s ->
  wp (checkEvent cfg now b) (fun _ s' e =>
    exists before s7,
      e = before ++ releaseReport cfg s7 /\
      mLastButtonState s7 = b /\
      Forall (fun ev => notLevelChange (eventType ev) = true) before) s.
Proof.
  intros Hne Hrel. unfold checkEvent.
  wp_step.
  wp_frame (both level (both (keep getDefaultReleasedState)
                             (emit notLevelChange))).
  wp_step.
  wp_frame (both level (both (keep getDefaultReleasedState)
                             (emit notLevelChange))).
  wp_step.
  wp_frame (both level (both (keep getDefaultReleasedState)
                             (emit notLevelChange))).
  wp_go.
  unfold checkChanged, checkPressed. wp_go.
  unfold wp.
  set (s6 := with_mLastButtonState b s2).
  assert (Hb6 : b = getDefaultReleasedState s6)
    by (subst s6; norm_st; congruence).
  rewrite (checkReleased_report cfg now b s6 Hb6).
  destruct (clickEvaluation_frame cfg now s6) as ([HL _] & _ & He).
  unfold emit in He.
  exists (e ++ e0 ++ e1 ++ out (clickEvaluation cfg now s6)),
    (st (clickEvaluation cfg now s6)).
  rewrite <- !app_assoc. cbn [app].
  split; [reflexivity |]. split; [exact HL |].
  pose proof (isClickKind_notLevelChange _ He). trace_tac.
Qed.


(** ** Elapsed time *)

Lemma Int64_half_value : Int64.half = 9223372036854775808.
Proof. reflexivity. Qed.

Lemma Int64_modulus_value : Int64.modulus = 18446744073709551616.
Proof. reflexivity. Qed.

Ltac int64_arith :=
  unfold Int64.sub, Int64.wrap, Int64.unsigned, Int64.in_range,
    Int64.min_signed, Int64.max_signed in *;
  rewrite ?Int64_half_value, ?Int64_modulus_value in *;
  Z.div_mod_to_equations; lia.

Lemma Int64_sub_exact (now last : Z) :
  Int64.in_range (now - last) -> Int64.sub now last = now - last.
Proof. intros H. int64_arith. Qed.

Lemma Int64_sub_in_range (now last : Z) :
  Int64.in_range (Int64.sub now last).
Proof. int64_arith. Qed.

Lemma Int64_sub_unsigned (now last : Z) :
  Int64.sub now last = Int64.unsigned (now - last) <->
  Int64.unsigned (now - last) < Int64.half.
Proof. split; intros H; int64_arith. Qed.

Lemma Int64_sub_negative (now last : Z) :
  Int64.half <= Int64.unsigned (now - last) -> Int64.sub now last < 0.
Proof. intros H. int64_arith. Qed.

(** For time stamps that do not decrease, a sample taken between a
    recorded time and a later sample is no further from the recorded time
    than the later sample is. *)
Lemma samplesWithin_nondecreasing (delay t0 t1 : Z) (samples : list (Z * Z)) :
  Int64.in_range (t1 - t0) ->
  Forall (fun smp => t0 <= fst smp <= t1) samples ->
  Int64.sub t1 t0 < delay ->
  samplesWithin delay t0 samples.
Proof.
  intros Hr Hall Hlt. unfold samplesWithin.
  eapply Forall_impl; [| exact Hall]. cbv beta. intros smp Hs.
  rewrite Int64_sub_exact in Hlt by exact Hr.
  rewrite Int64_sub_exact; [lia |].
  unfold Int64.in_range, Int64.min_signed, Int64.max_signed in *.
  rewrite Int64_half_value in *. lia.
Qed.

(** Each window of the classifier is decided by the comparison, as
    signed numbers, of [Int64.sub now last] with the delay. *)

Lemma debounce_window cfg now b s :
  isFlag kFlagDebouncing s = true ->
  val (checkDebounced cfg now b s) =
  (Int64.sub now (mLastDebounceTime s) >=? getDebounceDelay cfg).
Proof.
  intros H.
  apply (wp_run (checkDebounced cfg now b)
    (fun a _ _ =>
       a = (Int64.sub now (mLastDebounceTime s) >=? getDebounceDelay cfg))).
  unfold checkDebounced. wp_go; reflexivity.
Qed.

Lemma heartbeat_window cfg now s :
  isFeature cfg kFeatureHeartBeat = true ->
  isFlag kFlagHeartRunning s = true ->
  out (checkHeartBeat cfg now s) =
  if Int64.sub now (mLastHeartBeatTime s) >=? getHeartBeatInterval cfg
  then [mkEvent kEventHeartBeat (mLastButtonState s)] else [].
Proof.
  intros Hf H.
  apply (wp_run (checkHeartBeat cfg now)
    (fun _ _ e =>
       e = if Int64.sub now (mLastHeartBeatTime s)
               >=? getHeartBeatInterval cfg
           then [mkEvent kEventHeartBeat (mLastButtonState s)] else [])).
  unfold checkHeartBeat. wp_go; reflexivity.
Qed.

Lemma long_press_window cfg now b s :
  b <> getDefaultReleasedState s ->
  isFlag kFlagPressed s = true ->
  isFlag kFlagLongPressed s = false ->
  out (checkLongPress cfg now b s) =
  if Int64.sub now (mLastPressTime s) >=? getLongPressDelay cfg
  then [mkEvent kEventLongPressed (mLastButtonState s)] else [].
Proof.
  intros Hb Hp Hl.
  apply (wp_run (checkLongPress cfg now b)
    (fun _ _ e =>
       e = if Int64.sub now (mLastPressTime s) >=? getLongPressDelay cfg
           then [mkEvent kEventLongPressed (mLastButtonState s)] else [])).
  unfold checkLongPress. wp_go; reflexivity.
Qed.

Lemma repeat_press_delay_window cfg now b s :
  b <> getDefaultReleasedState s ->
  isFlag kFlagPressed s = true ->
  isFlag kFlagRepeatPressed s = false ->
  out (checkRepeatPress cfg now b s) =
  if Int64.sub now (mLastPressTime s) >=? getRepeatPressDelay cfg
  then [mkEvent kEventRepeatPressed (mLastButtonState s)] else [].
Proof.
  intros Hb Hp Hr.
  apply (wp_run (checkRepeatPress cfg now b)
    (fun _ _ e =>
       e = if Int64.sub now (mLastPressTime s) >=? getRepeatPressDelay cfg
           then [mkEvent kEventRepeatPressed (mLastButtonState s)] else [])).
  unfold checkRepeatPress. wp_go; reflexivity.
Qed.

Lemma repeat_press_interval_window cfg now b s :
  b <> getDefaultReleasedState s ->
  isFlag kFlagPressed s = true ->
  isFlag kFlagRepeatPressed s = true ->
  out (checkRepeatPress cfg now b s) =
  if Int64.sub now (mLastRepeatPressTime s) >=? getRepeatPressInterval cfg
  then [mkEvent kEventRepeatPressed (mLastButtonState s)] else [].
Proof.
  intros Hb Hp Hr.
  apply (wp_run (checkRepeatPress cfg now b)
    (fun _ _ e =>
       e = if Int64.sub now (mLastRepeatPressTime s)
               >=? getRepeatPressInterval cfg
           then [mkEvent kEventRepeatPressed (mLastButtonState s)] else [])).
  unfold checkRepeatPress. wp_go; reflexivity.
Qed.

Lemma click_window cfg now s :
  isFeature cfg kFeatureDoubleClick = false ->
  isFlag kFlagDoubleClicked s = false ->
  isFlag kFlagClicked (st (checkClicked cfg now s)) =
  negb (Int64.sub now (mLastPressTime s) >=? getClickDelay cfg).
Proof.
  intros Hf Hd.
  apply (wp_run (checkClicked cfg now)
    (fun _ s' _ =>
       isFlag kFlagClicked s' =
       negb (Int64.sub now (mLastPressTime s) >=? getClickDelay cfg))).
  unfold checkClicked. wp_go; reflexivity.
Qed.

Lemma double_click_window cfg now s :
  isFlag kFlagClicked s = true ->
  isFlag kFlagDoubleClicked (st (checkDoubleClicked cfg now s)) =
  negb (Int64.sub now (mLastClickTime s) >=? getDoubleClickDelay cfg).
Proof.
  intros Hc.
  apply (wp_run (checkDoubleClicked cfg now)
    (fun _ s' _ =>
       isFlag kFlagDoubleClicked s' =
       negb (Int64.sub now (mLastClickTime s)
             >=? getDoubleClickDelay cfg))).
  unfold checkDoubleClicked. wp_go; reflexivity.
Qed.

Lemma orphaned_click_window cfg now s :
  isFlag kFlagClicked s = true ->
  isFlag kFlagClicked (st (checkOrphanedClick cfg now s)) =
  negb (Int64.sub now (mLastClickTime s) >=? getDoubleClickDelay cfg).
Proof.
  intros Hc.
  apply (wp_run (checkOrphanedClick cfg now)
    (fun _ s' _ =>
       isFlag kFlagClicked s' =
       negb (Int64.sub now (mLastClickTime s)
             >=? getDoubleClickDelay cfg))).
  unfold checkOrphanedClick. wp_go; reflexivity.
Qed.

Lemma postponed_click_window cfg now s :
  isFlag kFlagClickPostponed s = true ->
  out (checkPostponedClick cfg now s) =
  if Int64.sub now (mLastClickTime s) >=? getDoubleClickDelay cfg
  then [mkEvent kEventClicked (mLastButtonState s)] else [].
Proof.
  intros Hc.
  apply (wp_run (checkPostponedClick cfg now)
    (fun _ _ e =>
       e = if Int64.sub now (mLastClickTime s) >=? getDoubleClickDelay cfg
           then [mkEvent kEventClicked (mLastButtonState s)] else [])).
  unfold checkPostponedClick. wp_go; reflexivity.
Qed.

(** No sample of the lap of a 16-bit clock that follows the roll-over
    opens the gate of a debounce begun at time 65530: the source waits for
    a time of 65550 or more. *)
Lemma rollover_keeps_gate_shut cfg now b :
  getDebounceDelay cfg = 20 ->
  0 <= now < 65536 ->
  val (checkDebounced cfg now b rollingButton) = false.
Proof.
  intros Hd Hnow.
  rewrite (debounce_window cfg now b rollingButton eq_refl), Hd.
  change (mLastDebounceTime rollingButton) with 65530.
  rewrite Int64_sub_exact.
  - rewrite Z.geb_leb. apply Z.leb_gt. lia.
  - unfold Int64.in_range, Int64.min_signed, Int64.max_signed.
    rewrite Int64_half_value. lia.
Qed.


(** ** Click and double click *)

Lemma stageClickCleanup_quiet cfg now s :
  clickQuiet cfg now s ->
  wp (stageClickCleanup cfg now) (fun _ s' e => s' = s /\ e = []) s.
Proof.
  intros [[Hc Hp] | Hq];
    unfold stageClickCleanup, checkPostponedClick, checkOrphanedClick.
  - wp_go; split; reflexivity.
  - apply Z.ltb_lt in Hq. rewrite Z.ltb_antisym, <- Z.geb_leb in Hq.
    apply negb_true_iff in Hq.
    wp_go; split; reflexivity.
Qed.

(** A sample at the confirmed level, outside a debounce, while the click
    cleanup has nothing to do: the click logic sees the object unchanged
    and no click event is dispatched. *)
Lemma steady_pass cfg now b s :
  isFlag kFlagDebouncing s = false ->
  b = mLastButtonState s ->
  mLastButtonState s <> kButtonStateUnknown ->
  clickQuiet cfg now s ->
  wp (checkState cfg now b) (fun _ s' e =>
    clickView s' = clickView s /\
    isFlag kFlagDebouncing s' = false /\
    Forall (fun ev => notClickKind (eventType ev) = true) e) s.
Proof.
  intros Hd Hb Hinit Hq. unfold checkState. wp_step.
  wp_frame (both (keep buttonView) (emit notClickKind)).
  assert (Hq0 : clickQuiet cfg now s0)
    by (unfold clickQuiet in *; congruence).
  unfold checkDebounced, checkInitialized. wp_go.
  unfold checkEvent. apply wp_bind.
  fold (stageClickCleanup cfg now).
  wp_use stageClickCleanup_quiet; [ exact Hq0 |].
  intros [-> ->]. wp_step.
  wp_frame (both (keep (fun s => (clickView s, isFlag kFlagDebouncing s)))
                 (emit notClickKind)).
  wp_step.
  wp_frame (both (keep (fun s => (clickView s, isFlag kFlagDebouncing s)))
                 (emit notClickKind)).
  wp_go.
  split; [| split; [ reflexivity | trace_tac ] ].
  unfold clickView. congruence.
Qed.

Lemma geb_false (a d : Z) : a < d -> (a >=? d) = false.
Proof. intros H. rewrite Z.geb_leb. now apply Z.leb_gt. Qed.

Lemma geb_true (a d : Z) : d <= a -> (a >=? d) = true.
Proof. intros H. rewrite Z.geb_leb. now apply Z.leb_le. Qed.

(** The samples of a change up to the one that is accepted. *)
Lemma debounce_prefix cfg t0 b bounces s :
  isFlag kFlagDebouncing s = false ->
  b <> mLastButtonState s ->
  samplesWithin (getDebounceDelay cfg) t0 bounces ->
  let r := checkSamples cfg ((t0, b) :: bounces) s in
  holdView (st r) = holdView s /\
  isFlag kFlagDebouncing (st r) = true /\
  mLastDebounceTime (st r) = t0 /\
  Forall (fun ev => isHeartBeat (eventType ev) = true) (out r).
Proof.
  intros Hd Hb Hw.
  destruct (checkSamples_cons cfg t0 b bounces s) as [E1 E2].
  cbn zeta in *. rewrite E1, E2. clear E1 E2.
  destruct (opening_pass cfg t0 b s Hd Hb) as (Hv & Hd1 & Ht1 & He1).
  set (s1 := st (checkState cfg t0 b s)) in *.
  destruct (checkSamples_in_window cfg t0 bounces Hw s1 Hd1 Ht1)
    as [Hv2 He2].
  cbn zeta in *. unfold buttonView in Hv2.
  repeat split; try congruence. apply Forall_app; auto.
Qed.

(** The accepted sample of a press. *)
Lemma press_pass cfg now b s :
  isFlag kFlagDebouncing s = true ->
  getDebounceDelay cfg <= Int64.sub now (mLastDebounceTime s) ->
  mLastButtonState s <> kButtonStateUnknown ->
  b <> mLastButtonState s ->
  b <> getDefaultReleasedState s ->
  clickQuiet cfg now s ->
  wp (checkState cfg now b) (fun _ s' e =>
    clickView s' =
      (b, getDefaultReleasedState s, now,
       (isFlag kFlagClicked s, isFlag kFlagClickPostponed s,
        mLastClickTime s)) /\
    isFlag kFlagDebouncing s' = false /\
    Forall (fun ev => notClickKind (eventType ev) = true) e) s.
Proof.
  intros Hd Hel Hinit Hb Hp Hq. apply geb_true in Hel.
  unfold checkState. wp_step.
  wp_frame (both (keep buttonView) (emit notClickKind)).
  unfold checkDebounced, checkInitialized. wp_go.
  unfold checkEvent. apply wp_bind.
  fold (stageClickCleanup cfg now).
  wp_use stageClickCleanup_quiet.
  { unfold clickQuiet in *. norm_st. congruence. }
  intros [-> ->]. wp_step.
  wp_frame (both (keep (fun s => (clickView s, isFlag kFlagDebouncing s)))
                 (emit notClickKind)).
  wp_step.
  wp_frame (both (keep (fun s => (clickView s, isFlag kFlagDebouncing s)))
                 (emit notClickKind)).
  wp_go.
  unfold checkChanged, checkPressed, checkReleased. wp_go.
  split; [| split; [ reflexivity | trace_tac ] ].
  unfold clickView. norm_st. congruence.
Qed.

(** The accepted sample of a release that counts as a first click, with
    the click postponed: both flags are set, the time is recorded, and no
    click event is dispatched. *)
Lemma click_release_pass cfg now b s :
  isFeature cfg kFeatureClick = true ->
  isFeature cfg kFeatureDoubleClick = true ->
  isFeature cfg kFeatureSuppressClickBeforeDoubleClick = true ->
  isFlag kFlagDebouncing s = true ->
  getDebounceDelay cfg <= Int64.sub now (mLastDebounceTime s) ->
  mLastButtonState s <> kButtonStateUnknown ->
  b <> mLastButtonState s ->
  b = getDefaultReleasedState s ->
  isFlag kFlagClicked s = false ->
  isFlag kFlagClickPostponed s = false ->
  Int64.sub now (mLastPressTime s) < getClickDelay cfg ->
  wp (checkState cfg now b) (fun _ s' e =>
    clickView s' = (b, b, mLastPressTime s, (true, true, now)) /\
    isFlag kFlagDebouncing s' = false /\
    Forall (fun ev => notClickKind (eventType ev) = true) e) s.
Proof.
  intros HfC HfD HfP Hd Hel Hinit Hb Hr Hc Hp Hclick.
  apply geb_true in Hel. apply geb_false in Hclick.
  unfold checkState. wp_step.
  wp_frame (both (keep buttonView) (emit notClickKind)).
  unfold checkDebounced, checkInitialized. wp_go.
  unfold checkEvent. apply wp_bind.
  fold (stageClickCleanup cfg now).
  wp_use stageClickCleanup_quiet.
  { left. norm_st. split; congruence. }
  intros [-> ->]. wp_step.
  wp_frame (both (keep (fun s => (clickView s, isFlag kFlagDebouncing s)))
                 (emit notClickKind)).
  wp_step.
  wp_frame (both (keep (fun s => (clickView s, isFlag kFlagDebouncing s)))
                 (emit notClickKind)).
  wp_go.
  unfold checkChanged, checkPressed, checkReleased, checkClicked,
    checkDoubleClicked.
  wp_go.
  all: split; [| split; [ reflexivity | trace_tac ] ].
  all: unfold clickView; norm_st; congruence.
Qed.

(** The accepted sample of a release that completes a double click: the
    postponed click is dropped, exactly one DoubleClicked is dispatched
    and no Clicked. *)
Lemma double_click_release_pass cfg now b s :
  isFeature cfg kFeatureClick = true ->
  isFeature cfg kFeatureDoubleClick = true ->
  isFeature cfg kFeatureSuppressClickBeforeDoubleClick = true ->
  isFlag kFlagDebouncing s = true ->
  getDebounceDelay cfg <= Int64.sub now (mLastDebounceTime s) ->
  mLastButtonState s <> kButtonStateUnknown ->
  b <> mLastButtonState s ->
  b = getDefaultReleasedState s ->
  isFlag kFlagClicked s = true ->
  isFlag kFlagClickPostponed s = true ->
  Int64.sub now (mLastClickTime s) < getDoubleClickDelay cfg ->
  Int64.sub now (mLastPressTime s) < getClickDelay cfg ->
  wp (checkState cfg now b) (fun _ s' e =>
    mLastButtonState s' = b /\
    getDefaultReleasedState s' = b /\
    isFlag kFlagClicked s' = false /\
    isFlag kFlagClickPostponed s' = false /\
    isFlag kFlagDebouncing s' = false /\
    countEvent kEventDoubleClicked e = 1%nat /\
    countEvent kEventClicked e = 0%nat) s.
Proof.
  intros HfC HfD HfP Hd Hel Hinit Hb Hr Hc Hp Hdouble Hclick.
  apply geb_true in Hel. apply geb_false in Hclick.
  pose proof (geb_false _ _ Hdouble) as Hdouble'.
  unfold checkState. wp_step.
  wp_frame (both (keep buttonView) (emit notClickKind)).
  unfold checkDebounced, checkInitialized. wp_go.
  unfold checkEvent. apply wp_bind.
  fold (stageClickCleanup cfg now).
  wp_use stageClickCleanup_quiet.
  { right. norm_st. congruence. }
  intros [-> ->]. wp_step.
  wp_frame (both (keep (fun s => (clickView s, isFlag kFlagDebouncing s)))
                 (emit notClickKind)).
  wp_step.
  wp_frame (both (keep (fun s => (clickView s, isFlag kFlagDebouncing s)))
                 (emit notClickKind)).
  wp_go.
  unfold checkChanged, checkPressed, checkReleased, checkClicked,
    checkDoubleClicked.
  wp_go.
  all: repeat (split; [ first [ reflexivity | congruence ] |]).
  all: rewrite !countEvent_app;
    repeat match goal with
           | H : Forall (fun ev => notClickKind (eventType ev) = true) ?l
             |- context [countEvent ?k ?l] =>
               rewrite (countEvent_none k notClickKind l eq_refl H)
           end.
  all: split; reflexivity.
Qed.

Lemma checkSamples_one cfg now b s :
  st (checkSamples cfg [(now, b)] s) = st (checkState cfg now b s) /\
  out (checkSamples cfg [(now, b)] s) = out (checkState cfg now b s).
Proof.
  cbn [checkSamples]. rewrite st_bind, out_bind. cbn [ret st out].
  now rewrite app_nil_r.
Qed.

Lemma isHeartBeat_notClickKind (evs : list Event) :
  Forall (fun ev => isHeartBeat (eventType ev) = true) evs ->
  Forall (fun ev => notClickKind (eventType ev) = true) evs.
Proof.
  apply emit_weaken. intros []; cbn; congruence.
Qed.

Lemma clickQuiet_view cfg now s s' :
  clickView s' = clickView s -> clickQuiet cfg now s -> clickQuiet cfg now s'.
Proof.
  unfold clickView, clickQuiet. intros Hv Hq.
  apply pair_equal_spec in Hv. destruct Hv as [_ Hv].
  apply pair_equal_spec in Hv. destruct Hv as [Hv Ht].
  apply pair_equal_spec in Hv. destruct Hv as [Hc Hp].
  rewrite Hc, Hp, Ht. exact Hq.
Qed.

(** Samples at the confirmed level, outside a debounce, while the click
    cleanup has nothing to do. *)
Lemma steady_samples cfg lvl samples :
  lvl <> kButtonStateUnknown ->
  forall s,
    isFlag kFlagDebouncing s = false ->
    mLastButtonState s = lvl ->
    Forall (fun smp => snd smp = lvl /\ clickQuiet cfg (fst smp) s) samples ->
    let r := checkSamples cfg samples s in
    clickView (st r) = clickView s /\
    isFlag kFlagDebouncing (st r) = false /\
    Forall (fun ev => notClickKind (eventType ev) = true) (out r).
Proof.
  intros Hlvl. induction samples as [| [now b] samples IH];
    intros s Hd HL Hall.
  - repeat split; [assumption | constructor].
  - inversion Hall as [| ? ? [Hb Hq] Hrest]; subst. cbn [fst snd] in Hb, Hq.
    subst b.
    destruct (checkSamples_cons cfg now (mLastButtonState s) samples s)
      as [E1 E2].
    cbn zeta in *. rewrite E1, E2. clear E1 E2.
    destruct (steady_pass cfg now (mLastButtonState s) s Hd eq_refl Hlvl Hq)
      as (Hv & Hd1 & He1).
    set (s1 := st (checkState cfg now (mLastButtonState s) s)) in *.
    assert (HL1 : mLastButtonState s1 = mLastButtonState s)
      by (unfold clickView in Hv; congruence).
    destruct (IH s1 Hd1 HL1) as (Hv2 & Hd2 & He2).
    { eapply Forall_impl; [| exact Hrest]. cbv beta.
      intros smp [? ?]. split; [assumption |].
      now apply (clickQuiet_view cfg (fst smp) s s1). }
    repeat split; [congruence | assumption | apply Forall_app; auto].
Qed.

Lemma steady_samples_no_click cfg lvl samples s :
  lvl <> kButtonStateUnknown ->
  isFlag kFlagDebouncing s = false ->
  mLastButtonState s = lvl ->
  isFlag kFlagClicked s = false ->
  isFlag kFlagClickPostponed s = false ->
  samplesAt lvl samples ->
  let r := checkSamples cfg samples s in
  clickView (st r) = clickView s /\
  isFlag kFlagDebouncing (st r) = false /\
  Forall (fun ev => notClickKind (eventType ev) = true) (out r).
Proof.
  intros Hlvl Hd HL Hc Hp Hat.
  apply (steady_samples cfg lvl); try assumption.
  eapply Forall_impl; [| exact Hat]. cbv beta.
  intros smp Hs. split; [assumption | left; auto].
Qed.

Lemma steady_samples_pending cfg lvl samples s :
  lvl <> kButtonStateUnknown ->
  isFlag kFlagDebouncing s = false ->
  mLastButtonState s = lvl ->
  samplesAt lvl samples ->
  samplesWithin (getDoubleClickDelay cfg) (mLastClickTime s) samples ->
  let r := checkSamples cfg samples s in
  clickView (st r) = clickView s /\
  isFlag kFlagDebouncing (st r) = false /\
  Forall (fun ev => notClickKind (eventType ev) = true) (out r).
Proof.
  intros Hlvl Hd HL Hat Hin.
  apply (steady_samples cfg lvl); try assumption.
  unfold samplesAt, samplesWithin in *. rewrite Forall_forall in *.
  intros smp Hs. split; [auto | right; auto].
Qed.

(** A debounced press. *)
Lemma press_change cfg t0 bounces t1 b s :
  isFlag kFlagDebouncing s = false ->
  mLastButtonState s <> kButtonStateUnknown ->
  b <> mLastButtonState s ->
  b <> getDefaultReleasedState s ->
  changeSettles cfg t0 bounces t1 ->
  clickQuiet cfg t1 s ->
  let r := checkSamples cfg (debouncedChange t0 bounces t1 b) s in
  clickView (st r) =
    (b, getDefaultReleasedState s, t1,
     (isFlag kFlagClicked s, isFlag kFlagClickPostponed s,
      mLastClickTime s)) /\
  isFlag kFlagDebouncing (st r) = false /\
  Forall (fun ev => notClickKind (eventType ev) = true) (out r).
Proof.
  intros Hd Hinit Hb Hp [Hw Hel] Hq. unfold debouncedChange.
  change ((t0, b) :: bounces ++ [(t1, b)])
    with (((t0, b) :: bounces) ++ [(t1, b)]).
  destruct (checkSamples_app cfg ((t0, b) :: bounces) [(t1, b)] s)
    as [E1 E2].
  cbn zeta in *. rewrite E1, E2. clear E1 E2.
  destruct (debounce_prefix cfg t0 b bounces s Hd Hb Hw)
    as (Hv & Hd1 & Ht1 & He1).
  cbn zeta in *.
  set (s1 := st (checkSamples cfg ((t0, b) :: bounces) s)) in *.
  destruct (checkSamples_one cfg t1 b s1) as [E1 E2].
  rewrite E1, E2. clear E1 E2.
  unfold holdView in Hv.
  destruct (press_pass cfg t1 b s1) as (Hv2 & Hd2 & He2);
    try congruence.
  { unfold clickQuiet in *.
    replace (isFlag kFlagClicked s1) with (isFlag kFlagClicked s)
      by congruence.
    replace (isFlag kFlagClickPostponed s1)
      with (isFlag kFlagClickPostponed s) by congruence.
    replace (mLastClickTime s1) with (mLastClickTime s) by congruence.
    exact Hq. }
  split; [| split; [ exact Hd2 |] ].
  - rewrite Hv2. pair_facts. congruence.
  - apply Forall_app. split; [| exact He2 ].
    now apply isHeartBeat_notClickKind.
Qed.

(** A debounced release that counts as a first click. *)
Lemma click_change cfg t0 bounces t1 b s :
  isFeature cfg kFeatureClick = true ->
  isFeature cfg kFeatureDoubleClick = true ->
  isFeature cfg kFeatureSuppressClickBeforeDoubleClick = true ->
  isFlag kFlagDebouncing s = false ->
  mLastButtonState s <> kButtonStateUnknown ->
  b <> mLastButtonState s ->
  b = getDefaultReleasedState s ->
  changeSettles cfg t0 bounces t1 ->
  isFlag kFlagClicked s = false ->
  isFlag kFlagClickPostponed s = false ->
  Int64.sub t1 (mLastPressTime s) < getClickDelay cfg ->
  let r := checkSamples cfg (debouncedChange t0 bounces t1 b) s in
  clickView (st r) = (b, b, mLastPressTime s, (true, true, t1)) /\
  isFlag kFlagDebouncing (st r) = false /\
  Forall (fun ev => notClickKind (eventType ev) = true) (out r).
Proof.
  intros HfC HfD HfP Hd Hinit Hb Hr [Hw Hel] Hc Hp Hclick.
  unfold debouncedChange.
  change ((t0, b) :: bounces ++ [(t1, b)])
    with (((t0, b) :: bounces) ++ [(t1, b)]).
  destruct (checkSamples_app cfg ((t0, b) :: bounces) [(t1, b)] s)
    as [E1 E2].
  cbn zeta in *. rewrite E1, E2. clear E1 E2.
  destruct (debounce_prefix cfg t0 b bounces s Hd Hb Hw)
    as (Hv & Hd1 & Ht1 & He1).
  cbn zeta in *.
  set (s1 := st (checkSamples cfg ((t0, b) :: bounces) s)) in *.
  destruct (checkSamples_one cfg t1 b s1) as [E1 E2].
  rewrite E1, E2. clear E1 E2.
  unfold holdView in Hv.
  destruct (click_release_pass cfg t1 b s1) as (Hv2 & Hd2 & He2);
    try congruence.
  split; [| split; [ exact Hd2 |] ].
  - rewrite Hv2. pair_facts. congruence.
  - apply Forall_app. split; [| exact He2 ].
    now apply isHeartBeat_notClickKind.
Qed.

(** A debounced release that completes a double click. *)
Lemma double_click_change cfg t0 bounces t1 b s :
  isFeature cfg kFeatureClick = true ->
  isFeature cfg kFeatureDoubleClick = true ->
  isFeature cfg kFeatureSuppressClickBeforeDoubleClick = true ->
  isFlag kFlagDebouncing s = false ->
  mLastButtonState s <> kButtonStateUnknown ->
  b <> mLastButtonState s ->
  b = getDefaultReleasedState s ->
  changeSettles cfg t0 bounces t1 ->
  isFlag kFlagClicked s = true ->
  isFlag kFlagClickPostponed s = true ->
  Int64.sub t1 (mLastClickTime s) < getDoubleClickDelay cfg ->
  Int64.sub t1 (mLastPressTime s) < getClickDelay cfg ->
  let r := checkSamples cfg (debouncedChange t0 bounces t1 b) s in
  mLastButtonState (st r) = b /\
  getDefaultReleasedState (st r) = b /\
  isFlag kFlagClicked (st r) = false /\
  isFlag kFlagClickPostponed (st r) = false /\
  isFlag kFlagDebouncing (st r) = false /\
  countEvent kEventDoubleClicked (out r) = 1%nat /\
  countEvent kEventClicked (out r) = 0%nat.
Proof.
  intros HfC HfD HfP Hd Hinit Hb Hr [Hw Hel] Hc Hp Hdouble Hclick.
  unfold debouncedChange.
  change ((t0, b) :: bounces ++ [(t1, b)])
    with (((t0, b) :: bounces) ++ [(t1, b)]).
  destruct (checkSamples_app cfg ((t0, b) :: bounces) [(t1, b)] s)
    as [E1 E2].
  cbn zeta in *. rewrite E1, E2. clear E1 E2.
  destruct (debounce_prefix cfg t0 b bounces s Hd Hb Hw)
    as (Hv & Hd1 & Ht1 & He1).
  cbn zeta in *.
  set (s1 := st (checkSamples cfg ((t0, b) :: bounces) s)) in *.
  destruct (checkSamples_one cfg t1 b s1) as [E1 E2].
  rewrite E1, E2. clear E1 E2.
  unfold holdView in Hv.
  destruct (double_click_release_pass cfg t1 b s1)
    as (H1 & H2 & H3 & H4 & H5 & H6 & H7); try congruence.
  repeat (split; [ assumption |]).
  apply isHeartBeat_notClickKind in He1.
  rewrite !countEvent_app, H6, H7.
  rewrite (countEvent_none kEventDoubleClicked notClickKind _ eq_refl He1).
  rewrite (countEvent_none kEventClicked notClickKind _ eq_refl He1).
  split; reflexivity.
Qed.

(** [checkDoubleClicked] on a pending click inside the double-click
    delay: the postponement is dropped and DoubleClicked dispatched. *)
Lemma checkDoubleClicked_supersedes cfg now s :
  isFlag kFlagClicked s = true ->
  Int64.sub now (mLastClickTime s) < getDoubleClickDelay cfg ->
  isFlag kFlagClickPostponed (st (checkDoubleClicked cfg now s)) = false /\
  isFlag kFlagDoubleClicked (st (checkDoubleClicked cfg now s)) = true /\
  out (checkDoubleClicked cfg now s)
  = [mkEvent kEventDoubleClicked (mLastButtonState s)].
Proof.
  intros Hc Hel. apply geb_false in Hel.
  apply (wp_run (checkDoubleClicked cfg now)
    (fun _ s' e =>
       isFlag kFlagClickPostponed s' = false /\
       isFlag kFlagDoubleClicked s' = true /\
       e = [mkEvent kEventDoubleClicked (mLastButtonState s)])).
  unfold checkDoubleClicked. wp_go; repeat split; reflexivity.
Qed.

Ltac peel l s :=
  match goal with
  | |- context [checkSamples ?cfg (l ++ ?rest) s] =>
      let E := fresh "E" in
      destruct (checkSamples_app cfg l rest s) as [_ E];
      cbn zeta in E; rewrite E; clear E
  end.

(** C4. With Click, DoubleClick and the postponement of clicks enabled,
    take a button at rest with no click pending and let it go through
    two debounced press and release cycles, with any samples at the
    confirmed level in between and afterwards: both releases come less
    than the click delay after their press, and every accepted sample from
    the first click to the second release comes less than the
    double-click delay after the first click.  Then the whole run
    dispatches exactly one DoubleClicked and no Clicked.  The reason is in
    [checkDoubleClicked]: on a pending click inside the delay it clears
    ClickPostponed and dispatches DoubleClicked. *)
Theorem double_click_suppresses_clicks :
  forall cfg s P idle p1 bounce1 c1 hold1 r1 bounce2 d1 gap
         p2 bounce3 c2 hold2 r2 bounce4 d2 tail,
    let R := getDefaultReleasedState s in
    isFeature cfg kFeatureClick = true ->
    isFeature cfg kFeatureDoubleClick = true ->
    isFeature cfg kFeatureSuppressClickBeforeDoubleClick = true ->
    mLastButtonState s = R ->
    isFlag kFlagDebouncing s = false ->
    isFlag kFlagClicked s = false ->
    isFlag kFlagClickPostponed s = false ->
    P <> R ->
    P <> kButtonStateUnknown ->
    samplesAt R idle ->
    changeSettles cfg p1 bounce1 c1 ->
    samplesAt P hold1 ->
    changeSettles cfg r1 bounce2 d1 ->
    Int64.sub d1 c1 < getClickDelay cfg ->
    samplesAt R gap ->
    samplesWithin (getDoubleClickDelay cfg) d1 gap ->
    changeSettles cfg p2 bounce3 c2 ->
    Int64.sub c2 d1 < getDoubleClickDelay cfg ->
    samplesAt P hold2 ->
    samplesWithin (getDoubleClickDelay cfg) d1 hold2 ->
    changeSettles cfg r2 bounce4 d2 ->
    Int64.sub d2 c2 < getClickDelay cfg ->
    Int64.sub d2 d1 < getDoubleClickDelay cfg ->
    samplesAt R tail ->
    let evs :=
      out (checkSamples cfg
             (idle ++ debouncedChange p1 bounce1 c1 P ++ hold1
              ++ debouncedChange r1 bounce2 d1 R ++ gap
              ++ debouncedChange p2 bounce3 c2 P ++ hold2
              ++ debouncedChange r2 bounce4 d2 R ++ tail) s) in
    countEvent kEventDoubleClicked evs = 1%nat /\
    countEvent kEventClicked evs = 0%nat /\
    (forall now s',
       isFlag kFlagClicked s' = true ->
       Int64.sub now (mLastClickTime s') < getDoubleClickDelay cfg ->
       isFlag kFlagClickPostponed (st (checkDoubleClicked cfg now s'))
       = false /\
       out (checkDoubleClicked cfg now s')
       = [mkEvent kEventDoubleClicked (mLastButtonState s')]).
Proof.
  intros cfg s P idle p1 bounce1 c1 hold1 r1 bounce2 d1 gap
    p2 bounce3 c2 hold2 r2 bounce4 d2 tail R
    HfC HfD HfP HL Hd Hc Hp HPR HPU Hidle Hch1 Hhold1 Hch2 Hclick1
    Hgap Hgapw Hch3 Hc2 Hhold2 Hhold2w Hch4 Hclick2 Hdouble Htail evs.
  assert (HRU : R <> kButtonStateUnknown)
    by apply getDefaultReleasedState_not_unknown.
  assert (HR : getDefaultReleasedState s = R) by reflexivity.
  clearbody R. subst evs.
  (* at rest *)
  peel idle s.
  destruct (steady_samples_no_click cfg R idle s HRU Hd HL Hc Hp Hidle)
    as (Hv & Hd1 & He1).
  cbn zeta in Hv, Hd1, He1.
  set (s1 := st (checkSamples cfg idle s)) in *.
  unfold clickView in Hv. pair_facts.
  (* first press *)
  peel (debouncedChange p1 bounce1 c1 P) s1.
  assert (Hq1 : clickQuiet cfg c1 s1) by (left; split; congruence).
  destruct (press_change cfg p1 bounce1 c1 P s1) as (Hv & Hd2 & He2);
    try congruence.
  cbn zeta in Hv, Hd2, He2.
  set (s2 := st (checkSamples cfg (debouncedChange p1 bounce1 c1 P) s1)) in *.
  unfold clickView in Hv. pair_facts.
  (* first hold *)
  peel hold1 s2.
  destruct (steady_samples_no_click cfg P hold1 s2) as (Hv & Hd3 & He3);
    try congruence.
  cbn zeta in Hv, Hd3, He3.
  set (s3 := st (checkSamples cfg hold1 s2)) in *.
  unfold clickView in Hv. pair_facts.
  (* first release: a click, postponed *)
  peel (debouncedChange r1 bounce2 d1 R) s3.
  destruct (click_change cfg r1 bounce2 d1 R s3) as (Hv & Hd4 & He4);
    try congruence.
  cbn zeta in Hv, Hd4, He4.
  set (s4 := st (checkSamples cfg (debouncedChange r1 bounce2 d1 R) s3)) in *.
  unfold clickView in Hv. pair_facts.
  (* between the clicks *)
  peel gap s4.
  destruct (steady_samples_pending cfg R gap s4) as (Hv & Hd5 & He5);
    try congruence.
  cbn zeta in Hv, Hd5, He5.
  set (s5 := st (checkSamples cfg gap s4)) in *.
  unfold clickView in Hv. pair_facts.
  (* second press *)
  peel (debouncedChange p2 bounce3 c2 P) s5.
  assert (Hq5 : clickQuiet cfg c2 s5)
    by (right; replace (mLastClickTime s5) with d1 by congruence;
        exact Hc2).
  destruct (press_change cfg p2 bounce3 c2 P s5) as (Hv & Hd6 & He6);
    try congruence.
  cbn zeta in Hv, Hd6, He6.
  set (s6 := st (checkSamples cfg (debouncedChange p2 bounce3 c2 P) s5)) in *.
  unfold clickView in Hv. pair_facts.
  (* second hold *)
  peel hold2 s6.
  destruct (steady_samples_pending cfg P hold2 s6) as (Hv & Hd7 & He7);
    try congruence.
  cbn zeta in Hv, Hd7, He7.
  set (s7 := st (checkSamples cfg hold2 s6)) in *.
  unfold clickView in Hv. pair_facts.
  (* second release: the double click *)
  peel (debouncedChange r2 bounce4 d2 R) s7.
  destruct (double_click_change cfg r2 bounce4 d2 R s7)
    as (HL8 & HR8 & Hc8 & Hp8 & Hd8 & Hdc & Hcl); try congruence.
  cbn zeta in HL8, HR8, Hc8, Hp8, Hd8, Hdc, Hcl.
  set (s8 := st (checkSamples cfg (debouncedChange r2 bounce4 d2 R) s7)) in *.
  (* at rest again *)
  destruct (steady_samples_no_click cfg R tail s8) as (_ & _ & He9);
    try congruence.
  cbn zeta in He9.
  (* the events *)
  rewrite !countEvent_app, Hdc, Hcl.
  repeat match goal with
         | H : Forall (fun ev => notClickKind (eventType ev) = true) ?l
           |- context [countEvent ?k ?l] =>
             rewrite (countEvent_none k notClickKind l eq_refl H)
         end.
  split; [reflexivity |]. split; [reflexivity |].
  intros now s' Hc' Hel'.
  destruct (checkDoubleClicked_supersedes cfg now s' Hc' Hel')
    as (A & _ & B).
  split; assumption.
Qed.

Lemma double_click_suppresses_clicks_witness :
  let cfg :=
    withFeatures
      [kFeatureClick; kFeatureDoubleClick;
       kFeatureSuppressClickBeforeDoubleClick]
      20 200 400 1000 1000 200 5000 in
  let samples :=
    [(10, HIGH);
     (30, LOW); (35, HIGH); (40, LOW); (50, LOW);
     (60, LOW);
     (70, HIGH); (90, HIGH);
     (100, HIGH);
     (110, LOW); (130, LOW);
     (140, LOW);
     (150, HIGH); (155, LOW); (170, HIGH);
     (600, HIGH); (5000, HIGH)] in
  countEvent kEventDoubleClicked (out (checkSamples cfg samples idleButton))
  = 1%nat /\
  countEvent kEventClicked (out (checkSamples cfg samples idleButton))
  = 0%nat.
Proof.
  intros cfg samples.
  assert (HPR : LOW <> getDefaultReleasedState idleButton) by discriminate.
  assert (HPU : LOW <> kButtonStateUnknown) by discriminate.
  assert (Hidle : samplesAt (getDefaultReleasedState idleButton)
                    [(10, HIGH)]) by (repeat constructor).
  assert (Hch1 : changeSettles cfg 30 [(35, HIGH); (40, LOW)] 50)
    by (split; [repeat constructor | vm_compute; discriminate]).
  assert (Hhold1 : samplesAt LOW [(60, LOW)]) by (repeat constructor).
  assert (Hch2 : changeSettles cfg 70 [] 90)
    by (split; [constructor | vm_compute; discriminate]).
  assert (Hclick1 : Int64.sub 90 50 < getClickDelay cfg) by reflexivity.
  assert (Hgap : samplesAt (getDefaultReleasedState idleButton)
                   [(100, HIGH)]) by (repeat constructor).
  assert (Hgapw : samplesWithin (getDoubleClickDelay cfg) 90 [(100, HIGH)])
    by (repeat constructor).
  assert (Hch3 : changeSettles cfg 110 [] 130)
    by (split; [constructor | vm_compute; discriminate]).
  assert (Hc2 : Int64.sub 130 90 < getDoubleClickDelay cfg) by reflexivity.
  assert (Hhold2 : samplesAt LOW [(140, LOW)]) by (repeat constructor).
  assert (Hhold2w : samplesWithin (getDoubleClickDelay cfg) 90 [(140, LOW)])
    by (repeat constructor).
  assert (Hch4 : changeSettles cfg 150 [(155, LOW)] 170)
    by (split; [repeat constructor | vm_compute; discriminate]).
  assert (Hclick2 : Int64.sub 170 130 < getClickDelay cfg) by reflexivity.
  assert (Hdouble : Int64.sub 170 90 < getDoubleClickDelay cfg)
    by reflexivity.
  assert (Htail : samplesAt (getDefaultReleasedState idleButton)
                    [(600, HIGH); (5000, HIGH)]) by (repeat constructor).
  destruct (double_click_suppresses_clicks cfg idleButton LOW
              [(10, HIGH)] 30 [(35, HIGH); (40, LOW)] 50 [(60, LOW)]
              70 [] 90 [(100, HIGH)] 110 [] 130 [(140, LOW)]
              150 [(155, LOW)] 170 [(600, HIGH); (5000, HIGH)]
              eq_refl eq_refl eq_refl eq_refl eq_refl eq_refl eq_refl
              HPR HPU Hidle Hch1 Hhold1 Hch2 Hclick1 Hgap Hgapw Hch3 Hc2
              Hhold2 Hhold2w Hch4 Hclick2 Hdouble Htail)
    as (H1 & H2 & _).
  split; [exact H1 | exact H2].
Defined.

(** * Further properties *)

(** ** Construction and wiring *)

#[global] Instance rise_Frame (rho : AceButton -> bool) : Frame (rise rho).
Proof.
  split; unfold rise; intros; auto.
Qed.


Lemma to_uint8_period (z : Z) : to_uint8 (z + 256) = to_uint8 z.
Proof.
  unfold to_uint8. rewrite <- (Z.mul_1_l 256) at 1.
  apply Z_mod_plus_full.
Qed.

Lemma to_uint8_range (z : Z) : 0 <= to_uint8 z < 256.
Proof. unfold to_uint8. apply Z.mod_pos_bound. reflexivity. Qed.

Lemma setDefaultReleasedState_eq (state : Z) (s : AceButton) :
  setDefaultReleasedState state s
  = if to_uint8 state =? HIGH
    then setFlag kFlagDefaultReleasedState s
    else clearFlag kFlagDefaultReleasedState s.
Proof. reflexivity. Qed.


(** X2. The argument of [setDefaultReleasedState] is converted to
    [uint8_t]: followed by [getDefaultReleasedState] the call gives
    [HIGH] when the argument is [HIGH] modulo 256 and [LOW] for every
    other value; the value returned is always [LOW] or [HIGH]; the last
    setting wins; and neither a condition flag nor a field is changed. *)
Theorem default_released_state_round_trip :
  forall state state' s,
    let s' := setDefaultReleasedState state s in
    getDefaultReleasedState s'
    = (if to_uint8 state =? HIGH then HIGH else LOW) /\
    getDefaultReleasedState (setDefaultReleasedState (state + 256) s)
    = getDefaultReleasedState s' /\
    getDefaultReleasedState (setDefaultReleasedState state' s')
    = getDefaultReleasedState (setDefaultReleasedState state' s) /\
    setDefaultReleasedState (getDefaultReleasedState s') s' = s' /\
    conditionFlags s' = conditionFlags s /\
    timeView s' = timeView s /\
    mPin s' = mPin s /\
    mId s' = mId s.
Proof.
  intros state state' s s'. subst s'.
  assert (Hss : setFlag kFlagDefaultReleasedState
                  (setFlag kFlagDefaultReleasedState s)
                = setFlag kFlagDefaultReleasedState s).
  { unfold setFlag, with_mFlags. cbn. f_equal.
    rewrite <- Z.lor_assoc, Z.lor_diag. reflexivity. }
  assert (Hcc : clearFlag kFlagDefaultReleasedState
                  (clearFlag kFlagDefaultReleasedState s)
                = clearFlag kFlagDefaultReleasedState s).
  { unfold clearFlag, with_mFlags. cbn. f_equal.
    rewrite <- Z.land_assoc, Z.land_diag. reflexivity. }
  rewrite !setDefaultReleasedState_eq, to_uint8_period.
  destruct (to_uint8 state =? HIGH), (to_uint8 state' =? HIGH);
    unfold conditionFlags, timeView;
    rewrite !getDefaultReleasedState_isFlag; norm_st;
    change (to_uint8 HIGH =? HIGH) with true;
    change (to_uint8 LOW =? HIGH) with false;
    cbv iota; rewrite ?Hss, ?Hcc;
    repeat split; reflexivity.
Qed.

Ltac frame_pass :=
  unfold checkState, checkEvent, checkChanged, checkInitialized;
  frame_tac.

Lemma checkState_wiring cfg now b :
  sound (keep wiringView) (checkState cfg now b).
Proof. frame_pass. Qed.

Lemma checkState_heart_running cfg now b :
  sound (rise (isFlag kFlagHeartRunning)) (checkState cfg now b).
Proof. frame_pass. Qed.

Lemma checkSamples_sound cfg R (HR : Frame R) :
  (forall now b, sound R (checkState cfg now b)) ->
  forall samples, sound R (checkSamples cfg samples).
Proof.
  intros Hpass. induction samples as [| [now b] samples IH].
  - exact (sound_ret R tt).
  - cbn [checkSamples].
    exact (sound_bind R _ _ (Hpass now b) (fun _ => IH)).
Qed.

(** X3. Whatever is sampled, the classifier never changes the pin, the
    identifier or the released level of the button, and never clears the
    HeartRunning flag once it is set. *)
Theorem samples_keep_wiring :
  forall cfg samples s,
    let s' := st (checkSamples cfg samples s) in
    mPin s' = mPin s /\
    mId s' = mId s /\
    getDefaultReleasedState s' = getDefaultReleasedState s /\
    (isFlag kFlagHeartRunning s = true ->
     isFlag kFlagHeartRunning s' = true).
Proof.
  intros cfg samples s s'. subst s'.
  pose proof (checkSamples_sound cfg (keep wiringView) _
                (checkState_wiring cfg) samples s) as Hw.
  pose proof (checkSamples_sound cfg (rise (isFlag kFlagHeartRunning)) _
                (checkState_heart_running cfg) samples s) as Hh.
  unfold keep, wiringView in Hw. unfold rise in Hh.
  pair_facts. repeat split; assumption.
Qed.

Lemma samples_keep_wiring_witness :
  let cfg := withFeatures [kFeatureHeartBeat] 20 200 400 1000 1000 200 5000 in
  isFlag kFlagHeartRunning
    (st (checkSamples cfg [(1200, LOW); (1300, HIGH)] repeatingButton))
  = true.
Proof.
  intros cfg.
  destruct (samples_keep_wiring cfg [(1200, LOW); (1300, HIGH)]
              repeatingButton) as (_ & _ & _ & H).
  exact (H eq_refl).
Defined.

(** ** A level that never changes *)

Ltac finish :=
  try assumption; try reflexivity; try solve [ trace_tac ]; auto.

Lemma boot_pass cfg now b s :
  b = LOW \/ b = HIGH ->
  isFlag kFlagPressed s = false ->
  isFlag kFlagClicked s = false ->
  isFlag kFlagClickPostponed s = false ->
  mLastButtonState s = kButtonStateUnknown \/ mLastButtonState s = b ->
  wp (checkState cfg now b) (fun _ s' e =>
    isFlag kFlagPressed s' = false /\
    isFlag kFlagClicked s' = false /\
    isFlag kFlagClickPostponed s' = false /\
    (mLastButtonState s' = kButtonStateUnknown \/ mLastButtonState s' = b) /\
    Forall (fun ev => isHeartBeat (eventType ev) = true) e) s.
Proof.
  intros Hb Hp Hc Hpp HL.
  assert (Hu : to_uint16 b = b) by (destruct Hb; subst b; reflexivity).
  assert (Hbu : b <> kButtonStateUnknown)
    by (destruct Hb; subst b; discriminate).
  unfold checkState. wp_step.
  wp_frame (both (keep buttonView) (emit isHeartBeat)).
  wp_step. wp_frame (both (keep holdView) (emit isHeartBeat)).
  wp_go; [| repeat split; finish ].
  unfold checkInitialized. wp_go.
  2: { rewrite Hu. repeat split; finish. }
  assert (HLb : mLastButtonState s = b).
  { destruct HL as [HL | HL]; [| exact HL ].
    rewrite HL, Z.eqb_refl in *. discriminate. }
  unfold checkEvent. apply wp_bind. fold (stageClickCleanup cfg now).
  wp_use stageClickCleanup_quiet.
  { left. split; congruence. }
  intros [-> ->].
  unfold checkLongPress, checkRepeatPress. wp_go.
  all: repeat split; finish.
Qed.

Lemma init_flags pin d id s0 :
  let s := init pin d id s0 in
  isFlag kFlagPressed s = false /\
  isFlag kFlagClicked s = false /\
  isFlag kFlagClickPostponed s = false /\
  mLastButtonState s = kButtonStateUnknown.
Proof.
  unfold init. cbv zeta. rewrite setDefaultReleasedState_eq.
  destruct (_ =? HIGH); cbn; repeat split; reflexivity.
Qed.

Lemma constant_level_run cfg b samples :
  b = LOW \/ b = HIGH ->
  Forall (fun p => snd p = b) samples ->
  forall s,
    isFlag kFlagPressed s = false ->
    isFlag kFlagClicked s = false ->
    isFlag kFlagClickPostponed s = false ->
    mLastButtonState s = kButtonStateUnknown \/ mLastButtonState s = b ->
    isFlag kFlagPressed (st (checkSamples cfg samples s)) = false /\
    Forall (fun ev => isHeartBeat (eventType ev) = true)
      (out (checkSamples cfg samples s)).
Proof.
  intros Hb. induction 1 as [| [now b'] samples Hnow _ IH];
    intros s Hp Hc Hpp HL.
  - split; [exact Hp | constructor].
  - cbn [snd] in Hnow. subst b'.
    destruct (checkSamples_cons cfg now b samples s) as [E1 E2].
    cbn zeta in *. rewrite E1, E2. clear E1 E2.
    destruct (boot_pass cfg now b s Hb Hp Hc Hpp HL)
      as (Hp' & Hc' & Hpp' & HL' & He).
    destruct (IH _ Hp' Hc' Hpp' HL') as [Hp'' He'].
    split; [exact Hp'' |].
    apply Forall_app. split; assumption.
Qed.

(** X4. A button whose pin reads the same level at every sample since
    [init], be it the released or the pressed level, dispatches nothing
    but HeartBeat events, and is never marked as pressed: a button held
    down while the program starts reports no Pressed and no LongPressed. *)
Theorem constant_level_after_init_is_silent :
  forall cfg pin d id s0 b samples,
    b = LOW \/ b = HIGH ->
    Forall (fun p => snd p = b) samples ->
    let r := checkSamples cfg samples (init pin d id s0) in
    isFlag kFlagPressed (st r) = false /\
    Forall (fun ev => isHeartBeat (eventType ev) = true) (out r).
Proof.
  intros cfg pin d id s0 b samples Hb Hs r. subst r.
  destruct (init_flags pin d id s0) as (Hp & Hc & Hpp & HL).
  apply (constant_level_run cfg b samples Hb Hs); auto.
Qed.

Lemma constant_level_after_init_is_silent_witness :
  let cfg :=
    withFeatures [kFeatureLongPress; kFeatureRepeatPress; kFeatureClick]
      20 200 400 1000 1000 200 5000 in
  Forall (fun ev => isHeartBeat (eventType ev) = true)
    (out (checkSamples cfg [(0, LOW); (30, LOW); (60, LOW); (2000, LOW)]
            (init 7 HIGH 1 freshButton))).
Proof.
  intros cfg.
  assert (Hs : Forall (fun p : Z * Z => snd p = LOW)
                 [(0, LOW); (30, LOW); (60, LOW); (2000, LOW)])
    by (repeat constructor).
  destruct (constant_level_after_init_is_silent cfg 7 HIGH 1 freshButton LOW
              [(0, LOW); (30, LOW); (60, LOW); (2000, LOW)]
              (or_introl eq_refl) Hs) as [_ H].
  exact H.
Defined.

(** ** The heartbeat *)

Lemma countEvent_one (k : EventType) (lvl : Z) :
  countEvent k [mkEvent k lvl] = 1%nat.
Proof. destruct k; reflexivity. Qed.

(** What follows the heartbeat check in a pass neither reads nor writes
    the heartbeat state and dispatches no HeartBeat. *)
Lemma after_heartbeat_frame cfg now b :
  sound (both (keep heartView) (emit notHeartBeat))
    (debounced <- checkDebounced cfg now b ;;
     when debounced (
       initialized <- checkInitialized b ;;
       when initialized (checkEvent cfg now b))).
Proof. frame_pass. Qed.

Lemma checkState_heartbeat cfg now b s :
  countEvent kEventHeartBeat (out (checkState cfg now b s))
  = countEvent kEventHeartBeat (out (checkHeartBeat cfg now s)) /\
  heartView (st (checkState cfg now b s))
  = heartView (st (checkHeartBeat cfg now s)).
Proof.
  unfold checkState. rewrite st_bind, out_bind, countEvent_app.
  destruct (after_heartbeat_frame cfg now b (st (checkHeartBeat cfg now s)))
    as [Hk He].
  unfold keep in Hk. unfold emit in He.
  rewrite (countEvent_none kEventHeartBeat notHeartBeat _ eq_refl He).
  split; [apply Nat.add_0_r | exact Hk].
Qed.

(** The heartbeat check reads the heartbeat state only, the level apart
    that it hands to the sink. *)
Lemma checkHeartBeat_reads_heartView cfg cfg' now s s' :
  isFeature cfg kFeatureHeartBeat = isFeature cfg' kFeatureHeartBeat ->
  getHeartBeatInterval cfg = getHeartBeatInterval cfg' ->
  heartView s = heartView s' ->
  countEvent kEventHeartBeat (out (checkHeartBeat cfg now s))
  = countEvent kEventHeartBeat (out (checkHeartBeat cfg' now s')) /\
  heartView (st (checkHeartBeat cfg now s))
  = heartView (st (checkHeartBeat cfg' now s')).
Proof.
  intros Hf Hi Hv. unfold heartView in Hv. pair_facts.
  apply (wp_run (checkHeartBeat cfg now)
    (fun _ s1 e1 =>
       countEvent kEventHeartBeat e1
       = countEvent kEventHeartBeat (out (checkHeartBeat cfg' now s')) /\
       heartView s1 = heartView (st (checkHeartBeat cfg' now s')))).
  unfold checkHeartBeat at 1. wp_go.
  all: apply (wp_run (checkHeartBeat cfg' now)
    (fun _ s2 e2 => _ = countEvent kEventHeartBeat e2 /\ _ = heartView s2)).
  all: unfold checkHeartBeat; rewrite <- ?Hf, <- ?Hi; wp_go.
  all: unfold heartView; norm_st; split; try reflexivity; congruence.
Qed.

(** X5. The HeartBeat events of a run, and the heartbeat state it leaves,
    depend on the times of the samples, on the heartbeat state at the
    start and on the heartbeat feature and interval only: not on the
    levels sampled, nor on anything else of the button or of the
    configuration. *)
Theorem heartbeat_is_independent :
  forall cfg cfg' samples samples' s s',
    isFeature cfg kFeatureHeartBeat = isFeature cfg' kFeatureHeartBeat ->
    getHeartBeatInterval cfg = getHeartBeatInterval cfg' ->
    heartView s = heartView s' ->
    sampleTimes samples = sampleTimes samples' ->
    countEvent kEventHeartBeat (out (checkSamples cfg samples s))
    = countEvent kEventHeartBeat (out (checkSamples cfg' samples' s')) /\
    heartView (st (checkSamples cfg samples s))
    = heartView (st (checkSamples cfg' samples' s')).
Proof.
  intros cfg cfg' samples samples' s s' Hf Hi. revert samples' s s'.
  induction samples as [| [now b] samples IH];
    intros [| [now' b'] samples'] s s' Hv Ht; try discriminate.
  - split; [reflexivity | exact Hv].
  - injection Ht as Hnow Ht. cbn [fst] in Hnow. subst now'.
    destruct (checkSamples_cons cfg now b samples s) as [E1 E2].
    destruct (checkSamples_cons cfg' now b' samples' s') as [E3 E4].
    cbn zeta in *. rewrite E1, E2, E3, E4, !countEvent_app.
    destruct (checkState_heartbeat cfg now b s) as [C1 V1].
    destruct (checkState_heartbeat cfg' now b' s') as [C2 V2].
    destruct (checkHeartBeat_reads_heartView cfg cfg' now s s' Hf Hi Hv)
      as [C3 V3].
    destruct (IH samples' (st (checkState cfg now b s))
                (st (checkState cfg' now b' s'))) as [C4 V4];
      [congruence | exact Ht |].
    split; [congruence | exact V4].
Qed.

Lemma heartbeat_is_independent_witness :
  let cfg :=
    withFeatures [kFeatureHeartBeat; kFeatureRepeatPress]
      20 200 400 1000 1000 200 5000 in
  let cfg' := withFeatures [kFeatureHeartBeat] 50 300 600 900 900 100 5000 in
  countEvent kEventHeartBeat
    (out (checkSamples cfg [(100, LOW); (5000, LOW)] repeatingButton))
  = countEvent kEventHeartBeat
      (out (checkSamples cfg' [(100, HIGH); (5000, HIGH)] heartOnlyButton)).
Proof.
  intros cfg cfg'.
  destruct (heartbeat_is_independent cfg cfg'
              [(100, LOW); (5000, LOW)] [(100, HIGH); (5000, HIGH)]
              repeatingButton heartOnlyButton
              eq_refl eq_refl eq_refl eq_refl) as [H _].
  exact H.
Defined.

Lemma checkHeartBeat_disabled cfg now s :
  isFeature cfg kFeatureHeartBeat = false ->
  checkHeartBeat cfg now s = mkRes tt s [].
Proof.
  intros Hf. unfold checkHeartBeat. rewrite Hf. reflexivity.
Qed.

(** X6. With the heartbeat feature disabled no run ever dispatches a
    HeartBeat, and the heartbeat state is left as it is. *)
Theorem heartbeat_disabled_is_silent :
  forall cfg samples s,
    isFeature cfg kFeatureHeartBeat = false ->
    countEvent kEventHeartBeat (out (checkSamples cfg samples s)) = 0%nat /\
    heartView (st (checkSamples cfg samples s)) = heartView s.
Proof.
  intros cfg samples s Hf. revert s.
  induction samples as [| [now b] samples IH]; intros s.
  - split; reflexivity.
  - destruct (checkSamples_cons cfg now b samples s) as [E1 E2].
    cbn zeta in *. rewrite E1, E2, countEvent_app.
    destruct (checkState_heartbeat cfg now b s) as [C V].
    rewrite (checkHeartBeat_disabled cfg now s Hf) in C, V.
    cbn [out st] in C, V.
    destruct (IH (st (checkState cfg now b s))) as [C' V'].
    rewrite C, C'. split; [reflexivity | congruence].
Qed.

Lemma heartbeat_disabled_is_silent_witness :
  let cfg := withFeatures [kFeatureLongPress] 20 200 400 1000 1000 200 5 in
  countEvent kEventHeartBeat
    (out (checkSamples cfg [(6000, LOW); (12000, HIGH)] repeatingButton))
  = 0%nat.
Proof.
  intros cfg.
  destruct (heartbeat_disabled_is_silent cfg [(6000, LOW); (12000, HIGH)]
              repeatingButton eq_refl) as [H _].
  exact H.
Defined.

(** While the heartbeat interval has not elapsed no HeartBeat is
    dispatched. *)
Lemma heartbeat_waits cfg t0 samples :
  isFeature cfg kFeatureHeartBeat = true ->
  samplesWithin (getHeartBeatInterval cfg) t0 samples ->
  forall s,
    heartView s = (true, t0) ->
    countEvent kEventHeartBeat (out (checkSamples cfg samples s)) = 0%nat /\
    heartView (st (checkSamples cfg samples s)) = (true, t0).
Proof.
  intros Hf. induction 1 as [| [now b] samples Hnow _ IH]; intros s Hv.
  - split; [reflexivity | exact Hv].
  - cbn [fst] in Hnow.
    destruct (checkSamples_cons cfg now b samples s) as [E1 E2].
    cbn zeta in *. rewrite E1, E2, countEvent_app.
    destruct (checkState_heartbeat cfg now b s) as [C V].
    assert (Hhb : countEvent kEventHeartBeat (out (checkHeartBeat cfg now s))
                  = 0%nat /\
                  heartView (st (checkHeartBeat cfg now s)) = (true, t0)).
    { unfold heartView in Hv. pair_facts.
      apply geb_false in Hnow.
      apply (wp_run (checkHeartBeat cfg now)
        (fun _ s1 e1 => countEvent kEventHeartBeat e1 = 0%nat /\
                        heartView s1 = (true, t0))).
      unfold checkHeartBeat. wp_go.
      unfold heartView. norm_st. split; reflexivity. }
    destruct Hhb as [C0 V0].
    destruct (IH (st (checkState cfg now b s))) as [C' V'];
      [congruence |].
    rewrite C, C0, C'. split; [reflexivity | exact V'].
Qed.

(** X7. With the heartbeat enabled, the first sample taken starts the
    heartbeat without dispatching; the samples taken less than the
    interval later dispatch no HeartBeat, and the first sample at which
    the interval has elapsed dispatches exactly one and restarts the
    interval from its own time. *)
Theorem heartbeat_fires_when_due :
  forall cfg s t0 b0 waiting t b,
    isFeature cfg kFeatureHeartBeat = true ->
    isFlag kFlagHeartRunning s = false ->
    samplesWithin (getHeartBeatInterval cfg) t0 waiting ->
    getHeartBeatInterval cfg <= Int64.sub t t0 ->
    let r0 := checkSamples cfg ((t0, b0) :: waiting) s in
    let r := checkState cfg t b (st r0) in
    countEvent kEventHeartBeat (out r0) = 0%nat /\
    heartView (st r0) = (true, t0) /\
    countEvent kEventHeartBeat (out r) = 1%nat /\
    heartView (st r) = (true, t).
Proof.
  intros cfg s t0 b0 waiting t b Hf Hr Hw Hdue r0 r. subst r r0.
  destruct (checkSamples_cons cfg t0 b0 waiting s) as [E1 E2].
  cbn zeta in *. rewrite E1, E2, countEvent_app. clear E1 E2.
  destruct (checkState_heartbeat cfg t0 b0 s) as [C V].
  assert (Hhb : countEvent kEventHeartBeat (out (checkHeartBeat cfg t0 s))
                = 0%nat /\
                heartView (st (checkHeartBeat cfg t0 s)) = (true, t0)).
  { apply (wp_run (checkHeartBeat cfg t0)
      (fun _ s1 e1 => countEvent kEventHeartBeat e1 = 0%nat /\
                      heartView s1 = (true, t0))).
    unfold checkHeartBeat. wp_go.
    unfold heartView. norm_st. split; reflexivity. }
  destruct Hhb as [C0 V0].
  destruct (heartbeat_waits cfg t0 waiting Hf Hw
              (st (checkState cfg t0 b0 s))) as [C1 V1]; [congruence |].
  set (s1 := st (checkSamples cfg waiting (st (checkState cfg t0 b0 s))))
    in *.
  destruct (checkState_heartbeat cfg t b s1) as [C2 V2].
  assert (Hdo : countEvent kEventHeartBeat (out (checkHeartBeat cfg t s1))
                = 1%nat /\
                heartView (st (checkHeartBeat cfg t s1)) = (true, t)).
  { unfold heartView in V1. pair_facts. apply geb_true in Hdue.
    apply (wp_run (checkHeartBeat cfg t)
      (fun _ s2 e2 => countEvent kEventHeartBeat e2 = 1%nat /\
                      heartView s2 = (true, t))).
    unfold checkHeartBeat. wp_go.
    unfold heartView. norm_st. split; reflexivity. }
  destruct Hdo as [C3 V3].
  rewrite C, C0, C1. repeat split; congruence.
Qed.

Lemma heartbeat_fires_when_due_witness :
  let cfg := withFeatures [kFeatureHeartBeat] 20 200 400 1000 1000 200 5000 in
  let r0 := checkSamples cfg [(0, HIGH); (20, HIGH); (4000, HIGH)] freshButton in
  countEvent kEventHeartBeat (out r0) = 0%nat /\
  countEvent kEventHeartBeat (out (checkState cfg 5000 HIGH (st r0))) = 1%nat.
Proof.
  intros cfg r0.
  assert (Hw : samplesWithin (getHeartBeatInterval cfg) 0
                 [(20, HIGH); (4000, HIGH)]) by (repeat constructor).
  assert (Hdue : getHeartBeatInterval cfg <= Int64.sub 5000 0)
    by (vm_compute; discriminate).
  destruct (heartbeat_fires_when_due cfg freshButton 0 HIGH
              [(20, HIGH); (4000, HIGH)] 5000 HIGH eq_refl eq_refl Hw Hdue)
    as (H1 & _ & H3 & _).
  split; [exact H1 | exact H3].
Defined.

(** ** Features that are switched off *)

Lemma sound_when_false R (HR : Frame R) (c : bool) (m : M unit) :
  c = false -> sound R (when c m).
Proof.
  intros ->. exact (sound_ret R tt).
Qed.

Ltac guard_off :=
  solve [ repeat match goal with
                 | H : isFeature _ _ = false |- _ => rewrite H
                 end; reflexivity ].

(** A pass in which the stages behind a disabled feature are skipped. *)
Ltac frame_off :=
  unfold checkState, checkEvent, checkChanged, checkInitialized;
  repeat first [ apply sound_when_false; [ typeclasses eauto | guard_off ]
               | frame_step ].

Lemma long_press_off cfg now b :
  isFeature cfg kFeatureLongPress = false ->
  sound (emit notLongPressed) (checkState cfg now b).
Proof. intros Hf. frame_off. Qed.

Lemma repeat_press_off cfg now b :
  isFeature cfg kFeatureRepeatPress = false ->
  sound (emit notRepeatPressed) (checkState cfg now b).
Proof. intros Hf. frame_off. Qed.

Lemma double_click_off cfg now b :
  isFeature cfg kFeatureDoubleClick = false ->
  sound (emit notDoubleClicked) (checkState cfg now b).
Proof. intros Hf. frame_off. Qed.

Lemma click_kinds_off cfg now b :
  isFeature cfg kFeatureClick = false ->
  isFeature cfg kFeatureDoubleClick = false ->
  sound (emit notClickKind) (checkState cfg now b).
Proof. intros Hc Hd. frame_off. Qed.

(** X8. A disabled feature is silent over every run, from every object:
    no LongPressed without the LongPress feature, no RepeatPressed
    without RepeatPress, no DoubleClicked without DoubleClick, and no
    Clicked when both Click and DoubleClick are disabled. *)
Theorem disabled_features_are_silent :
  forall cfg samples s,
    let evs := out (checkSamples cfg samples s) in
    (isFeature cfg kFeatureLongPress = false ->
     countEvent kEventLongPressed evs = 0%nat) /\
    (isFeature cfg kFeatureRepeatPress = false ->
     countEvent kEventRepeatPressed evs = 0%nat) /\
    (isFeature cfg kFeatureDoubleClick = false ->
     countEvent kEventDoubleClicked evs = 0%nat) /\
    (isFeature cfg kFeatureClick = false ->
     isFeature cfg kFeatureDoubleClick = false ->
     countEvent kEventClicked evs = 0%nat).
Proof.
  intros cfg samples s evs. subst evs. repeat split.
  - intros Hf.
    apply (countEvent_none _ notLongPressed); [reflexivity |].
    exact (checkSamples_sound cfg _ _
             (fun now b => long_press_off cfg now b Hf) samples s).
  - intros Hf.
    apply (countEvent_none _ notRepeatPressed); [reflexivity |].
    exact (checkSamples_sound cfg _ _
             (fun now b => repeat_press_off cfg now b Hf) samples s).
  - intros Hf.
    apply (countEvent_none _ notDoubleClicked); [reflexivity |].
    exact (checkSamples_sound cfg _ _
             (fun now b => double_click_off cfg now b Hf) samples s).
  - intros Hc Hd.
    apply (countEvent_none _ notClickKind); [reflexivity |].
    exact (checkSamples_sound cfg _ _
             (fun now b => click_kinds_off cfg now b Hc Hd) samples s).
Qed.

Lemma disabled_features_are_silent_witness :
  let cfg := withFeatures [kFeatureClick] 20 200 400 1000 1000 200 5000 in
  countEvent kEventLongPressed
    (out (checkSamples cfg [(1200, LOW); (1300, LOW); (3000, HIGH)]
            heldButton))
  = 0%nat.
Proof.
  intros cfg.
  destruct (disabled_features_are_silent cfg
              [(1200, LOW); (1300, LOW); (3000, HIGH)] heldButton)
    as (H & _).
  exact (H eq_refl).
Defined.

(** ** The click housekeeping, with and without its features *)

Lemma click_features_off cfg now b :
  isFeature cfg kFeatureClick = false ->
  isFeature cfg kFeatureDoubleClick = false ->
  sound (both (keep (fun s => (isFlag kFlagClicked s,
                               isFlag kFlagClickPostponed s,
                               mLastClickTime s)))
           (emit notClickKind))
    (checkState cfg now b).
Proof. intros Hc Hd. frame_off. Qed.

Lemma stageClickCleanup_skipped cfg now s :
  isFeature cfg kFeatureClick || isFeature cfg kFeatureDoubleClick = false ->
  stageClickCleanup cfg now s = mkRes tt s [].
Proof.
  intros Hf. unfold stageClickCleanup. rewrite Hf. reflexivity.
Qed.

(** C3, as amended.  On a sample that the gate accepts, with the button
    initialized, the cleanup stage comes first in the pass after the
    heartbeat.  With at least one of the Click and DoubleClick features
    enabled (either one suffices) the two housekeeping calls run: when
    the double-click delay has elapsed since the last click, they
    dispatch the postponed Clicked if one is pending and leave both the
    Clicked and the ClickPostponed flag clear, so that at the end of the
    pass either flag can only be set for a click that this very sample
    recorded.  With neither feature enabled both calls are skipped: the
    stage leaves the object as it is and dispatches nothing, and the
    whole pass dispatches neither Clicked nor DoubleClicked and leaves
    the Clicked flag, the ClickPostponed flag and the click time as they
    were, however long ago the click was. *)
Theorem click_housekeeping_when_enabled :
  forall cfg s now b,
    gateAccepts cfg now b s = true ->
    mLastButtonState s <> kButtonStateUnknown ->
    let s2 :=
      st (checkDebounced cfg now b (st (checkHeartBeat cfg now s))) in
    let c := stageClickCleanup cfg now s2 in
    let r := checkState cfg now b s in
    (exists rest, out r = out (checkHeartBeat cfg now s) ++ out c ++ rest) /\
    (isFeature cfg kFeatureClick || isFeature cfg kFeatureDoubleClick = true ->
     getDoubleClickDelay cfg <= Int64.sub now (mLastClickTime s) ->
       out c = (if isFlag kFlagClickPostponed s
                then [mkEvent kEventClicked (mLastButtonState s)] else []) /\
       isFlag kFlagClicked (st c) = false /\
       isFlag kFlagClickPostponed (st c) = false /\
       (isFlag kFlagClicked (st r) = true -> mLastClickTime (st r) = now) /\
       (isFlag kFlagClickPostponed (st r) = true ->
        mLastClickTime (st r) = now)) /\
    (isFeature cfg kFeatureClick || isFeature cfg kFeatureDoubleClick = false ->
       c = mkRes tt s2 [] /\
       Forall (fun ev => notClickKind (eventType ev) = true) (out r) /\
       isFlag kFlagClicked (st r) = isFlag kFlagClicked s /\
       isFlag kFlagClickPostponed (st r) = isFlag kFlagClickPostponed s /\
       mLastClickTime (st r) = mLastClickTime s).
Proof.
  intros cfg s now b Hacc Hinit s2 c r. subst c r.
  destruct (accepted_pass cfg now b s Hacc) as (_ & Hv & _ & Hk).
  destruct (Hk Hinit) as [Est Eout]. clear Hk. fold s2 in Hv, Est, Eout.
  unfold holdView in Hv.
  assert (HL : mLastButtonState s2 = mLastButtonState s) by congruence.
  assert (HP : isFlag kFlagClickPostponed s2 = isFlag kFlagClickPostponed s)
    by congruence.
  assert (HT : mLastClickTime s2 = mLastClickTime s) by congruence.
  split; [| split].
  - eexists. rewrite Eout, (checkEvent_head cfg now b s2). reflexivity.
  - intros Hf Hel.
    assert (Hel2 : getDoubleClickDelay cfg
                   <= Int64.sub now (mLastClickTime s2))
      by (rewrite HT; exact Hel).
    destruct (stageClickCleanup_elapsed cfg now s2 Hf Hel2)
      as (Ec & Hc & Hp & _).
    rewrite HP, HL in Ec.
    split; [exact Ec |]. split; [exact Hc |]. split; [exact Hp |].
    rewrite Est. exact (checkEvent_fresh cfg now b s2 Hf Hel2).
  - intros Hf. split; [exact (stageClickCleanup_skipped cfg now s2 Hf) |].
    apply orb_false_iff in Hf. destruct Hf as [Hc Hd].
    destruct (click_features_off cfg now b Hc Hd s) as [Hk He].
    unfold keep in Hk. unfold emit in He. pair_facts.
    repeat split; assumption.
Qed.

Lemma click_housekeeping_when_enabled_witness :
  let cfg :=
    withFeatures [kFeatureClick; kFeatureSuppressClickBeforeDoubleClick]
      20 200 400 1000 1000 200 5000 in
  let off := withFeatures [kFeatureLongPress] 20 200 400 1000 1000 200 5000 in
  let s2 :=
    st (checkDebounced cfg 1200 LOW
          (st (checkHeartBeat cfg 1200 heldAfterClick))) in
  (out (stageClickCleanup cfg 1200 s2) = [mkEvent kEventClicked LOW] /\
   isFlag kFlagClicked (st (stageClickCleanup cfg 1200 s2)) = false /\
   isFlag kFlagClickPostponed (st (stageClickCleanup cfg 1200 s2)) = false) /\
  (Forall (fun ev => notClickKind (eventType ev) = true)
     (out (checkState off 1200 LOW heldAfterClick)) /\
   isFlag kFlagClicked (st (checkState off 1200 LOW heldAfterClick)) = true /\
   isFlag kFlagClickPostponed (st (checkState off 1200 LOW heldAfterClick))
   = true).
Proof.
  intros cfg off s2.
  assert (Hinit : mLastButtonState heldAfterClick <> kButtonStateUnknown)
    by discriminate.
  assert (Hel : getDoubleClickDelay cfg
                <= Int64.sub 1200 (mLastClickTime heldAfterClick))
    by (vm_compute; discriminate).
  destruct (click_housekeeping_when_enabled cfg heldAfterClick 1200 LOW
              eq_refl Hinit) as (_ & Hon & _).
  destruct (click_housekeeping_when_enabled off heldAfterClick 1200 LOW
              eq_refl Hinit) as (_ & _ & Hoff).
  destruct (Hon eq_refl Hel) as (H1 & H2 & H3 & _).
  destruct (Hoff eq_refl) as (_ & K1 & K2 & K3 & _).
  split.
  - split; [exact H1 |]. split; [exact H2 | exact H3].
  - split; [exact K1 |]. split; [exact K2 | exact K3].
Defined.

(** C3, as stated, fails.  A click is recorded and postponed while Click
    is enabled, which leaves the button as reached by the samples listed;
    then the configuration is changed so that neither Click nor
    DoubleClick is enabled.  The housekeeping is now skipped: the sample
    at time 1200 is accepted, the button is initialized and the click of
    time 80 is long past its double-click delay of 400, yet no Clicked is
    dispatched and both flags are still set after the pass. *)
Lemma click_housekeeping_skipped_when_disabled :
  let before :=
    withFeatures [kFeatureClick; kFeatureSuppressClickBeforeDoubleClick]
      20 200 400 1000 1000 200 5000 in
  let cfg := withFeatures [] 20 200 400 1000 1000 200 5000 in
  st (checkSamples before
        [(0, HIGH); (20, HIGH); (30, LOW); (50, LOW); (60, HIGH);
         (80, HIGH); (90, LOW); (110, LOW)] freshButton)
  = heldAfterClick /\
  gateAccepts cfg 1200 LOW heldAfterClick = true /\
  mLastButtonState heldAfterClick <> kButtonStateUnknown /\
  Int64.sub 1200 (mLastClickTime heldAfterClick) = 1120 /\
  out (checkState cfg 1200 LOW heldAfterClick) = [] /\
  isFlag kFlagClicked (st (checkState cfg 1200 LOW heldAfterClick)) = true /\
  isFlag kFlagClickPostponed (st (checkState cfg 1200 LOW heldAfterClick))
    = true.
Proof.
  cbv zeta. repeat split; try (vm_compute; reflexivity).
  vm_compute. discriminate.
Qed.

(** ** What a pass reports, read off the object before it *)

(** Rewriting with the components of two equal views. *)
Ltac view_rw :=
  pair_facts;
  repeat match goal with
         | H : ?l = _ |- context [?l] => rewrite H
         end.

Lemma checkDebounced_val cfg now b s :
  val (checkDebounced cfg now b s) = gateOpen cfg now b s.
Proof.
  apply (wp_run (checkDebounced cfg now b)
           (fun a _ _ => a = gateOpen cfg now b s)).
  unfold checkDebounced, gateOpen. wp_go; reflexivity.
Qed.

Lemma gateOpen_buttonView cfg now b s s' :
  buttonView s' = buttonView s ->
  gateOpen cfg now b s' = gateOpen cfg now b s.
Proof.
  unfold buttonView, holdView, gateOpen. intros H. view_rw. reflexivity.
Qed.

Lemma gateAccepts_gateOpen cfg now b s :
  gateAccepts cfg now b s = gateOpen cfg now b s.
Proof.
  unfold gateAccepts. rewrite checkDebounced_val.
  apply gateOpen_buttonView.
  destruct (checkHeartBeat_frame cfg now s) as [H _]. exact H.
Qed.

(** The two courses of a pass: it reaches [checkEvent], on an object
    that differs from the first in the heartbeat and the debounce state
    only, or it reports at most a HeartBeat and leaves the flags. *)
Lemma pass_cases cfg now b s :
  let r := checkState cfg now b s in
  if classifies cfg now b s then
    exists s2,
      holdView s2 = holdView s /\
      st r = st (checkEvent cfg now b s2) /\
      out r = out (checkHeartBeat cfg now s) ++ out (checkEvent cfg now b s2)
  else
    flagView (st r) = flagView s /\
    out r = out (checkHeartBeat cfg now s) /\
    (mLastButtonState (st r) = mLastButtonState s \/
     mLastButtonState s = kButtonStateUnknown).
Proof.
  intros r. subst r. unfold classifies.
  rewrite <- gateAccepts_gateOpen.
  destruct (gateAccepts cfg now b s) eqn:Hacc; cbn [andb].
  - destruct (accepted_pass cfg now b s Hacc) as (_ & Hv & HU & HK).
    cbv zeta in *.
    destruct (mLastButtonState s =? kButtonStateUnknown) eqn:E;
      cbn [negb]; zbool.
    + destruct (HU E) as [-> ->].
      split; [| split; [reflexivity | right; exact E] ].
      unfold holdView in Hv. unfold flagView. pair_facts. norm_st.
      congruence.
    + destruct (HK E) as [-> ->].
      exists (st (checkDebounced cfg now b (st (checkHeartBeat cfg now s)))).
      split; [exact Hv | split; reflexivity].
  - unfold gateAccepts in Hacc. unfold checkState.
    rewrite !st_bind, !out_bind, Hacc, checkDebounced_quiet.
    cbn [when ret st out app]. rewrite app_nil_r.
    destruct (checkHeartBeat_frame cfg now s) as [H1 _].
    destruct (checkDebounced_frame cfg now b (st (checkHeartBeat cfg now s)))
      as [H2 _].
    unfold keep, buttonView, holdView in *. unfold flagView.
    pair_facts. split; [congruence |]. split; [reflexivity |].
    left. congruence.
Qed.

Lemma heartbeat_only cfg now s k :
  isHeartBeat k = false ->
  countEvent k (out (checkHeartBeat cfg now s)) = 0%nat.
Proof.
  intros Hk. apply (countEvent_none k isHeartBeat); [exact Hk |].
  destruct (checkHeartBeat_frame cfg now s) as (_ & _ & H). exact H.
Qed.

(** A property of [checkEvent] that depends on [holdView] only carries
    over to the whole pass. *)
Lemma pass_count cfg now b s k (due : AceButton -> bool) :
  isHeartBeat k = false ->
  (forall s2, holdView s2 = holdView s -> due s2 = due s) ->
  (forall s2, countEvent k (out (checkEvent cfg now b s2))
              = one_if (due s2)) ->
  countEvent k (out (checkState cfg now b s))
  = one_if (classifies cfg now b s && due s).
Proof.
  intros Hk Hdue Hev.
  pose proof (pass_cases cfg now b s) as H. cbv zeta in H.
  destruct (classifies cfg now b s); cbn [andb].
  - destruct H as (s2 & Hv & _ & ->).
    rewrite countEvent_app, heartbeat_only, Hev, (Hdue s2 Hv) by exact Hk.
    reflexivity.
  - destruct H as (_ & -> & _). rewrite heartbeat_only by exact Hk.
    reflexivity.
Qed.

(** ** Long press *)

(** The number of events of a kind in a trace put together from traces
    known not to hold the kind and from single events. *)
Ltac count_tac :=
  rewrite ?countEvent_app;
  repeat match goal with
         | H : Forall (fun ev => ?K (eventType ev) = true) ?l
           |- context [countEvent ?k ?l] =>
             rewrite (countEvent_none k K l eq_refl H)
         end;
  cbn [countEvent filter eventType EventType_eqb List.length Nat.add].

Lemma stageLongPress_exact cfg now b s :
  wp (stageLongPress cfg now b) (fun _ s' e =>
    countEvent kEventLongPressed e = one_if (longPressDue cfg now b s) /\
    pressView s' = pressView s /\
    isFlag kFlagLongPressed s'
    = (isFlag kFlagLongPressed s || longPressDue cfg now b s)) s.
Proof.
  unfold stageLongPress, checkLongPress, longPressDue, one_if, pressView.
  wp_go; repeat split; try reflexivity.
  all: destruct (isFlag kFlagLongPressed s); reflexivity.
Qed.

Lemma longPressDue_holdView cfg now b s s2 :
  holdView s2 = holdView s ->
  longPressDue cfg now b s2 = longPressDue cfg now b s.
Proof.
  unfold holdView, longPressDue. intros H. view_rw. reflexivity.
Qed.

Lemma checkEvent_long_press cfg now b s :
  wp (checkEvent cfg now b) (fun _ s' e =>
    countEvent kEventLongPressed e = one_if (longPressDue cfg now b s) /\
    (b <> getDefaultReleasedState s ->
     getDefaultReleasedState s' = getDefaultReleasedState s /\
     isFlag kFlagLongPressed s'
     = (isFlag kFlagLongPressed s || longPressDue cfg now b s))) s.
Proof.
  unfold checkEvent, checkChanged. apply wp_bind.
  wp_frame (both (keep pressView)
              (both (keep (isFlag kFlagLongPressed)) (emit notLongPressed))).
  apply wp_bind. fold (stageLongPress cfg now b).
  wp_use stageLongPress_exact. intros (Hcnt & Hview & Hflag).
  assert (Hdue : longPressDue cfg now b s0 = longPressDue cfg now b s)
    by (unfold longPressDue; view_rw; reflexivity).
  rewrite Hdue in *. unfold pressView in Hview. pair_facts.
  destruct (b =? getDefaultReleasedState s) eqn:Hrel.
  - wp_frame (emit notLongPressed). split.
    + count_tac. rewrite Hcnt. lia.
    + intros Hb. zbool. congruence.
  - apply wp_bind.
    wp_frame (both (keep getDefaultReleasedState)
                (both (keep (isFlag kFlagLongPressed))
                   (emit notLongPressed))).
    unfold checkPressed, checkReleased. wp_go.
    all: split; [ count_tac; rewrite Hcnt; lia
                | intros _; split; reflexivity ].
Qed.

(** X9. A pass dispatches LongPressed exactly when it reaches
    [checkEvent] (the gate opens on a known baseline) with the LongPress
    feature enabled, a sample that is not at the released level, the
    Pressed flag set, the LongPressed flag clear and the long-press delay
    elapsed since the press; it then dispatches it once. *)
Theorem long_press_exactly_when_due :
  forall cfg now b s,
    countEvent kEventLongPressed (out (checkState cfg now b s))
    = one_if (classifies cfg now b s && longPressDue cfg now b s).
Proof.
  intros cfg now b s.
  apply (pass_count cfg now b s kEventLongPressed (longPressDue cfg now b)).
  - reflexivity.
  - intros s2. apply longPressDue_holdView.
  - intros s2. destruct (checkEvent_long_press cfg now b s2) as [H _].
    exact H.
Qed.

Lemma hold_pass cfg now b s :
  b <> getDefaultReleasedState s ->
  let r := checkState cfg now b s in
  getDefaultReleasedState (st r) = getDefaultReleasedState s /\
  (countEvent kEventLongPressed (out r)
   + one_if (isFlag kFlagLongPressed s))%nat
  = one_if (isFlag kFlagLongPressed (st r)).
Proof.
  intros Hb r. subst r.
  pose proof (pass_cases cfg now b s) as H. cbv zeta in H.
  destruct (classifies cfg now b s).
  - destruct H as (s2 & Hv & -> & ->).
    pose proof (longPressDue_holdView cfg now b s s2 Hv) as Hdue.
    unfold holdView in Hv. pair_facts.
    destruct (checkEvent_long_press cfg now b s2) as [Hc Hs].
    destruct Hs as [Hr Hf]; [congruence |].
    rewrite countEvent_app, heartbeat_only, Hc, Hf, Hr, Hdue by reflexivity.
    split; [assumption |].
    replace (isFlag kFlagLongPressed s2) with (isFlag kFlagLongPressed s)
      by congruence.
    unfold longPressDue.
    destruct (isFlag kFlagLongPressed s); cbn [negb orb one_if];
      rewrite ?andb_false_r; cbn [andb one_if]; [reflexivity |].
    destruct (_ && _); reflexivity.
  - destruct H as (Hv & -> & _). unfold flagView in Hv. pair_facts.
    rewrite heartbeat_only by reflexivity. split; [assumption |].
    cbn [Nat.add]. congruence.
Qed.

(** X10. While every sample reads a level other than the released one,
    LongPressed is dispatched at most once: exactly once if the
    LongPressed flag goes from clear to set during the run, and never if
    the flag is set at its start. *)
Theorem long_press_once_per_hold :
  forall cfg samples s,
    Forall (fun p => snd p <> getDefaultReleasedState s) samples ->
    let r := checkSamples cfg samples s in
    (countEvent kEventLongPressed (out r)
     + one_if (isFlag kFlagLongPressed s))%nat
    = one_if (isFlag kFlagLongPressed (st r)).
Proof.
  intros cfg samples s Hs r. subst r. revert s Hs.
  induction samples as [| [now b] samples IH]; intros s Hs.
  - reflexivity.
  - inversion Hs as [| ? ? Hb Hrest]; subst. cbn [snd] in Hb.
    destruct (checkSamples_cons cfg now b samples s) as [E1 E2].
    cbn zeta in *. rewrite E1, E2, countEvent_app. clear E1 E2.
    destruct (hold_pass cfg now b s Hb) as [Hr Hc].
    rewrite <- (IH (st (checkState cfg now b s))).
    + lia.
    + rewrite Hr. exact Hrest.
Qed.

Lemma long_press_once_per_hold_witness :
  let cfg :=
    withFeatures [kFeatureLongPress] 20 200 400 1000 1000 200 5000 in
  let r := checkSamples cfg [(1200, LOW); (1900, LOW); (2600, LOW)]
             heldButton in
  (countEvent kEventLongPressed (out r)
   + one_if (isFlag kFlagLongPressed heldButton))%nat
  = one_if (isFlag kFlagLongPressed (st r)).
Proof.
  intros cfg r.
  apply (long_press_once_per_hold cfg [(1200, LOW); (1900, LOW); (2600, LOW)]
           heldButton).
  repeat constructor; discriminate.
Defined.

(** ** Repeat press *)

Lemma stageRepeatPress_exact cfg now b s :
  wp (stageRepeatPress cfg now b) (fun _ s' e =>
    countEvent kEventRepeatPressed e = one_if (repeatPressDue cfg now b s) /\
    mLastButtonState s' = mLastButtonState s /\
    getDefaultReleasedState s' = getDefaultReleasedState s /\
    (repeatPressDue cfg now b s = true ->
     isFlag kFlagRepeatPressed s' = true /\
     mLastRepeatPressTime s' = now)) s.
Proof.
  unfold stageRepeatPress, checkRepeatPress, repeatPressDue, one_if.
  wp_go; repeat split; try reflexivity; try discriminate.
Qed.

Lemma repeatPressDue_holdView cfg now b s s2 :
  holdView s2 = holdView s ->
  repeatPressDue cfg now b s2 = repeatPressDue cfg now b s.
Proof.
  unfold holdView, repeatPressDue. intros H. view_rw. reflexivity.
Qed.

Lemma repeatPressDue_level cfg now b s :
  repeatPressDue cfg now b s = true ->
  (b =? getDefaultReleasedState s) = false.
Proof.
  unfold repeatPressDue. destruct (b =? getDefaultReleasedState s);
    [| reflexivity ].
  cbn [negb]. rewrite andb_false_r. discriminate.
Qed.

Lemma checkEvent_repeat_press cfg now b s :
  wp (checkEvent cfg now b) (fun _ s' e =>
    countEvent kEventRepeatPressed e = one_if (repeatPressDue cfg now b s) /\
    (repeatPressDue cfg now b s = true ->
     isFlag kFlagRepeatPressed s' = true /\
     mLastRepeatPressTime s' = now)) s.
Proof.
  unfold checkEvent, checkChanged. apply wp_bind.
  wp_frame (both (keep pressView) (emit notRepeatPressed)).
  apply wp_bind.
  wp_frame (both (keep pressView) (emit notRepeatPressed)).
  apply wp_bind. fold (stageRepeatPress cfg now b).
  wp_use stageRepeatPress_exact. intros (Hcnt & Hlast & Hrel & Hnew).
  assert (Hdue : repeatPressDue cfg now b s1 = repeatPressDue cfg now b s)
    by (unfold repeatPressDue; view_rw; reflexivity).
  rewrite Hdue in *.
  destruct (repeatPressDue cfg now b s) eqn:Hd.
  - pose proof (repeatPressDue_level cfg now b s Hd) as Hb.
    destruct (Hnew eq_refl) as [Hflag Htime].
    unfold checkPressed, checkReleased. wp_go.
    all: split; [ count_tac; rewrite Hcnt; reflexivity
                | intros _; split; reflexivity ].
  - wp_frame (emit notRepeatPressed). split; [| discriminate ].
    count_tac. rewrite Hcnt. reflexivity.
Qed.

(** X11. A pass dispatches RepeatPressed exactly when it reaches
    [checkEvent] with the RepeatPress feature enabled, a sample that is
    not at the released level, the Pressed flag set, and either the
    repeat-press delay elapsed since the press (first repetition) or the
    repeat-press interval elapsed since the last repetition.  After such
    a pass the RepeatPressed flag is set and the interval is measured
    from the time of that pass. *)
Theorem repeat_press_exactly_when_due :
  forall cfg now b s,
    let r := checkState cfg now b s in
    let due := classifies cfg now b s && repeatPressDue cfg now b s in
    countEvent kEventRepeatPressed (out r) = one_if due /\
    (due = true ->
     isFlag kFlagRepeatPressed (st r) = true /\
     mLastRepeatPressTime (st r) = now).
Proof.
  intros cfg now b s r due. subst r due. split.
  - apply (pass_count cfg now b s kEventRepeatPressed
             (repeatPressDue cfg now b)).
    + reflexivity.
    + intros s2. apply repeatPressDue_holdView.
    + intros s2. destruct (checkEvent_repeat_press cfg now b s2) as [H _].
      exact H.
  - intros Hdue. apply andb_true_iff in Hdue. destruct Hdue as [Hc Hd].
    pose proof (pass_cases cfg now b s) as H. cbv zeta in H.
    rewrite Hc in H. destruct H as (s2 & Hv & -> & _).
    destruct (checkEvent_repeat_press cfg now b s2) as [_ H].
    apply H. rewrite (repeatPressDue_holdView cfg now b s s2 Hv).
    exact Hd.
Qed.

Lemma repeat_press_exactly_when_due_witness :
  let cfg :=
    withFeatures [kFeatureRepeatPress] 20 200 400 1000 1000 200 5000 in
  let r := checkState cfg 1500 LOW repeatingButton in
  countEvent kEventRepeatPressed (out r) = 1%nat /\
  mLastRepeatPressTime (st r) = 1500.
Proof.
  intros cfg r.
  destruct (repeat_press_exactly_when_due cfg 1500 LOW repeatingButton)
    as [Hc Hs].
  destruct (Hs eq_refl) as [_ Ht].
  split; [exact Hc | exact Ht].
Defined.

(** ** Press *)

Lemma pressDue_holdView b s s2 :
  holdView s2 = holdView s -> pressDue b s2 = pressDue b s.
Proof.
  unfold holdView, pressDue. intros H. view_rw. reflexivity.
Qed.

Lemma checkEvent_press_exact cfg now b s :
  wp (checkEvent cfg now b) (fun _ s' e =>
    countEvent kEventPressed e = one_if (pressDue b s) /\
    (pressDue b s = true ->
     isFlag kFlagPressed s' = true /\
     mLastPressTime s' = now /\
     mLastButtonState s' = b)) s.
Proof.
  unfold checkEvent, checkChanged, pressDue.
  apply wp_bind.
  wp_frame (both (keep mLastButtonState)
              (both (keep getDefaultReleasedState) (emit notPressed))).
  apply wp_bind.
  wp_frame (both (keep mLastButtonState)
              (both (keep getDefaultReleasedState) (emit notPressed))).
  apply wp_bind.
  wp_frame (both (keep mLastButtonState)
              (both (keep getDefaultReleasedState) (emit notPressed))).
  unfold checkPressed. wp_go.
  - wp_frame (emit notPressed). split; [| discriminate ].
    count_tac. reflexivity.
  - unfold checkReleased. wp_go. split.
    + count_tac. reflexivity.
    + intros _. repeat split; reflexivity.
  - split; [| discriminate ]. count_tac. reflexivity.
Qed.

(** X12. A pass dispatches Pressed exactly when it reaches [checkEvent]
    with a sample that differs from the confirmed level and is not at the
    released level; as the gate opens for a differing sample only at the
    end of a debounce, a press is never reported before the debounce
    delay has elapsed.  After such a pass the Pressed flag is set, the
    press time is the time of the pass and the sample is the confirmed
    level. *)
Theorem pressed_exactly_when_due :
  forall cfg now b s,
    let r := checkState cfg now b s in
    let due := classifies cfg now b s && pressDue b s in
    countEvent kEventPressed (out r) = one_if due /\
    (due = true ->
     isFlag kFlagDebouncing s = true /\
     getDebounceDelay cfg <= Int64.sub now (mLastDebounceTime s) /\
     isFlag kFlagPressed (st r) = true /\
     mLastPressTime (st r) = now /\
     mLastButtonState (st r) = b).
Proof.
  intros cfg now b s r due. subst r due. split.
  - apply (pass_count cfg now b s kEventPressed (pressDue b)).
    + reflexivity.
    + intros s2. apply pressDue_holdView.
    + intros s2. destruct (checkEvent_press_exact cfg now b s2) as [H _].
      exact H.
  - intros Hdue. apply andb_true_iff in Hdue. destruct Hdue as [Hc Hd].
    assert (Hgate : isFlag kFlagDebouncing s = true /\
                    getDebounceDelay cfg
                    <= Int64.sub now (mLastDebounceTime s)).
    { unfold classifies, gateOpen, pressDue in Hc, Hd.
      destruct (isFlag kFlagDebouncing s).
      - apply andb_true_iff in Hc. destruct Hc as [Hc _]. zbool. auto.
      - destruct (b =? mLastButtonState s); discriminate. }
    destruct Hgate as [Hg1 Hg2]. split; [exact Hg1 |]. split; [exact Hg2 |].
    pose proof (pass_cases cfg now b s) as H. cbv zeta in H.
    rewrite Hc in H. destruct H as (s2 & Hv & -> & _).
    destruct (checkEvent_press_exact cfg now b s2) as [_ H].
    apply H. rewrite (pressDue_holdView b s s2 Hv). exact Hd.
Qed.

Lemma pressed_exactly_when_due_witness :
  let cfg := withFeatures [kFeatureClick] 20 200 400 1000 1000 200 5000 in
  let r := checkState cfg 130 LOW debouncingButton in
  countEvent kEventPressed (out r) = 1%nat /\ mLastPressTime (st r) = 130.
Proof.
  intros cfg r.
  destruct (pressed_exactly_when_due cfg 130 LOW debouncingButton)
    as [Hc Hs].
  destruct (Hs eq_refl) as (_ & _ & _ & Ht & _).
  split; [exact Hc | exact Ht].
Defined.

(** ** Presses and releases *)

#[global] Instance tally_Frame : Frame tally.
Proof.
  split; unfold tally, releaseCount.
  - intros s. split; [reflexivity |]. cbn. lia.
  - intros s s1 s2 e1 e2 [R1 T1] [R2 T2]. split; [congruence |].
    rewrite !countEvent_app. lia.
Qed.

Lemma checkReleased_tally cfg now b s :
  wp (checkReleased cfg now b) (fun _ s' e =>
    mLastButtonState s' = mLastButtonState s /\
    getDefaultReleasedState s' = getDefaultReleasedState s /\
    (releaseCount e <= 1)%nat /\
    countEvent kEventPressed e = 0%nat) s.
Proof.
  unfold checkReleased, releaseCount. wp_step. wp_step. wp_step.
  - wp_go. repeat split; cbn; lia.
  - apply wp_bind.
    wp_frame (both (keep mLastButtonState)
                (both (keep getDefaultReleasedState) (emit notLevelChange))).
    wp_go.
    all: repeat split; count_tac; lia.
Qed.

Lemma checkEvent_tally cfg now b : sound tally (checkEvent cfg now b).
Proof.
  intros s. apply (wp_run (checkEvent cfg now b) (fun _ s' e => tally s s' e)).
  unfold checkEvent, checkChanged, tally, releaseCount, isDown.
  apply wp_bind.
  wp_frame (both (keep mLastButtonState)
              (both (keep getDefaultReleasedState) (emit notLevelChange))).
  apply wp_bind.
  wp_frame (both (keep mLastButtonState)
              (both (keep getDefaultReleasedState) (emit notLevelChange))).
  apply wp_bind.
  wp_frame (both (keep mLastButtonState)
              (both (keep getDefaultReleasedState) (emit notLevelChange))).
  unfold checkPressed. wp_go.
  - wp_use checkReleased_tally. norm_st. intros (HL & HR & Hrc & Hp).
    split; [congruence |]. unfold releaseCount in Hrc.
    rewrite HL, HR, Hc0. count_tac. rewrite Hp.
    destruct (mLastButtonState s =? getDefaultReleasedState s) eqn:E;
      [| lia ].
    exfalso. zbool. congruence.
  - unfold checkReleased. wp_go. split; [reflexivity |].
    count_tac. lia.
  - split; [reflexivity |]. count_tac. lia.
Qed.

Lemma isDown_le (s : AceButton) : (isDown s <= 1)%nat.
Proof. unfold isDown. destruct (_ =? _); lia. Qed.

Lemma isDown_unknown (s : AceButton) :
  mLastButtonState s = kButtonStateUnknown -> isDown s = 1%nat.
Proof.
  intros H. unfold isDown. rewrite H.
  destruct (kButtonStateUnknown =? getDefaultReleasedState s) eqn:E;
    [| reflexivity ].
  exfalso. zbool. symmetry in E.
  exact (getDefaultReleasedState_not_unknown s E).
Qed.

Lemma checkState_tally cfg now b : sound tally (checkState cfg now b).
Proof.
  intros s. pose proof (pass_cases cfg now b s) as H. cbv zeta in H.
  destruct (classifies cfg now b s).
  - destruct H as (s2 & Hv & -> & ->).
    destruct (checkEvent_tally cfg now b s2) as [HR HT].
    assert (Hd : isDown s2 = isDown s)
      by (unfold holdView in Hv; unfold isDown; view_rw; reflexivity).
    assert (Hr : getDefaultReleasedState s2 = getDefaultReleasedState s)
      by (unfold holdView in Hv; pair_facts; assumption).
    unfold tally, releaseCount in *. split; [congruence |].
    rewrite !countEvent_app, !heartbeat_only by reflexivity. lia.
  - destruct H as (Hv & -> & HL). unfold tally, releaseCount.
    assert (Hr : getDefaultReleasedState (st (checkState cfg now b s))
                 = getDefaultReleasedState s)
      by (unfold flagView in Hv; pair_facts; assumption).
    split; [exact Hr |].
    rewrite !heartbeat_only by reflexivity. cbn [Nat.add].
    destruct HL as [HL | HL].
    + unfold isDown. rewrite HL, Hr. lia.
    + rewrite (isDown_unknown s HL).
      pose proof (isDown_le (st (checkState cfg now b s))). lia.
Qed.

(** X13. Over every run, from every object, the Released and
    LongReleased events together never outnumber the Pressed events by
    more than one, and not at all when the run starts at the released
    level: every reported release but the first of a button that starts
    out down follows a reported press. *)
Theorem releases_follow_presses :
  forall cfg samples s,
    let evs := out (checkSamples cfg samples s) in
    (countEvent kEventReleased evs + countEvent kEventLongReleased evs
     <= countEvent kEventPressed evs + isDown s)%nat.
Proof.
  intros cfg samples s evs. subst evs.
  destruct (checkSamples_sound cfg tally _ (checkState_tally cfg) samples s)
    as [_ H].
  unfold releaseCount in H. lia.
Qed.

(** ** Clicks and double clicks *)

(** Case analysis on the flags, features and comparisons of a goal. *)
Ltac bool_tac :=
  repeat match goal with
         | H : @eq bool _ _ |- _ => revert H
         end;
  repeat match goal with
         | |- context [isFlag ?k ?s] => destruct (isFlag k s)
         | |- context [isFeature ?c ?f] => destruct (isFeature c f)
         | |- context [?a >=? ?b] => destruct (a >=? b)
         | |- context [?a =? ?b] => destruct (a =? b)
         end;
  cbn; intros; repeat split; congruence.

Lemma stageClickCleanup_exact cfg now s :
  wp (stageClickCleanup cfg now) (fun _ s' e =>
    countEvent kEventClicked e = one_if (flushDue cfg now s) /\
    countEvent kEventDoubleClicked e = 0%nat /\
    tapView s' = tapView s /\
    isFlag kFlagClicked s'
    = (isFlag kFlagClicked s
       && negb (clickFeatures cfg
                && (Int64.sub now (mLastClickTime s)
                    >=? getDoubleClickDelay cfg))) /\
    isFlag kFlagClickPostponed s'
    = (isFlag kFlagClickPostponed s
       && negb (clickFeatures cfg
                && (Int64.sub now (mLastClickTime s)
                    >=? getDoubleClickDelay cfg)))) s.
Proof.
  unfold stageClickCleanup, checkPostponedClick, checkOrphanedClick,
    flushDue, clickFeatures, tapView, one_if.
  wp_go.
  all: repeat split; try reflexivity; bool_tac.
Qed.

Lemma clickEvaluation_exact cfg now s :
  wp (clickEvaluation cfg now) (fun _ s' e =>
    countEvent kEventDoubleClicked e = one_if (secondClick cfg now s) /\
    countEvent kEventClicked e = one_if (firstClick cfg now s) /\
    mLastButtonState s' = mLastButtonState s /\
    getDefaultReleasedState s' = getDefaultReleasedState s /\
    (secondClick cfg now s = true ->
     isFlag kFlagClicked s' = false /\
     isFlag kFlagClickPostponed s' = false)) s.
Proof.
  unfold clickEvaluation, checkClicked, checkDoubleClicked,
    secondClick, firstClick, doubleClickSeen, clickWindow, clickFeatures,
    one_if.
  wp_go.
  all: repeat split; try reflexivity; bool_tac.
Qed.

Lemma checkReleased_clicks cfg now b s :
  (b =? getDefaultReleasedState s) = true ->
  wp (checkReleased cfg now b) (fun _ s' e =>
    countEvent kEventDoubleClicked e = one_if (secondClick cfg now s) /\
    countEvent kEventClicked e = one_if (firstClick cfg now s) /\
    (secondClick cfg now s = true ->
     isFlag kFlagClicked s' = false /\
     isFlag kFlagClickPostponed s' = false /\
     isFlag kFlagDoubleClicked s' = false)) s.
Proof.
  intros Hb. unfold checkReleased. wp_step. wp_step.
  apply wp_bind. fold (clickEvaluation cfg now).
  wp_use clickEvaluation_exact. intros (Hdc & Hcl & _ & _ & Hfl).
  wp_go.
  all: split; [ count_tac; rewrite Hdc; lia |].
  all: split; [ count_tac; rewrite Hcl; lia |].
  all: intros Hsc; destruct (Hfl Hsc) as [H1 H2]; auto.
Qed.

(** The click tests after the cleanup and the stages that leave the
    click state alone. *)
Lemma secondClick_later cfg now s s' :
  mLastPressTime s' = mLastPressTime s ->
  mLastClickTime s' = mLastClickTime s ->
  isFlag kFlagClicked s'
  = (isFlag kFlagClicked s
     && negb (clickFeatures cfg
              && (Int64.sub now (mLastClickTime s)
                  >=? getDoubleClickDelay cfg))) ->
  secondClick cfg now s' = secondClick cfg now s.
Proof.
  intros H1 H2 H3.
  unfold secondClick, clickWindow, clickFeatures in *.
  rewrite H1, H2, H3. clear H1 H2 H3. bool_tac.
Qed.

Lemma firstClick_later cfg now s s' :
  mLastPressTime s' = mLastPressTime s ->
  mLastClickTime s' = mLastClickTime s ->
  isFlag kFlagDoubleClicked s' = isFlag kFlagDoubleClicked s ->
  isFlag kFlagClicked s'
  = (isFlag kFlagClicked s
     && negb (clickFeatures cfg
              && (Int64.sub now (mLastClickTime s)
                  >=? getDoubleClickDelay cfg))) ->
  firstClick cfg now s' = firstClick cfg now s.
Proof.
  intros H1 H2 H3 H4.
  unfold firstClick, doubleClickSeen, clickWindow, clickFeatures in *.
  rewrite H1, H2, H3, H4. clear H1 H2 H3 H4. bool_tac.
Qed.

Lemma checkEvent_clicks cfg now b s :
  wp (checkEvent cfg now b) (fun _ s' e =>
    countEvent kEventDoubleClicked e = one_if (doubleClickDue cfg now b s) /\
    countEvent kEventClicked e
    = (one_if (flushDue cfg now s) + one_if (clickDue cfg now b s))%nat /\
    (doubleClickDue cfg now b s = true ->
     isFlag kFlagClicked s' = false /\
     isFlag kFlagClickPostponed s' = false /\
     isFlag kFlagDoubleClicked s' = false)) s.
Proof.
  unfold checkEvent, checkChanged, doubleClickDue, clickDue, releaseDue.
  apply wp_bind. fold (stageClickCleanup cfg now).
  wp_use stageClickCleanup_exact. intros (Hcl & Hdc & Hv & Hck & Hpp).
  unfold tapView in Hv. pair_facts.
  apply wp_bind.
  wp_frame (both (keep tapView)
              (both (keep (isFlag kFlagClicked)) (emit notClickKind))).
  apply wp_bind.
  wp_frame (both (keep tapView)
              (both (keep (isFlag kFlagClicked)) (emit notClickKind))).
  unfold checkPressed. wp_go.
  - assert (Hsc : secondClick cfg now (with_mLastButtonState b s1)
                  = secondClick cfg now s)
      by (apply secondClick_later; assumption).
    assert (Hfc : firstClick cfg now (with_mLastButtonState b s1)
                  = firstClick cfg now s)
      by (apply firstClick_later; assumption).
    assert (Hrel : (b =? getDefaultReleasedState (with_mLastButtonState b s1))
                   = true)
      by (norm_st; reflexivity).
    pose proof (checkReleased_clicks cfg now b _ Hrel) as HR.
    unfold wp in HR |- *. rewrite Hsc, Hfc in HR.
    destruct HR as (A & B & C).
    split; [ count_tac; rewrite Hdc, A; reflexivity |].
    split; [ count_tac; rewrite Hcl, B; reflexivity | exact C ].
  - unfold checkReleased. wp_go. unfold one_if at 1 3.
    split; [ count_tac; rewrite Hdc; reflexivity |].
    split; [ count_tac; rewrite Hcl; lia | discriminate ].
  - unfold one_if at 1 3.
    split; [ count_tac; rewrite Hdc; reflexivity |].
    split; [ count_tac; rewrite Hcl; lia | discriminate ].
Qed.

Lemma pass_count_nat cfg now b s k (n : AceButton -> nat) :
  isHeartBeat k = false ->
  (forall s2, holdView s2 = holdView s -> n s2 = n s) ->
  (forall s2, countEvent k (out (checkEvent cfg now b s2)) = n s2) ->
  countEvent k (out (checkState cfg now b s))
  = if classifies cfg now b s then n s else 0%nat.
Proof.
  intros Hk Hn Hev.
  pose proof (pass_cases cfg now b s) as H. cbv zeta in H.
  destruct (classifies cfg now b s).
  - destruct H as (s2 & Hv & _ & ->).
    rewrite countEvent_app, heartbeat_only, Hev, (Hn s2 Hv) by exact Hk.
    reflexivity.
  - destruct H as (_ & -> & _). rewrite heartbeat_only by exact Hk.
    reflexivity.
Qed.

Lemma doubleClickDue_holdView cfg now b s s2 :
  holdView s2 = holdView s ->
  doubleClickDue cfg now b s2 = doubleClickDue cfg now b s.
Proof.
  unfold holdView, doubleClickDue, releaseDue, secondClick, clickWindow.
  intros H. view_rw. reflexivity.
Qed.

Lemma clickDue_holdView cfg now b s s2 :
  holdView s2 = holdView s ->
  clickDue cfg now b s2 = clickDue cfg now b s.
Proof.
  unfold holdView, clickDue, releaseDue, firstClick, doubleClickSeen,
    clickWindow.
  intros H. view_rw. reflexivity.
Qed.

Lemma flushDue_holdView cfg now s s2 :
  holdView s2 = holdView s ->
  flushDue cfg now s2 = flushDue cfg now s.
Proof.
  unfold holdView, flushDue. intros H. view_rw. reflexivity.
Qed.

(** X14. A pass dispatches DoubleClicked exactly when it reaches
    [checkEvent] with a sample that changes the confirmed level to the
    released level, the DoubleClick feature enabled, the release within
    the click delay of the press, the Clicked flag set and less than the
    double-click delay elapsed since that click.  After such a pass the
    Clicked, ClickPostponed and DoubleClicked flags are all clear, so a
    third click in quick succession counts as a first click again. *)
Theorem double_click_exactly_when_due :
  forall cfg now b s,
    let r := checkState cfg now b s in
    let due := classifies cfg now b s && doubleClickDue cfg now b s in
    countEvent kEventDoubleClicked (out r) = one_if due /\
    (due = true ->
     isFlag kFlagClicked (st r) = false /\
     isFlag kFlagClickPostponed (st r) = false /\
     isFlag kFlagDoubleClicked (st r) = false).
Proof.
  intros cfg now b s r due. subst r due. split.
  - apply (pass_count cfg now b s kEventDoubleClicked
             (doubleClickDue cfg now b)).
    + reflexivity.
    + intros s2. apply doubleClickDue_holdView.
    + intros s2. destruct (checkEvent_clicks cfg now b s2) as [H _].
      exact H.
  - intros Hdue. apply andb_true_iff in Hdue. destruct Hdue as [Hc Hd].
    pose proof (pass_cases cfg now b s) as H. cbv zeta in H.
    rewrite Hc in H. destruct H as (s2 & Hv & -> & _).
    destruct (checkEvent_clicks cfg now b s2) as (_ & _ & H).
    apply H. rewrite (doubleClickDue_holdView cfg now b s s2 Hv).
    exact Hd.
Qed.

(** X15. The Clicked events of a pass that reaches [checkEvent] are the
    flush of a postponed click whose double-click delay has run out, and
    the click of a release confirmed within the click delay of the press
    that is not a double click, unless clicks are postponed; each is
    dispatched once, and a pass that does not reach [checkEvent]
    dispatches none.  Either of the Click and DoubleClick features
    enables both. *)
Theorem clicked_exactly_when_due :
  forall cfg now b s,
    countEvent kEventClicked (out (checkState cfg now b s))
    = if classifies cfg now b s
      then (one_if (flushDue cfg now s) + one_if (clickDue cfg now b s))%nat
      else 0%nat.
Proof.
  intros cfg now b s.
  apply (pass_count_nat cfg now b s kEventClicked
           (fun s => (one_if (flushDue cfg now s)
                      + one_if (clickDue cfg now b s))%nat)).
  - reflexivity.
  - intros s2 Hv. cbv beta.
    rewrite (flushDue_holdView cfg now s s2 Hv),
      (clickDue_holdView cfg now b s s2 Hv).
    reflexivity.
  - intros s2. destruct (checkEvent_clicks cfg now b s2) as (_ & H & _).
    exact H.
Qed.

Lemma double_click_exactly_when_due_witness :
  let cfg :=
    withFeatures [kFeatureDoubleClick; kFeatureSuppressClickBeforeDoubleClick]
      20 200 400 1000 1000 200 5000 in
  let r := checkState cfg 170 HIGH releasingAfterClick in
  countEvent kEventDoubleClicked (out r) = 1%nat /\
  isFlag kFlagClicked (st r) = false.
Proof.
  intros cfg r.
  destruct (double_click_exactly_when_due cfg 170 HIGH releasingAfterClick)
    as [Hc Hs].
  destruct (Hs eq_refl) as (Hk & _ & _).
  split; [exact Hc | exact Hk].
Defined.

(** ** Release *)

Lemma clickEvaluation_flags cfg now s :
  wp (clickEvaluation cfg now) (fun _ s' _ =>
    isFlag kFlagClicked s' = clickedAtRelease cfg now s /\
    isFlag kFlagDoubleClicked s' = doubleClickedAtRelease cfg now s) s.
Proof.
  unfold clickEvaluation, checkClicked, checkDoubleClicked,
    clickedAtRelease, doubleClickedAtRelease, doubleClickSeen, clickWindow,
    clickFeatures.
  wp_go.
  all: split; bool_tac.
Qed.

Lemma checkReleased_exact cfg now b s :
  (b =? getDefaultReleasedState s) = true ->
  countEvent kEventReleased (out (checkReleased cfg now b s))
  = one_if (negb (suppressDue cfg now s)) /\
  countEvent kEventLongReleased (out (checkReleased cfg now b s))
  = one_if (suppressDue cfg now s && isFlag kFlagLongPressed s).
Proof.
  intros Hb. zbool.
  rewrite (checkReleased_report cfg now b s Hb).
  destruct (clickEvaluation_frame cfg now s) as (_ & Hk & He).
  destruct (clickEvaluation_flags cfg now s) as [Hc Hd].
  unfold keep in Hk. pair_facts.
  assert (Hs : releasedSuppressed cfg (st (clickEvaluation cfg now s))
               = suppressDue cfg now s).
  { unfold releasedSuppressed, suppressDue. congruence. }
  unfold emit in He. rewrite !countEvent_app.
  rewrite (countEvent_none kEventReleased isClickKind _ eq_refl He).
  rewrite (countEvent_none kEventLongReleased isClickKind _ eq_refl He).
  unfold releaseReport. rewrite Hs.
  replace (isFlag kFlagLongPressed (st (clickEvaluation cfg now s)))
    with (isFlag kFlagLongPressed s) by congruence.
  destruct (suppressDue cfg now s), (isFlag kFlagLongPressed s);
    split; reflexivity.
Qed.

Lemma wp_and {A} (m : M A) (Q1 : A -> AceButton -> list Event -> Prop)
  (R : AceButton -> AceButton -> list Event -> Prop)
  (Q : A -> AceButton -> list Event -> Prop) (s : AceButton) :
  wp m Q1 s -> sound R m ->
  (forall a s' e, Q1 a s' e -> R s s' e -> Q a s' e) ->
  wp m Q s.
Proof.
  intros H1 H2 HQ. unfold wp in *. apply HQ; [exact H1 | apply H2].
Qed.

Lemma stageClickCleanup_hold cfg now :
  sound (both (keep (fun s => (isFlag kFlagLongPressed s,
                               isFlag kFlagRepeatPressed s)))
           (emit notLevelChange))
    (stageClickCleanup cfg now).
Proof. frame_tac. Qed.

Lemma stageLongPress_idle cfg now b s :
  (b =? getDefaultReleasedState s) = true ->
  stageLongPress cfg now b s = mkRes tt s [].
Proof.
  intros Hb. unfold stageLongPress, when.
  destruct (isFeature _ _); [| reflexivity ].
  unfold checkLongPress, bind, gets. cbn [val st out]. rewrite Hb.
  reflexivity.
Qed.

Lemma stageRepeatPress_idle cfg now b s :
  (b =? getDefaultReleasedState s) = true ->
  stageRepeatPress cfg now b s = mkRes tt s [].
Proof.
  intros Hb. unfold stageRepeatPress, when.
  destruct (isFeature _ _); [| reflexivity ].
  unfold checkRepeatPress, bind, gets. cbn [val st out]. rewrite Hb.
  reflexivity.
Qed.

Lemma clickedAtRelease_later cfg now s s' :
  mLastPressTime s' = mLastPressTime s ->
  mLastClickTime s' = mLastClickTime s ->
  isFlag kFlagDoubleClicked s' = isFlag kFlagDoubleClicked s ->
  isFlag kFlagClicked s'
  = (isFlag kFlagClicked s
     && negb (clickFeatures cfg
              && (Int64.sub now (mLastClickTime s)
                  >=? getDoubleClickDelay cfg))) ->
  clickedAtRelease cfg now s' = clickedAtRelease cfg now s.
Proof.
  intros H1 H2 H3 H4.
  unfold clickedAtRelease, doubleClickSeen, clickWindow, clickFeatures in *.
  rewrite H1, H2, H3, H4. clear H1 H2 H3 H4. bool_tac.
Qed.

Lemma doubleClickedAtRelease_later cfg now s s' :
  mLastPressTime s' = mLastPressTime s ->
  mLastClickTime s' = mLastClickTime s ->
  isFlag kFlagDoubleClicked s' = isFlag kFlagDoubleClicked s ->
  isFlag kFlagClicked s'
  = (isFlag kFlagClicked s
     && negb (clickFeatures cfg
              && (Int64.sub now (mLastClickTime s)
                  >=? getDoubleClickDelay cfg))) ->
  doubleClickedAtRelease cfg now s' = doubleClickedAtRelease cfg now s.
Proof.
  intros H1 H2 H3 H4.
  unfold doubleClickedAtRelease, doubleClickSeen, clickWindow,
    clickFeatures in *.
  rewrite H1, H2, H3, H4. clear H1 H2 H3 H4. bool_tac.
Qed.

Lemma suppressDue_later cfg now s s' :
  mLastPressTime s' = mLastPressTime s ->
  mLastClickTime s' = mLastClickTime s ->
  isFlag kFlagDoubleClicked s' = isFlag kFlagDoubleClicked s ->
  isFlag kFlagLongPressed s' = isFlag kFlagLongPressed s ->
  isFlag kFlagRepeatPressed s' = isFlag kFlagRepeatPressed s ->
  isFlag kFlagClicked s'
  = (isFlag kFlagClicked s
     && negb (clickFeatures cfg
              && (Int64.sub now (mLastClickTime s)
                  >=? getDoubleClickDelay cfg))) ->
  suppressDue cfg now s' = suppressDue cfg now s.
Proof.
  intros H1 H2 H3 H4 H5 H6. unfold suppressDue.
  rewrite (clickedAtRelease_later cfg now s s' H1 H2 H3 H6).
  rewrite (doubleClickedAtRelease_later cfg now s s' H1 H2 H3 H6).
  rewrite H4, H5. reflexivity.
Qed.

Lemma wp_eq {A} (m : M A) (Q : A -> AceButton -> list Event -> Prop)
  (s : AceButton) a s' e :
  m s = mkRes a s' e -> Q a s' e -> wp m Q s.
Proof.
  intros E HQ. unfold wp. rewrite E. exact HQ.
Qed.

Lemma checkEvent_releases cfg now b s :
  wp (checkEvent cfg now b) (fun _ _ e =>
    countEvent kEventReleased e
    = one_if (releaseDue b s && negb (suppressDue cfg now s)) /\
    countEvent kEventLongReleased e
    = one_if (releaseDue b s && suppressDue cfg now s
              && isFlag kFlagLongPressed s)) s.
Proof.
  unfold releaseDue. destruct (b =? getDefaultReleasedState s) eqn:Hrel.
  - unfold checkEvent. apply wp_bind. fold (stageClickCleanup cfg now).
    eapply wp_and;
      [ apply stageClickCleanup_exact | apply stageClickCleanup_hold
      | cbv beta; intros _ s1 e1 (_ & _ & Hv & Hck & _) HR ].
    frame_facts HR. unfold tapView in Hv. pair_facts.
    apply wp_bind. fold (stageLongPress cfg now b).
    eapply wp_eq; [ apply stageLongPress_idle; congruence |].
    apply wp_bind. fold (stageRepeatPress cfg now b).
    eapply wp_eq; [ apply stageRepeatPress_idle; congruence |].
    unfold checkChanged, checkPressed. wp_go.
    + assert (Hb : (b =? getDefaultReleasedState (with_mLastButtonState b s1))
                   = true) by (norm_st; reflexivity).
      destruct (checkReleased_exact cfg now b _ Hb) as [A B].
      rewrite (suppressDue_later cfg now s (with_mLastButtonState b s1))
        in A, B by assumption.
      replace (isFlag kFlagLongPressed (with_mLastButtonState b s1))
        with (isFlag kFlagLongPressed s) in B by (symmetry; assumption).
      unfold wp. split; count_tac; [rewrite A | rewrite B]; reflexivity.
    + split; count_tac; reflexivity.
  - rewrite andb_false_r. cbn [andb one_if].
    unfold checkEvent, checkChanged. apply wp_bind.
    wp_frame (both (keep mLastButtonState)
                (both (keep getDefaultReleasedState) (emit notLevelChange))).
    apply wp_bind.
    wp_frame (both (keep mLastButtonState)
                (both (keep getDefaultReleasedState) (emit notLevelChange))).
    apply wp_bind.
    wp_frame (both (keep mLastButtonState)
                (both (keep getDefaultReleasedState) (emit notLevelChange))).
    unfold checkPressed, checkReleased. wp_go.
    all: split; count_tac; reflexivity.
Qed.

Lemma releaseDue_holdView b s s2 :
  holdView s2 = holdView s -> releaseDue b s2 = releaseDue b s.
Proof.
  unfold holdView, releaseDue. intros H. view_rw. reflexivity.
Qed.

Lemma suppressDue_holdView cfg now s s2 :
  holdView s2 = holdView s -> suppressDue cfg now s2 = suppressDue cfg now s.
Proof.
  unfold holdView, suppressDue, clickedAtRelease, doubleClickedAtRelease,
    doubleClickSeen, clickWindow.
  intros H. view_rw. reflexivity.
Qed.

(** X16. A pass dispatches Released exactly when it reaches [checkEvent]
    with a sample that changes the confirmed level to the released level
    and the release is not suppressed, and LongReleased exactly when such
    a release is suppressed while the LongPressed flag is set.  Whether
    it is suppressed is decided on the LongPressed and RepeatPressed
    flags of the hold and on the Clicked and DoubleClicked flags as the
    click evaluation of this very release leaves them.  Each is
    dispatched once, and never both. *)
Theorem released_exactly_when_due :
  forall cfg now b s,
    let evs := out (checkState cfg now b s) in
    let due := classifies cfg now b s && releaseDue b s in
    countEvent kEventReleased evs
    = one_if (due && negb (suppressDue cfg now s)) /\
    countEvent kEventLongReleased evs
    = one_if (due && (suppressDue cfg now s && isFlag kFlagLongPressed s)).
Proof.
  intros cfg now b s evs due. subst evs due. split.
  - rewrite <- andb_assoc.
    apply (pass_count cfg now b s kEventReleased
             (fun s => releaseDue b s && negb (suppressDue cfg now s))).
    + reflexivity.
    + intros s2 Hv. cbv beta.
      rewrite (releaseDue_holdView b s s2 Hv),
        (suppressDue_holdView cfg now s s2 Hv).
      reflexivity.
    + intros s2. destruct (checkEvent_releases cfg now b s2) as [H _].
      exact H.
  - rewrite <- andb_assoc.
    apply (pass_count cfg now b s kEventLongReleased
             (fun s => releaseDue b s
                       && (suppressDue cfg now s
                           && isFlag kFlagLongPressed s))).
    + reflexivity.
    + intros s2 Hv. cbv beta.
      rewrite (releaseDue_holdView b s s2 Hv),
        (suppressDue_holdView cfg now s s2 Hv).
      unfold holdView in Hv. pair_facts.
      replace (isFlag kFlagLongPressed s2)
        with (isFlag kFlagLongPressed s) by (symmetry; assumption).
      reflexivity.
    + intros s2. destruct (checkEvent_releases cfg now b s2) as [_ H].
      rewrite H, <- andb_assoc. reflexivity.
Qed.

(** ** The first confirmed samples *)

Lemma checkReleased_trace cfg now b s :
  b = getDefaultReleasedState s ->
  out (checkReleased cfg now b s)
  = out (clickEvaluation cfg now s)
    ++ releaseTrace cfg now (mLastButtonState s) s.
Proof.
  intros Hb. rewrite (checkReleased_report cfg now b s Hb). f_equal.
  destruct (clickEvaluation_frame cfg now s) as ((HL & _) & Hk & _).
  destruct (clickEvaluation_flags cfg now s) as [Hc Hd].
  unfold keep in Hk. pair_facts.
  unfold releaseReport, releaseTrace.
  replace (releasedSuppressed cfg (st (clickEvaluation cfg now s)))
    with (suppressDue cfg now s)
    by (unfold releasedSuppressed, suppressDue; congruence).
  rewrite HL.
  replace (isFlag kFlagLongPressed (st (clickEvaluation cfg now s)))
    with (isFlag kFlagLongPressed s) by congruence.
  reflexivity.
Qed.

Lemma checkEvent_release_trace cfg now b s :
  b <> mLastButtonState s ->
  b = getDefaultReleasedState s ->
  wp (checkEvent cfg now b) (fun _ _ e =>
    exists before,
      e = before ++ releaseTrace cfg now b s /\
      Forall (fun ev => notLevelChange (eventType ev) = true) before) s.
Proof.
  intros Hne Hrel.
  assert (Hrb : (b =? getDefaultReleasedState s) = true)
    by (apply Z.eqb_eq; exact Hrel).
  unfold checkEvent. apply wp_bind. fold (stageClickCleanup cfg now).
  eapply wp_and;
    [ apply stageClickCleanup_exact | apply stageClickCleanup_hold
    | cbv beta; intros _ s1 e1 (_ & _ & Hv & Hck & _) HR ].
  frame_facts HR. unfold tapView in Hv. pair_facts.
  apply wp_bind. fold (stageLongPress cfg now b).
  eapply wp_eq; [ apply stageLongPress_idle; congruence |].
  apply wp_bind. fold (stageRepeatPress cfg now b).
  eapply wp_eq; [ apply stageRepeatPress_idle; congruence |].
  unfold checkChanged, checkPressed. wp_go.
  set (s3 := with_mLastButtonState b s1).
  assert (Hb3 : b = getDefaultReleasedState s3)
    by (subst s3; norm_st; congruence).
  assert (Hs : suppressDue cfg now s3 = suppressDue cfg now s)
    by (apply suppressDue_later; assumption).
  assert (Ht : releaseTrace cfg now (mLastButtonState s3) s3
               = releaseTrace cfg now b s).
  { unfold releaseTrace. rewrite Hs.
    replace (isFlag kFlagLongPressed s3) with (isFlag kFlagLongPressed s)
      by (symmetry; assumption).
    reflexivity. }
  unfold wp. rewrite (checkReleased_trace cfg now b s3 Hb3), Ht.
  destruct (clickEvaluation_frame cfg now s3) as (_ & _ & He).
  exists (e1 ++ out (clickEvaluation cfg now s3)).
  rewrite app_assoc. split; [reflexivity |].
  apply Forall_app. split; [exact Hf0 |].
  exact (isClickKind_notLevelChange _ He).
Qed.

(** C7, as amended.  On the first sample that the gate accepts, while
    [mLastButtonState] holds the unknown sentinel, the initialization
    records the level of the sample as the baseline and stops the
    classification: the pass dispatches nothing but the HeartBeat of the
    heartbeat check, if one is due.  On a later accepted sample whose
    level differs from the confirmed level the pass ends with Pressed when
    the level is the pressed one.  When it is the released one the pass
    reports no Pressed and ends with Released, unless the release is
    suppressed: a flag among LongPressed, RepeatPressed, Clicked and
    DoubleClicked is set, the two click flags as the click evaluation of
    this release leaves them, and its suppress-after feature is enabled.
    A suppressed release ends with LongReleased when the LongPressed flag
    is set and reports neither otherwise. *)
Theorem first_confirmed_samples :
  forall cfg s now b,
    gateAccepts cfg now b s = true ->
    let r := checkState cfg now b s in
    (mLastButtonState s = kButtonStateUnknown ->
       mLastButtonState (st r) = to_uint16 b /\
       out r = out (checkHeartBeat cfg now s) /\
       Forall (fun ev => isHeartBeat (eventType ev) = true) (out r)) /\
    (mLastButtonState s <> kButtonStateUnknown ->
     b <> mLastButtonState s ->
     b <> getDefaultReleasedState s ->
       exists before,
         out r = before ++ [mkEvent kEventPressed b] /\
         Forall (fun ev => notLevelChange (eventType ev) = true) before) /\
    (mLastButtonState s <> kButtonStateUnknown ->
     b <> mLastButtonState s ->
     b = getDefaultReleasedState s ->
       exists before,
         Forall (fun ev => notLevelChange (eventType ev) = true) before /\
         out r = before ++
           (if suppressDue cfg now s
            then if isFlag kFlagLongPressed s
                 then [mkEvent kEventLongReleased b]
                 else []
            else [mkEvent kEventReleased b])).
Proof.
  intros cfg s now b Hacc r. subst r.
  destruct (accepted_pass cfg now b s Hacc) as (_ & Hv & Hu & Hk).
  destruct (checkHeartBeat_frame cfg now s) as (_ & _ & Hhb).
  unfold emit in Hhb.
  set (s2 := st (checkDebounced cfg now b (st (checkHeartBeat cfg now s))))
    in *.
  assert (Hsup : suppressDue cfg now s2 = suppressDue cfg now s)
    by (apply suppressDue_holdView; exact Hv).
  unfold holdView in Hv.
  assert (HL : mLastButtonState s2 = mLastButtonState s) by congruence.
  assert (HR : getDefaultReleasedState s2 = getDefaultReleasedState s)
    by congruence.
  assert (HLP : isFlag kFlagLongPressed s2 = isFlag kFlagLongPressed s)
    by congruence.
  split; [| split].
  - intros HU. destruct (Hu HU) as [Est Eout]. rewrite Est, Eout.
    split; [reflexivity |]. split; [reflexivity | exact Hhb].
  - intros Hinit Hne Hp. destruct (Hk Hinit) as [_ Eout]. rewrite Eout.
    destruct (checkEvent_press cfg now b s2) as (before & E & HF);
      [congruence | congruence |].
    exists (out (checkHeartBeat cfg now s) ++ before).
    rewrite E, app_assoc. split; [reflexivity |].
    apply Forall_app. split; [| exact HF].
    now apply isHeartBeat_notLevelChange.
  - intros Hinit Hne Hrel. destruct (Hk Hinit) as [_ Eout]. rewrite Eout.
    destruct (checkEvent_release_trace cfg now b s2)
      as (before & E & HF); [congruence | congruence |].
    exists (out (checkHeartBeat cfg now s) ++ before).
    split.
    { apply Forall_app. split; [| exact HF].
      now apply isHeartBeat_notLevelChange. }
    rewrite E, app_assoc. unfold releaseTrace. rewrite Hsup, HLP.
    reflexivity.
Qed.

Lemma first_confirmed_samples_witness :
  let cfg := withFeatures [] 20 200 400 1000 1000 200 5000 in
  let cfgLP :=
    withFeatures [kFeatureSuppressAfterLongPress]
      20 200 400 1000 1000 200 5000 in
  mLastButtonState (st (checkState cfg 20 HIGH bootingButton)) = HIGH /\
  out (checkState cfg 20 HIGH bootingButton) = [] /\
  (exists before,
     out (checkState cfg 50 LOW restingButton)
     = before ++ [mkEvent kEventPressed LOW] /\
     Forall (fun ev => notLevelChange (eventType ev) = true) before) /\
  (exists before,
     Forall (fun ev => notLevelChange (eventType ev) = true) before /\
     out (checkState cfgLP 80 HIGH heldButton)
     = before ++ [mkEvent kEventReleased HIGH]).
Proof.
  intros cfg cfgLP.
  destruct (first_confirmed_samples cfg bootingButton 20 HIGH eq_refl)
    as (H1 & _ & _).
  destruct (first_confirmed_samples cfg restingButton 50 LOW eq_refl)
    as (_ & H2 & _).
  destruct (first_confirmed_samples cfgLP heldButton 80 HIGH eq_refl)
    as (_ & _ & H3).
  destruct (H1 eq_refl) as (A1 & A2 & _).
  split; [exact A1 |]. split; [exact A2 |]. split.
  - apply H2; discriminate.
  - apply H3; [discriminate | discriminate | reflexivity].
Defined.

(** C7, as stated, fails in two places.  With the heartbeat enabled, the
    first accepted sample of a fresh button, taken 5000 ms after its first
    sample, dispatches a HeartBeat.  And with long presses reported and
    Released suppressed after a long press, a button that is down while
    the first samples are taken (baseline [LOW]), released, pressed again
    at time 80 and held until LongPressed is reported, answers the
    accepted sample at the released level taken at time 1220 with
    LongReleased, not with Released. *)
Lemma first_confirmed_samples_report_other_events :
  (let cfg := withFeatures [kFeatureHeartBeat] 20 200 400 1000 1000 200 5000 in
   let s := st (checkState cfg 0 LOW freshButton) in
   mLastButtonState s = kButtonStateUnknown /\
   gateAccepts cfg 5000 LOW s = true /\
   out (checkState cfg 5000 LOW s)
   = [mkEvent kEventHeartBeat kButtonStateUnknown]) /\
  (let cfg :=
     withFeatures [kFeatureLongPress; kFeatureSuppressAfterLongPress]
       20 200 400 1000 1000 200 5000 in
   let baseline := checkSamples cfg [(0, LOW); (20, LOW)] freshButton in
   let held :=
     checkSamples cfg
       [(30, HIGH); (50, HIGH); (60, LOW); (80, LOW); (1100, LOW);
        (1200, HIGH)] (st baseline) in
   mLastButtonState (st baseline) = LOW /\
   out baseline = [] /\
   out held = [mkEvent kEventReleased HIGH; mkEvent kEventPressed LOW;
               mkEvent kEventLongPressed LOW] /\
   mLastButtonState (st held) = LOW /\
   getDefaultReleasedState (st held) = HIGH /\
   gateAccepts cfg 1220 HIGH (st held) = true /\
   out (checkState cfg 1220 HIGH (st held))
   = [mkEvent kEventLongReleased HIGH]).
Proof.
  cbv zeta. repeat split; vm_compute; reflexivity.
Qed.

(** ** The confirmed level *)

Lemma level_pass cfg now b s :
  b = LOW \/ b = HIGH ->
  wp (checkState cfg now b) (fun _ s' _ =>
    mLastButtonState s' = mLastButtonState s \/ mLastButtonState s' = b) s.
Proof.
  intros Hb.
  assert (Hu : to_uint16 b = b) by (destruct Hb; subst b; reflexivity).
  unfold checkState. wp_step.
  wp_frame (keep mLastButtonState).
  wp_step. wp_frame (keep mLastButtonState).
  destruct a0; [| wp_go; left; reflexivity ].
  unfold when at 1. apply wp_bind.
  destruct (Z.eq_dec (mLastButtonState s1) kButtonStateUnknown) as [E | E].
  - eapply wp_eq; [ apply checkInitialized_unknown; exact E |].
    cbn [when]. apply wp_ret. right. exact Hu.
  - eapply wp_eq; [ apply checkInitialized_known; exact E |].
    cbn [when]. unfold checkEvent.
    apply wp_bind. wp_frame (keep mLastButtonState).
    apply wp_bind. wp_frame (keep mLastButtonState).
    apply wp_bind. wp_frame (keep mLastButtonState).
    wp_go; [| left; reflexivity ].
    wp_use checkChanged_level. intros (HL & _). right. exact HL.
Qed.

Lemma checkSamples_level cfg samples :
  Forall (fun p => snd p = LOW \/ snd p = HIGH) samples ->
  forall s,
    let s' := st (checkSamples cfg samples s) in
    mLastButtonState s' = mLastButtonState s \/
    In (mLastButtonState s') (map snd samples).
Proof.
  induction 1 as [| [now b] samples Hb _ IH]; intros s s'; subst s'.
  - left. reflexivity.
  - cbn [snd] in Hb.
    destruct (checkSamples_cons cfg now b samples s) as [E1 _].
    cbn zeta in E1. rewrite E1. clear E1. cbn [map snd].
    pose proof (level_pass cfg now b s Hb) as H1. unfold wp in H1.
    destruct (IH (st (checkState cfg now b s))) as [H2 | H2].
    + rewrite H2. destruct H1 as [H1 | H1].
      * left. exact H1.
      * right. left. symmetry. exact H1.
    + right. right. exact H2.
Qed.

(** X17. When every sample reads [LOW] or [HIGH], the confirmed level
    after a run is the one before it or one of the levels sampled; so a
    button whose baseline is known never falls back to the unknown
    state, and the baseline, once set, is [LOW] or [HIGH]. *)
Theorem confirmed_level_is_sampled :
  forall cfg samples s,
    Forall (fun p => snd p = LOW \/ snd p = HIGH) samples ->
    let s' := st (checkSamples cfg samples s) in
    (mLastButtonState s' = mLastButtonState s \/
     In (mLastButtonState s') (map snd samples)) /\
    (mLastButtonState s <> kButtonStateUnknown ->
     mLastButtonState s' <> kButtonStateUnknown) /\
    (mLastButtonState s' = mLastButtonState s \/
     mLastButtonState s' = LOW \/ mLastButtonState s' = HIGH).
Proof.
  intros cfg samples s Hs s'. subst s'.
  pose proof (checkSamples_level cfg samples Hs s) as H. cbv zeta in H.
  assert (Hin : forall v, In v (map snd samples) -> v = LOW \/ v = HIGH).
  { intros v Hv. apply in_map_iff in Hv. destruct Hv as (p & <- & Hp).
    rewrite Forall_forall in Hs. exact (Hs p Hp). }
  split; [exact H |]. split.
  - intros Hk. destruct H as [H | H]; [congruence |].
    destruct (Hin _ H) as [E | E]; rewrite E; discriminate.
  - destruct H as [H | H]; [left; exact H | right; exact (Hin _ H)].
Qed.

Lemma confirmed_level_is_sampled_witness :
  let cfg := withFeatures [kFeatureClick] 20 200 400 1000 1000 200 5000 in
  mLastButtonState
    (st (checkSamples cfg [(100, LOW); (130, LOW); (200, HIGH)] idleButton))
  <> kButtonStateUnknown.
Proof.
  intros cfg.
  assert (Hs : Forall (fun p : Z * Z => snd p = LOW \/ snd p = HIGH)
                 [(100, LOW); (130, LOW); (200, HIGH)])
    by (repeat (apply Forall_cons; [ cbn; auto |]); apply Forall_nil).
  destruct (confirmed_level_is_sampled cfg _ idleButton Hs) as (_ & H & _).
  apply H. discriminate.
Defined.

(** ** Consistency of the flags *)

Lemma holdConsistent_holdFlags s s' :
  holdFlags s' = holdFlags s -> holdConsistent s -> holdConsistent s'.
Proof.
  unfold holdFlags, holdConsistent. intros H. view_rw. auto.
Qed.

Ltac flag_cases :=
  repeat match goal with
         | H : @eq bool _ _ |- _ => revert H
         end;
  repeat match goal with
         | |- context [isFlag ?k ?s] => destruct (isFlag k s)
         end;
  cbn; intros; try discriminate; auto.

Lemma stageLongPress_consistent cfg now b s :
  wp (stageLongPress cfg now b) (fun _ s' _ =>
    (mLastButtonState s', getDefaultReleasedState s', isFlag kFlagPressed s',
     isFlag kFlagRepeatPressed s', isFlag kFlagDoubleClicked s')
    = (mLastButtonState s, getDefaultReleasedState s, isFlag kFlagPressed s,
       isFlag kFlagRepeatPressed s, isFlag kFlagDoubleClicked s) /\
    (isFlag kFlagLongPressed s' = true ->
     isFlag kFlagLongPressed s = true \/ isFlag kFlagPressed s = true)) s.
Proof.
  unfold stageLongPress, checkLongPress. wp_go.
  all: split; [ reflexivity | flag_cases ].
Qed.

Lemma stageRepeatPress_consistent cfg now b s :
  wp (stageRepeatPress cfg now b) (fun _ s' _ =>
    (mLastButtonState s', getDefaultReleasedState s', isFlag kFlagPressed s',
     isFlag kFlagLongPressed s', isFlag kFlagDoubleClicked s')
    = (mLastButtonState s, getDefaultReleasedState s, isFlag kFlagPressed s,
       isFlag kFlagLongPressed s, isFlag kFlagDoubleClicked s) /\
    (isFlag kFlagRepeatPressed s' = true ->
     isFlag kFlagRepeatPressed s = true \/ isFlag kFlagPressed s = true)) s.
Proof.
  unfold stageRepeatPress, checkRepeatPress. wp_go.
  all: split; [ reflexivity | flag_cases ].
Qed.

Lemma checkEvent_consistent cfg now b s :
  b <> kButtonStateUnknown ->
  holdConsistent s ->
  wp (checkEvent cfg now b) (fun _ s' _ => holdConsistent s') s.
Proof.
  intros Hb (HP & HL & HR & HD). unfold checkEvent.
  apply wp_bind. wp_frame (keep holdFlags).
  apply wp_bind. fold (stageLongPress cfg now b).
  wp_use stageLongPress_consistent. intros (Hv1 & HL1). pair_facts.
  apply wp_bind. fold (stageRepeatPress cfg now b).
  wp_use stageRepeatPress_consistent. intros (Hv2 & HR2). pair_facts.
  assert (K : holdConsistent s'0).
  { unfold holdConsistent. repeat split.
    - assert (Hp : isFlag kFlagPressed s = true) by congruence.
      destruct (HP Hp). congruence.
    - assert (Hp : isFlag kFlagPressed s = true) by congruence.
      destruct (HP Hp). congruence.
    - intros Hl. rewrite H6 in Hl.
      destruct (HL1 Hl) as [Hx | Hx]; [| congruence ].
      assert (Hp : isFlag kFlagPressed s = true)
        by (apply HL; congruence).
      congruence.
    - intros Hr.
      destruct (HR2 Hr) as [Hx | Hx]; [| congruence ].
      assert (Hp : isFlag kFlagPressed s = true)
        by (apply HR; congruence).
      congruence.
    - congruence. }
  unfold checkChanged, checkPressed. wp_go.
  - wp_use checkReleased_clears; [ zbool; norm_st; congruence |].
    intros (C1 & C2 & C3 & C4 & _). unfold holdConsistent.
    repeat split; congruence.
  - unfold checkReleased. wp_go. unfold holdConsistent. norm_st. zbool.
    repeat split; try reflexivity; congruence.
  - exact K.
Qed.

Lemma holdConsistent_holdView s s' :
  holdView s' = holdView s -> holdConsistent s -> holdConsistent s'.
Proof.
  intros H. apply holdConsistent_holdFlags.
  unfold holdView in H. unfold holdFlags. view_rw. reflexivity.
Qed.

Lemma consistent_pass cfg now b s :
  b <> kButtonStateUnknown ->
  holdConsistent s ->
  holdConsistent (st (checkState cfg now b s)).
Proof.
  intros Hb K.
  pose proof (pass_cases cfg now b s) as H. cbv zeta in H.
  destruct (classifies cfg now b s).
  - destruct H as (s2 & Hv & -> & _).
    apply (checkEvent_consistent cfg now b s2 Hb).
    exact (holdConsistent_holdView s s2 Hv K).
  - destruct H as (Hv & _ & HL).
    destruct K as (HP & HLp & HRp & HD).
    unfold flagView in Hv. pair_facts.
    unfold holdConsistent. repeat split.
    + assert (Hp : isFlag kFlagPressed s = true) by congruence.
      destruct (HP Hp) as [Hx Hy].
      destruct HL as [HL | HL]; congruence.
    + assert (Hp : isFlag kFlagPressed s = true) by congruence.
      destruct (HP Hp) as [Hx Hy].
      destruct HL as [HL | HL]; congruence.
    + intros Hl. assert (Hp : isFlag kFlagPressed s = true)
        by (apply HLp; congruence).
      congruence.
    + intros Hr. assert (Hp : isFlag kFlagPressed s = true)
        by (apply HRp; congruence).
      congruence.
    + congruence.
Qed.

Lemma init_consistent pin d id s0 : holdConsistent (init pin d id s0).
Proof.
  unfold holdConsistent, init. cbv zeta. rewrite setDefaultReleasedState_eq.
  destruct (_ =? HIGH); cbn; repeat split; intros; congruence.
Qed.

Lemma checkSamples_consistent cfg samples :
  Forall (fun p => snd p = LOW \/ snd p = HIGH) samples ->
  forall s, holdConsistent s ->
            holdConsistent (st (checkSamples cfg samples s)).
Proof.
  induction 1 as [| [now b] samples Hb _ IH]; intros s K.
  - exact K.
  - cbn [snd] in Hb.
    destruct (checkSamples_cons cfg now b samples s) as [E1 _].
    cbn zeta in E1. rewrite E1. apply IH.
    apply consistent_pass; [| exact K ].
    destruct Hb as [-> | ->]; discriminate.
Qed.

(** X18. The flags of a hold are consistent in a button as [init] leaves
    it, and stay consistent over every run of samples that read [LOW] or
    [HIGH]: Pressed is set only while a known level other than the
    released one is confirmed, LongPressed and RepeatPressed are set only
    together with Pressed, and the DoubleClicked flag is never left set
    by a pass. *)
Theorem hold_flags_stay_consistent :
  forall cfg samples pin d id s0 s,
    holdConsistent (init pin d id s0) /\
    (Forall (fun p => snd p = LOW \/ snd p = HIGH) samples ->
     holdConsistent s ->
     holdConsistent (st (checkSamples cfg samples s))).
Proof.
  intros cfg samples pin d id s0 s. split.
  - apply init_consistent.
  - intros Hs K. exact (checkSamples_consistent cfg samples Hs s K).
Qed.

Lemma hold_flags_stay_consistent_witness :
  let cfg :=
    withFeatures [kFeatureClick; kFeatureLongPress]
      20 200 400 1000 1000 200 5000 in
  holdConsistent
    (st (checkSamples cfg [(0, HIGH); (30, HIGH); (60, LOW); (90, LOW)]
           (init 2 HIGH 0 heartOnlyButton))).
Proof.
  intros cfg.
  destruct (hold_flags_stay_consistent cfg
              [(0, HIGH); (30, HIGH); (60, LOW); (90, LOW)]
              2 HIGH 0 heartOnlyButton (init 2 HIGH 0 heartOnlyButton))
    as [K H].
  apply H; [| exact K ].
  repeat (apply Forall_cons; [ cbn; auto |]). apply Forall_nil.
Defined.
